(** * lnurl-pay with POS mode: a shallow embedding and its properties

    The repository wraps the [lnurl-pay] client and adds a "POS mode"
    resolution of Lightning addresses.  Two variants of the entry module are
    shipped:

    - [src/unnamed/part_001], the module with its own HTTP client
      ([PosClient] and [HttpClient] below);
    - [src/unnamed/part_002], the thin wrapper over the library
      ([LibWrapper], its metadata helpers, and [WrapperOps], its
      operations, below).

    Data flows through the program as untyped JavaScript values, so the
    embedding starts with the fragment of the language the program uses
    ([Js]), then the platform services it calls ([Sha256], [Json]) and then
    the program itself, function by function.  What the program calls and
    does not determine (the network, [JSON.parse], the wrapped library) is a
    parameter, [Platform]; [Scenario] is one platform, with the provider of
    the specification's end-to-end scenario, to run the operations against.
    [Spec] holds the statements of the specification in its own words, and
    the properties follow, each under the number of the statement it
    settles.

    Scope of the model of the language:
    - a string is the sequence of bytes of its UTF-8 encoding; [length]
      counts the UTF-16 code units of the text so encoded;
    - a number is [NaN], an infinity or the rational value of a binary64
      number; the results of the arithmetic and of the reading of numbers
      are rounded to binary64, to the nearest value and to the even one of
      two equally near; the sign of zero is outside the model;
    - an object is an association list of its own data properties in
      insertion order; the keys the program reads are never inherited ones;
    - a promise is its outcome: a value, or the message of the [Error] it
      rejects with;
    - the wording of the [TypeError] messages is the one of V8. *)

From Stdlib Require Import ZArith QArith Qround Qabs Qpower Lqa.
From Stdlib Require Import List String Ascii Bool Lia.
From Stdlib Require Import DecimalString DecimalPos.
Import ListNotations.

Set Warnings "-register-all".

Open Scope string_scope.
Open Scope Z_scope.

(* ------------------------------------------------------------------ *)
(** ** The fragment of JavaScript used by the program                  *)
(* ------------------------------------------------------------------ *)

Module Js.

(** Numbers. *)
Inductive number : Type :=
| NaN : number
| PInf : number
| NInf : number
| Num (q : Q) : number.

(** Values.  [VFun name] is a function value, known by its source text. *)
Inductive value : Type :=
| VUndefined : value
| VNull : value
| VBool (b : bool) : value
| VNum (n : number) : value
| VStr (s : string) : value
| VArr (items : list value) : value
| VObj (props : list (string * value)) : value
| VFun (name : string) : value.

(** The outcome of an evaluation that may throw: the value, or the message
    of the thrown [Error]. *)
Inductive result (A : Type) : Type :=
| Ok (a : A) : result A
| Throw (message : string) : result A.

Arguments Ok {A} a.
Arguments Throw {A} message.

Definition bind {A B : Type} (r : result A) (k : A -> result B) : result B :=
  match r with
  | Ok a => k a
  | Throw m => Throw m
  end.

(** [try { body } catch (error) { handler }] *)
Definition try_catch {A : Type} (body : result A) (handler : string -> result A)
  : result A :=
  match body with
  | Ok a => Ok a
  | Throw m => handler m
  end.

Notation "'let*' x ':=' r 'in' k" := (bind r (fun x => k))
  (at level 10, x pattern, r at level 100, k at level 200).

(** *** Numbers *)

Definition num_of_Z (z : Z) : number := Num (inject_Z z).

Definition Qltb (x y : Q) : bool :=
  match Qcompare x y with Lt => true | _ => false end.

Definition Qleb (x y : Q) : bool :=
  match Qcompare x y with Gt => false | _ => true end.

(** [a < b] on numbers. *)
Definition num_lt (a b : number) : bool :=
  match a, b with
  | NaN, _ | _, NaN => false
  | PInf, _ => false
  | _, NInf => false
  | NInf, _ => true
  | _, PInf => true
  | Num x, Num y => Qltb x y
  end.

(** [a <= b] on numbers. *)
Definition num_le (a b : number) : bool :=
  match a, b with
  | NaN, _ | _, NaN => false
  | NInf, _ => true
  | _, PInf => true
  | PInf, _ => false
  | _, NInf => false
  | Num x, Num y => Qleb x y
  end.

(** [a > b] is [b < a]. *)
Definition num_gt (a b : number) : bool := num_lt b a.

(** *** Rounding to binary64 *)

(** The largest [e] with [2^e <= q], for [q > 0]. *)
Definition log2_floor (q : Q) : Z :=
  let t := Z.log2 (Qnum q) - Z.log2 (Zpos (Qden q)) in
  if Qleb (2 ^ t) q then t else t - 1.

(** The integer nearest to [q], the even one of two equally near. *)
Definition round_half_even (q : Q) : Z :=
  let f := Qfloor q in
  match Qcompare (q - inject_Z f) (1 # 2) with
  | Lt => f
  | Gt => f + 1
  | Eq => if Z.even f then f else f + 1
  end.

(** The binary64 value nearest to [q > 0]: 53 significant bits, a spacing
    that stays [2^-1074] below [2^-1022], infinity from [2^1024] on. *)
Definition round64_pos (q : Q) : number :=
  let spacing := (2 ^ Z.max (log2_floor q - 52) (-1074))%Q in
  let v := (inject_Z (round_half_even (q / spacing)) * spacing)%Q in
  if Qleb (2 ^ 1024) v then PInf else Num (Qred v).

Definition num_opp (a : number) : number :=
  match a with
  | NaN => NaN
  | PInf => NInf
  | NInf => PInf
  | Num q => Num (Qred (- q))
  end.

(** The number that an exact result [q] is rounded to. *)
Definition round64 (q : Q) : number :=
  match Qcompare q 0 with
  | Eq => Num 0
  | Gt => round64_pos q
  | Lt => num_opp (round64_pos (- q))
  end.

Definition num_eqb (a b : number) : bool :=
  match a, b with
  | Num x, Num y => Qeq_bool x y
  | PInf, PInf | NInf, NInf => true
  | _, _ => false
  end.

(** [a / 1000] and [a * 1000]: the only arithmetic of the program. *)
Definition num_div1000 (a : number) : number :=
  match a with
  | Num q => round64 (q / 1000)
  | other => other
  end.

Definition num_mul1000 (a : number) : number :=
  match a with
  | Num q => round64 (q * 1000)
  | other => other
  end.

(** [Number.isInteger] *)
Definition num_isInteger (a : number) : bool :=
  match a with
  | Num q => Pos.eqb (Qden (Qred q)) 1
  | _ => false
  end.

Definition string_of_Z (z : Z) : string := NilZero.string_of_int (Z.to_int z).

(** *** The text of a number *)

(** The least [n], from [start] on, with [q < 10^n]. *)
Fixpoint decimal_exponent (fuel : nat) (start : Z) (q : Q) : Z :=
  match fuel with
  | O => start
  | S fuel' =>
      if Qltb q (10 ^ start) then start
      else decimal_exponent fuel' (start + 1) q
  end.

(** Whether [s * 10^(n - k)] is rounded to [q]. *)
Definition reads_back (q : Q) (n k s : Z) : bool :=
  num_eqb (round64_pos (inject_Z s * 10 ^ (n - k))) (Num q).

(** The shortest digits: the least [k], from [k] on, and an [s] of [k] digits
    such that [s * 10^(n - k)] is rounded to [q]; of two such [s] the one
    nearer to [q], and the even one if they are equally near. *)
Fixpoint shortest_digits (fuel : nat) (k : Z) (q : Q) (n : Z) : Z * Z :=
  let scale := (10 ^ (n - k))%Q in
  let lo := Qfloor (q / scale) in
  let hi := lo + 1 in
  let nearest :=
    match Qcompare (q - inject_Z lo * scale) (inject_Z hi * scale - q) with
    | Lt => lo
    | Gt => hi
    | Eq => if Z.even lo then lo else hi
    end in
  match fuel with
  | O => (k, nearest)
  | S fuel' =>
      match reads_back q n k lo, reads_back q n k hi with
      | true, true => (k, nearest)
      | true, false => (k, lo)
      | false, true => (k, hi)
      | false, false => shortest_digits fuel' (k + 1) q n
      end
  end.

Fixpoint zeros (n : nat) : string :=
  match n with
  | O => EmptyString
  | S n' => String "0" (zeros n')
  end.

(** The digits [digits] of a number below [10^n], written as the language
    writes them: in full up to 21 digits before the point and 6 zeros after
    it, with an exponent beyond. *)
Definition write_decimal (n : Z) (digits : string) : string :=
  let k := Z.of_nat (String.length digits) in
  if (k <=? n) && (n <=? 21) then digits ++ zeros (Z.to_nat (n - k))
  else if (0 <? n) && (n <=? 21)
  then substring 0 (Z.to_nat n) digits ++ "."
         ++ substring (Z.to_nat n) (Z.to_nat (k - n)) digits
  else if (-6 <? n) && (n <=? 0)
  then "0." ++ zeros (Z.to_nat (- n)) ++ digits
  else
    let e := n - 1 in
    (if k =? 1 then digits
     else substring 0 1 digits ++ "." ++ substring 1 (Z.to_nat (k - 1)) digits)
      ++ "e" ++ (if 0 <=? e then "+" else "-") ++ string_of_Z (Z.abs e).

(** The text of a binary64 value [q > 0]. *)
Definition positive_toString (q : Q) : string :=
  let n := decimal_exponent 8 ((log2_floor q * 30103) / 100000 - 1) q in
  let '(k, s) := shortest_digits 17 1 q n in
  if Qeq_bool (inject_Z s) (10 ^ k)
  then write_decimal (n + 1) "1"
  else write_decimal n (string_of_Z s).

(** [Number.prototype.toString].  An integer of at most [2^53] in absolute
    value is written with all its digits: every integer that near is a
    number of its own, so that no shorter text is read back as it.  Any
    other number is written with the shortest digits that are read back as
    it, with an exponent from [10^21] on and below [10^-6]. *)
Definition num_toString (a : number) : string :=
  match a with
  | NaN => "NaN"
  | PInf => "Infinity"
  | NInf => "-Infinity"
  | Num q =>
      let q' := Qred q in
      if Pos.eqb (Qden q') 1 && (Z.abs (Qnum q') <=? 2 ^ 53)
      then string_of_Z (Qnum q')
      else
        match round64 q' with
        | Num x =>
            (if Qltb x 0 then "-" else EmptyString)
              ++ positive_toString (Qabs x)
        | PInf => "Infinity"
        | NInf => "-Infinity"
        | NaN => "NaN"
        end
  end.

(** *** Strings *)

(** [hay.includes(needle)] *)
Fixpoint includes (needle hay : string) : bool :=
  if prefix needle hay then true
  else match hay with
       | EmptyString => false
       | String _ rest => includes needle rest
       end.

(** [s.startsWith(p)] *)
Definition startsWith (p s : string) : bool := prefix p s.

(** [s.split(c)] for a separator of one character. *)
Fixpoint split (c : ascii) (s : string) : list string :=
  match s with
  | EmptyString => [EmptyString]
  | String a rest =>
      if Ascii.eqb a c then EmptyString :: split c rest
      else match split c rest with
           | part :: parts => String a part :: parts
           | [] => [String a EmptyString]
           end
  end.

(** [s.substring(0, n)] *)
Definition substring0 (n : nat) (s : string) : string := substring 0 n s.

(** The number of UTF-16 code units of the text that the bytes [s] encode:
    one for a character of one, two or three bytes, two for a character of
    four bytes; [pending] counts the continuation bytes still to come.  A
    byte that begins no character counts as one unit. *)
Fixpoint utf16_units (pending : nat) (s : string) : nat :=
  match s with
  | EmptyString => O
  | String c rest =>
      let n := nat_of_ascii c in
      if Nat.ltb 0 pending && Nat.leb 128 n && Nat.ltb n 192
      then utf16_units (pending - 1) rest
      else if Nat.leb 192 n && Nat.ltb n 224 then S (utf16_units 1 rest)
      else if Nat.leb 224 n && Nat.ltb n 240 then S (utf16_units 2 rest)
      else if Nat.leb 240 n && Nat.ltb n 248 then S (S (utf16_units 3 rest))
      else S (utf16_units 0 rest)
  end.

(** [s.length] *)
Definition utf16_length (s : string) : nat := utf16_units 0 s.

Definition nat_length (s : string) : number :=
  num_of_Z (Z.of_nat (utf16_length s)).

(** [parts.join(sep)] on strings. *)
Fixpoint join (sep : string) (parts : list string) : string :=
  match parts with
  | [] => EmptyString
  | [p] => p
  | p :: rest => p ++ sep ++ join sep rest
  end.

(** *** Conversions *)

(** Truthiness ([!v] is its negation). *)
Definition truthy (v : value) : bool :=
  match v with
  | VUndefined | VNull => false
  | VBool b => b
  | VNum NaN => false
  | VNum (Num q) => negb (Z.eqb (Qnum q) 0)
  | VNum _ => true
  | VStr s => negb (String.eqb s EmptyString)
  | VArr _ | VObj _ | VFun _ => true
  end.

(** [a || b] *)
Definition or_else (a b : value) : value := if truthy a then a else b.

(** [ToString], as performed by template literals and [String(v)]. *)
Fixpoint toString (v : value) : string :=
  match v with
  | VUndefined => "undefined"
  | VNull => "null"
  | VBool true => "true"
  | VBool false => "false"
  | VNum n => num_toString n
  | VStr s => s
  | VArr items =>
      join "," (map (fun it => match it with
                               | VUndefined | VNull => EmptyString
                               | _ => toString it
                               end) items)
  | VObj _ => "[object Object]"
  | VFun name => name
  end.

(** [typeof v === "string"] and [Array.isArray(v)] *)
Definition is_string (v : value) : bool :=
  match v with VStr _ => true | _ => false end.

Definition isArray (v : value) : bool :=
  match v with VArr _ => true | _ => false end.

(** [v === "literal"] *)
Definition eq_str (v : value) (lit : string) : bool :=
  match v with VStr s => String.eqb s lit | _ => false end.

Fixpoint lookup (k : string) (props : list (string * value)) : value :=
  match props with
  | [] => VUndefined
  | (k', v) :: rest => if String.eqb k' k then v else lookup k rest
  end.

(** [v.k] for a data property [k]: reading from [null] or [undefined]
    throws, a value without the property gives [undefined]. *)
Definition get (v : value) (k : string) : result value :=
  match v with
  | VUndefined =>
      Throw ("Cannot read properties of undefined (reading '" ++ k ++ "')")
  | VNull =>
      Throw ("Cannot read properties of null (reading '" ++ k ++ "')")
  | VObj props => Ok (lookup k props)
  | _ => Ok VUndefined
  end.

(** [item[i]] on an array. *)
Definition index (items : list value) (i : nat) : value :=
  nth i items VUndefined.

(** *** Reading numbers from text *)

Definition is_space (c : ascii) : bool :=
  let n := nat_of_ascii c in
  (Nat.leb 9 n && Nat.leb n 13) || Nat.eqb n 32.

Fixpoint trim_left (s : string) : string :=
  match s with
  | String c rest => if is_space c then trim_left rest else s
  | EmptyString => EmptyString
  end.

Fixpoint trim_right (s : string) : string :=
  match s with
  | EmptyString => EmptyString
  | String c rest =>
      match trim_right rest with
      | EmptyString => if is_space c then EmptyString else String c EmptyString
      | rest' => String c rest'
      end
  end.

Definition trim (s : string) : string := trim_right (trim_left s).

Definition digit_value (c : ascii) : option Z :=
  let n := Z.of_nat (nat_of_ascii c) in
  if (48 <=? n) && (n <=? 57) then Some (n - 48)
  else if (97 <=? n) && (n <=? 122) then Some (n - 87)
  else if (65 <=? n) && (n <=? 90) then Some (n - 55)
  else None.

(** The longest run of digits of the radix at the head of [s]: its value on
    top of [acc], the number of digits read, and the rest of the text. *)
Fixpoint read_digits (radix acc : Z) (count : nat) (s : string)
  : Z * nat * string :=
  match s with
  | EmptyString => (acc, count, s)
  | String c rest =>
      match digit_value c with
      | Some d =>
          if d <? radix then read_digits radix (acc * radix + d) (S count) rest
          else (acc, count, s)
      | None => (acc, count, s)
      end
  end.

(** An optional sign: whether it is a minus, whether one was read, the rest. *)
Definition read_sign (s : string) : bool * bool * string :=
  match s with
  | String "-" rest => (true, true, rest)
  | String "+" rest => (false, true, rest)
  | _ => (false, false, s)
  end.

(** [parseInt(v)]: the text of [v], leading white space skipped, an optional
    sign, an optional [0x] prefix, then as many digits as there are. *)
Definition parseInt (v : value) : number :=
  let s := trim_left (toString v) in
  let '(neg, _, s1) := read_sign s in
  let '(radix, s2) :=
    match s1 with
    | String "0" (String "x" rest) | String "0" (String "X" rest) => (16, rest)
    | _ => (10, s1)
    end in
  let '(z, count, _) := read_digits radix 0 0 s2 in
  match count with
  | O => NaN
  | _ => round64 (inject_Z (if neg then - z else z))
  end.

(** An unsigned decimal literal at the head of [s]: digits, an optional
    fraction and an optional exponent.  Returns the value, the number of
    digits of the integer part, whether a dot was read, the number of digits
    of the fraction, and the rest of the text. *)
Definition read_decimal (s : string) : Q * nat * bool * nat * string :=
  let '(ip, icount, s1) := read_digits 10 0 0 s in
  let '(fp, dot, fcount, s2) :=
    match s1 with
    | String "." rest =>
        let '(m, n, r) := read_digits 10 ip 0 rest in (m, true, n, r)
    | _ => (ip, false, O, s1)
    end in
  let '(e, s3) :=
    match s2 with
    | String "e" rest | String "E" rest =>
        let '(eneg, _, r1) := read_sign rest in
        let '(ez, ecount, r2) := read_digits 10 0 0 r1 in
        match ecount with
        | O => (0, s2)
        | _ => ((if eneg then - ez else ez), r2)
        end
    | _ => (0, s2)
    end in
  (Qred (inject_Z fp * Qpower 10 (e - Z.of_nat fcount)), icount, dot, fcount, s3).

Definition read_radix (radix : Z) (s : string) : number :=
  match read_digits radix 0 0 s with
  | (z, S _, EmptyString) => round64 (inject_Z z)
  | _ => NaN
  end.

(** [ToNumber] of a string. *)
Definition string_toNumber (s : string) : number :=
  let t := trim s in
  match t with
  | EmptyString => num_of_Z 0
  | String "0" (String "x" r) | String "0" (String "X" r) => read_radix 16 r
  | String "0" (String "o" r) | String "0" (String "O" r) => read_radix 8 r
  | String "0" (String "b" r) | String "0" (String "B" r) => read_radix 2 r
  | _ =>
      let '(neg, _, body) := read_sign t in
      if String.eqb body "Infinity" then (if neg then NInf else PInf)
      else
        let '(q, icount, _, fcount, rest) := read_decimal body in
        match rest, (icount + fcount)%nat with
        | EmptyString, S _ => round64 (if neg then - q else q)
        | _, _ => NaN
        end
  end.

(** [ToNumber] *)
Definition toNumber (v : value) : number :=
  match v with
  | VUndefined => NaN
  | VNull => num_of_Z 0
  | VBool true => num_of_Z 1
  | VBool false => num_of_Z 0
  | VNum n => n
  | VStr s => string_toNumber s
  | other => string_toNumber (toString other)
  end.

(** *** Methods called on values of unknown type *)

(** [recv.includes(needle)], where [what] is the text of the receiver. *)
Definition call_includes (what : string) (recv : value) (needle : string)
  : result bool :=
  match recv with
  | VStr s => Ok (includes needle s)
  | VArr items => Ok (existsb (fun it => eq_str it needle) items)
  | VUndefined =>
      Throw "Cannot read properties of undefined (reading 'includes')"
  | VNull => Throw "Cannot read properties of null (reading 'includes')"
  | _ => Throw (what ++ ".includes is not a function")
  end.

(** [recv.split("@")] *)
Definition call_split (what : string) (recv : value) (sep : ascii)
  : result (list string) :=
  match recv with
  | VStr s => Ok (split sep s)
  | VUndefined => Throw "Cannot read properties of undefined (reading 'split')"
  | VNull => Throw "Cannot read properties of null (reading 'split')"
  | _ =>
      Throw (what
               ++ ".split is not a function or its return value is not iterable")
  end.

(** [recv.startsWith(p)] *)
Definition call_startsWith (what : string) (recv : value) (p : string)
  : result bool :=
  match recv with
  | VStr s => Ok (startsWith p s)
  | VUndefined =>
      Throw "Cannot read properties of undefined (reading 'startsWith')"
  | VNull => Throw "Cannot read properties of null (reading 'startsWith')"
  | _ => Throw (what ++ ".startsWith is not a function")
  end.

(** *** [encodeURIComponent] *)

Definition hex_digit (n : nat) : ascii :=
  nth n ["0"; "1"; "2"; "3"; "4"; "5"; "6"; "7"; "8"; "9";
         "A"; "B"; "C"; "D"; "E"; "F"]%char "0"%char.

Definition uri_unreserved (c : ascii) : bool :=
  let n := nat_of_ascii c in
  (Nat.leb 65 n && Nat.leb n 90) || (Nat.leb 97 n && Nat.leb n 122)
  || (Nat.leb 48 n && Nat.leb n 57)
  || existsb (Ascii.eqb c) ["-"; "_"; "."; "!"; "~"; "*"; "'"; "("; ")"]%char.

Fixpoint encodeURIComponent (s : string) : string :=
  match s with
  | EmptyString => EmptyString
  | String c rest =>
      if uri_unreserved c then String c (encodeURIComponent rest)
      else
        let n := nat_of_ascii c in
        String "%" (String (hex_digit (n / 16)) (String (hex_digit (n mod 16))
                                                   (encodeURIComponent rest)))
  end.

End Js.


Import Js.

(* ------------------------------------------------------------------ *)
(** ** Platform: SHA-256 ([crypto.createHash("sha256")])               *)
(* ------------------------------------------------------------------ *)

Module Sha256.

Definition mask32 : Z := 4294967295.
Definition w32 (x : Z) : Z := Z.land x mask32.
Definition add32 (x y : Z) : Z := w32 (x + y).
Definition rotr (n x : Z) : Z :=
  Z.lor (Z.shiftr x n) (w32 (Z.shiftl x (32 - n))).
Definition not32 (x : Z) : Z := Z.lxor x mask32.

Definition Ch (x y z : Z) : Z := Z.lxor (Z.land x y) (Z.land (not32 x) z).
Definition Maj (x y z : Z) : Z :=
  Z.lxor (Z.lxor (Z.land x y) (Z.land x z)) (Z.land y z).
Definition Sigma0 (x : Z) : Z :=
  Z.lxor (Z.lxor (rotr 2 x) (rotr 13 x)) (rotr 22 x).
Definition Sigma1 (x : Z) : Z :=
  Z.lxor (Z.lxor (rotr 6 x) (rotr 11 x)) (rotr 25 x).
Definition sigma0 (x : Z) : Z :=
  Z.lxor (Z.lxor (rotr 7 x) (rotr 18 x)) (Z.shiftr x 3).
Definition sigma1 (x : Z) : Z :=
  Z.lxor (Z.lxor (rotr 17 x) (rotr 19 x)) (Z.shiftr x 10).

(** The constants of the standard are read off the first primes: the
    first 32 bits of the fractional parts of their cube roots for the round
    constants, of their square roots for the initial state. *)
Definition primes : list Z :=
  [ 2; 3; 5; 7; 11; 13; 17; 19; 23; 29; 31; 37; 41; 43; 47; 53; 59; 61; 67;
    71; 73; 79; 83; 89; 97; 101; 103; 107; 109; 113; 127; 131; 137; 139; 149;
    151; 157; 163; 167; 173; 179; 181; 191; 193; 197; 199; 211; 223; 227;
    229; 233; 239; 241; 251; 257; 263; 269; 271; 277; 281; 283; 293; 307;
    311 ].

(** The integer cube root, bit by bit from [2^bits] down. *)
Fixpoint cube_root_bits (bits : nat) (n r : Z) : Z :=
  match bits with
  | O => r
  | S bits' =>
      let r' := r + 2 ^ Z.of_nat bits' in
      cube_root_bits bits' n (if r' * r' * r' <=? n then r' else r)
  end.

Definition cube_root (n : Z) : Z := cube_root_bits 40 n 0.

Definition K : list Z :=
  Eval vm_compute in map (fun p => w32 (cube_root (p * 2 ^ 96))) primes.

Definition H0 : list Z :=
  Eval vm_compute in
    map (fun p => w32 (Z.sqrt (p * 2 ^ 64))) (firstn 8 primes).

Fixpoint bytes_of_string (s : string) : list Z :=
  match s with
  | EmptyString => []
  | String c rest => Z.of_nat (nat_of_ascii c) :: bytes_of_string rest
  end.

(** The big-endian bytes of [x], [n] of them. *)
Fixpoint be_bytes (n : nat) (x : Z) : list Z :=
  match n with
  | O => []
  | S n' => Z.land (Z.shiftr x (8 * Z.of_nat n')) 255 :: be_bytes n' x
  end.

(** The message, a one bit, zeros up to 56 modulo 64, the length in bits. *)
Definition pad (msg : list Z) : list Z :=
  let len := Z.of_nat (List.length msg) in
  let zeros := Z.to_nat ((55 - len) mod 64) in
  msg ++ [128] ++ repeat 0 zeros ++ be_bytes 8 (8 * len).

(** Big-endian words of 32 bits. *)
Fixpoint words (fuel : nat) (bs : list Z) : list Z :=
  match fuel, bs with
  | S fuel', b0 :: b1 :: b2 :: b3 :: rest =>
      (b0 * 16777216 + b1 * 65536 + b2 * 256 + b3) :: words fuel' rest
  | _, _ => []
  end.

(** The message schedule, most recent word first. *)
Fixpoint schedule (n : nat) (rev_w : list Z) : list Z :=
  match n with
  | O => rev_w
  | S n' =>
      let w := add32 (add32 (sigma1 (nth 1 rev_w 0)) (nth 6 rev_w 0))
                     (add32 (sigma0 (nth 14 rev_w 0)) (nth 15 rev_w 0)) in
      schedule n' (w :: rev_w)
  end.

Definition round (st : list Z) (kw : Z * Z) : list Z :=
  match st with
  | [a; b; c; d; e; f; g; h] =>
      let t1 := add32 (add32 (add32 h (Sigma1 e)) (add32 (Ch e f g) (fst kw)))
                      (snd kw) in
      let t2 := add32 (Sigma0 a) (Maj a b c) in
      [add32 t1 t2; a; b; c; add32 d t1; e; f; g]
  | _ => st
  end.

Definition compress (h : list Z) (block : list Z) : list Z :=
  let w := rev (schedule 48 (rev block)) in
  let st := fold_left round (combine K w) h in
  map (fun p => add32 (fst p) (snd p)) (combine h st).

Fixpoint blocks (fuel : nat) (ws : list Z) (h : list Z) : list Z :=
  match fuel, ws with
  | S fuel', _ :: _ => blocks fuel' (skipn 16 ws) (compress h (firstn 16 ws))
  | _, _ => h
  end.

Definition hex_char (n : Z) : ascii :=
  nth (Z.to_nat n) ["0"; "1"; "2"; "3"; "4"; "5"; "6"; "7"; "8"; "9";
                    "a"; "b"; "c"; "d"; "e"; "f"]%char "0"%char.

Fixpoint hex_of_bytes (bs : list Z) : string :=
  match bs with
  | [] => EmptyString
  | b :: rest => String (hex_char (b / 16)) (String (hex_char (b mod 16))
                                               (hex_of_bytes rest))
  end.

(** [crypto.createHash("sha256").update(s).digest("hex")] *)
Definition digest_hex (s : string) : string :=
  let bs := pad (bytes_of_string s) in
  let ws := words (List.length bs) bs in
  let h := blocks (List.length ws) ws H0 in
  hex_of_bytes (flat_map (be_bytes 4) h).

End Sha256.


(* ------------------------------------------------------------------ *)
(** ** Platform: JSON text                                             *)
(* ------------------------------------------------------------------ *)

Module Json.

Definition dquote : ascii := "034"%char.
Definition backslash : ascii := "092"%char.

Definition lower_hex (n : nat) : ascii := Sha256.hex_char (Z.of_nat n).

(** A string literal of JSON text, as [JSON.stringify] writes it. *)
Fixpoint quote_body (s : string) : string :=
  match s with
  | EmptyString => String dquote EmptyString
  | String c rest =>
      let n := nat_of_ascii c in
      let tail := quote_body rest in
      if Ascii.eqb c dquote then String backslash (String dquote tail)
      else if Ascii.eqb c backslash then String backslash (String backslash tail)
      else if Nat.eqb n 8 then String backslash (String "b" tail)
      else if Nat.eqb n 9 then String backslash (String "t" tail)
      else if Nat.eqb n 10 then String backslash (String "n" tail)
      else if Nat.eqb n 12 then String backslash (String "f" tail)
      else if Nat.eqb n 13 then String backslash (String "r" tail)
      else if Nat.ltb n 32 then
        String backslash
          (String "u" (String "0" (String "0"
             (String (lower_hex (n / 16)) (String (lower_hex (n mod 16)) tail)))))
      else String c tail
  end.

Definition quote (s : string) : string := String dquote (quote_body s).

(** [JSON.stringify(v)]; [None] stands for the result [undefined]. *)
Fixpoint stringify (v : value) : option string :=
  match v with
  | VUndefined | VFun _ => None
  | VNull => Some "null"
  | VBool true => Some "true"
  | VBool false => Some "false"
  | VNum (Num q) => Some (num_toString (Num q))
  | VNum _ => Some "null"
  | VStr s => Some (quote s)
  | VArr items =>
      Some ("[" ++ join "," (map (fun it => match stringify it with
                                            | Some t => t
                                            | None => "null"
                                            end) items) ++ "]")
  | VObj props =>
      Some ("{" ++ join "," (flat_map (fun kv => match stringify (snd kv) with
                                                 | Some t => [quote (fst kv) ++ ":" ++ t]
                                                 | None => []
                                                 end) props) ++ "}")
  end.

(** *** A reader of JSON text *)

Definition is_json_space (c : ascii) : bool :=
  let n := nat_of_ascii c in
  Nat.eqb n 32 || Nat.eqb n 9 || Nat.eqb n 10 || Nat.eqb n 13.

Fixpoint skip_ws (s : string) : string :=
  match s with
  | String c rest => if is_json_space c then skip_ws rest else s
  | EmptyString => EmptyString
  end.

Definition strip_prefix (p s : string) : option string :=
  if prefix p s
  then Some (substring (String.length p) (String.length s - String.length p) s)
  else None.

(** UTF-8 encoding of a code point. *)
Definition byte (z : Z) : ascii := ascii_of_nat (Z.to_nat z).

Definition utf8 (cp : Z) (tail : string) : string :=
  if cp <? 128 then String (byte cp) tail
  else if cp <? 2048 then
    String (byte (192 + cp / 64)) (String (byte (128 + cp mod 64)) tail)
  else if cp <? 65536 then
    String (byte (224 + cp / 4096))
      (String (byte (128 + (cp / 64) mod 64)) (String (byte (128 + cp mod 64)) tail))
  else
    String (byte (240 + cp / 262144))
      (String (byte (128 + (cp / 4096) mod 64))
         (String (byte (128 + (cp / 64) mod 64))
            (String (byte (128 + cp mod 64)) tail))).

(** Four hexadecimal digits. *)
Definition read_hex4 (s : string) : option (Z * string) :=
  match s with
  | String a (String b (String c (String d rest))) =>
      match digit_value a, digit_value b, digit_value c, digit_value d with
      | Some x, Some y, Some z, Some w =>
          if (x <? 16) && (y <? 16) && (z <? 16) && (w <? 16)
          then Some (x * 4096 + y * 256 + z * 16 + w, rest)
          else None
      | _, _, _, _ => None
      end
  | _ => None
  end.

(** The body of a string literal, after its opening quote. *)
Fixpoint read_string (fuel : nat) (s : string) : option (string * string) :=
  match fuel with
  | O => None
  | S fuel' =>
      match s with
      | EmptyString => None
      | String c rest =>
          if Ascii.eqb c dquote then Some (EmptyString, rest)
          else if Ascii.eqb c backslash then
            match rest with
            | String e rest' =>
                let simple (b : nat) :=
                  match read_string fuel' rest' with
                  | Some (t, r) => Some (String (ascii_of_nat b) t, r)
                  | None => None
                  end in
                if Ascii.eqb e dquote then simple 34%nat
                else if Ascii.eqb e backslash then simple 92%nat
                else if Ascii.eqb e "/" then simple 47%nat
                else if Ascii.eqb e "b" then simple 8%nat
                else if Ascii.eqb e "f" then simple 12%nat
                else if Ascii.eqb e "n" then simple 10%nat
                else if Ascii.eqb e "r" then simple 13%nat
                else if Ascii.eqb e "t" then simple 9%nat
                else if Ascii.eqb e "u" then
                  match read_hex4 rest' with
                  | Some (hi, r1) =>
                      let pair :=
                        if (55296 <=? hi) && (hi <? 56320) then
                          match r1 with
                          | String b1 (String "u" r2) =>
                              if Ascii.eqb b1 backslash then
                                match read_hex4 r2 with
                                | Some (lo, r3) =>
                                    if (56320 <=? lo) && (lo <? 57344)
                                    then Some (65536 + (hi - 55296) * 1024 + (lo - 56320), r3)
                                    else None
                                | None => None
                                end
                              else None
                          | _ => None
                          end
                        else None in
                      let '(cp, r) := match pair with
                                      | Some p => p
                                      | None => (hi, r1)
                                      end in
                      match read_string fuel' r with
                      | Some (t, r') => Some (utf8 cp t, r')
                      | None => None
                      end
                  | None => None
                  end
                else None
            | EmptyString => None
            end
          else if Nat.ltb (nat_of_ascii c) 32 then None
          else
            match read_string fuel' rest with
            | Some (t, r) => Some (String c t, r)
            | None => None
            end
      end
  end.

(** A number literal: an optional minus, an integer part without a leading
    zero (unless it is the digit zero alone), an optional fraction with at
    least one digit, an optional exponent. *)
Definition read_number (s : string) : option (number * string) :=
  let '(neg, body) := match s with
                      | String "-" rest => (true, rest)
                      | _ => (false, s)
                      end in
  let '(q, icount, dot, fcount, rest) := read_decimal body in
  let leading_zero := match body with
                      | String "0" _ => Nat.ltb 1 icount
                      | _ => false
                      end in
  if Nat.eqb icount 0 || leading_zero || (dot && Nat.eqb fcount 0) then None
  else Some (round64 (if neg then - q else q), rest).

(** Setting a property: a repeated key keeps its place and takes the new
    value. *)
Fixpoint set_prop (k : string) (v : value) (props : list (string * value))
  : list (string * value) :=
  match props with
  | [] => [(k, v)]
  | (k', v') :: rest =>
      if String.eqb k' k then (k, v) :: rest else (k', v') :: set_prop k v rest
  end.

Fixpoint read_value (fuel : nat) (s : string) : option (value * string) :=
  match fuel with
  | O => None
  | S fuel' =>
      let s := skip_ws s in
      match s with
      | EmptyString => None
      | String c rest =>
          if Ascii.eqb c dquote then
            match read_string (S (String.length rest)) rest with
            | Some (t, r) => Some (VStr t, r)
            | None => None
            end
          else if Ascii.eqb c "[" then
            match skip_ws rest with
            | String "]" r => Some (VArr [], r)
            | _ =>
                match read_elements fuel' rest with
                | Some (items, r) => Some (VArr items, r)
                | None => None
                end
            end
          else if Ascii.eqb c "{" then
            match skip_ws rest with
            | String "}" r => Some (VObj [], r)
            | _ =>
                match read_members fuel' [] rest with
                | Some (props, r) => Some (VObj props, r)
                | None => None
                end
            end
          else
            match strip_prefix "null" s, strip_prefix "true" s,
                  strip_prefix "false" s with
            | Some r, _, _ => Some (VNull, r)
            | _, Some r, _ => Some (VBool true, r)
            | _, _, Some r => Some (VBool false, r)
            | _, _, _ =>
                match read_number s with
                | Some (n, r) => Some (VNum n, r)
                | None => None
                end
            end
      end
  end

with read_elements (fuel : nat) (s : string) : option (list value * string) :=
  match fuel with
  | O => None
  | S fuel' =>
      match read_value fuel' s with
      | Some (v, r) =>
          match skip_ws r with
          | String "," r' =>
              match read_elements fuel' r' with
              | Some (vs, r'') => Some (v :: vs, r'')
              | None => None
              end
          | String "]" r' => Some ([v], r')
          | _ => None
          end
      | None => None
      end
  end

with read_members (fuel : nat) (acc : list (string * value)) (s : string)
  : option (list (string * value) * string) :=
  match fuel with
  | O => None
  | S fuel' =>
      match skip_ws s with
      | String c rest =>
          if Ascii.eqb c dquote then
            match read_string (S (String.length rest)) rest with
            | Some (k, r) =>
                match skip_ws r with
                | String ":" r1 =>
                    match read_value fuel' r1 with
                    | Some (v, r2) =>
                        let acc' := set_prop k v acc in
                        match skip_ws r2 with
                        | String "," r3 => read_members fuel' acc' r3
                        | String "}" r3 => Some (acc', r3)
                        | _ => None
                        end
                    | None => None
                    end
                | _ => None
                end
            | None => None
            end
          else None
      | EmptyString => None
      end
  end.

(** [JSON.parse(text)]; the message of the [SyntaxError] is a fixed text
    here (engines word it differently). *)
Definition parse (text : string) : result value :=
  match read_value (2 * String.length text + 2) text with
  | Some (v, rest) =>
      match skip_ws rest with
      | EmptyString => Ok v
      | _ => Throw "Unexpected token in JSON"
      end
  | None =>
      match skip_ws text with
      | EmptyString => Throw "Unexpected end of JSON input"
      | _ => Throw "Unexpected token in JSON"
      end
  end.

End Json.


(* ------------------------------------------------------------------ *)
(** ** The options of the three public operations                      *)
(* ------------------------------------------------------------------ *)

(** The option objects, as the type declarations of the package name them.
    A property that the caller leaves out is [VUndefined]. *)

Module LnurlPayOptions.
Record t : Type := make {
  lnUrlOrAddress : value;
  tokens : value;
  comment : value;
  posMode : value;
  onionAllowed : value;
  fetchGet : value;
  timeout : value }.
End LnurlPayOptions.

Module ServiceParamsOptions.
Record t : Type := make {
  lnUrlOrAddress : value;
  posMode : value;
  onionAllowed : value;
  fetchGet : value;
  timeout : value }.
End ServiceParamsOptions.

Module InvoiceWithServiceParamsOptions.
Record t : Type := make {
  params : value;
  tokens : value;
  comment : value;
  timeout : value }.
End InvoiceWithServiceParamsOptions.

(** What the program calls and does not define: the network behind the HTTP
    client, [JSON.parse], and the three operations of the wrapped [lnurl-pay]
    library. *)
Record Platform : Type := {
  (** GET of a URL with a timeout in milliseconds: the decoded body, or the
      message of the error ([HTTP 500: ...], [Request timeout after ...ms],
      a network failure) *)
  fetch_json : string -> value -> result value;
  JSON_parse : string -> result value;
  lnurl_requestInvoice : LnurlPayOptions.t -> result value;
  lnurl_requestPayServiceParams : ServiceParamsOptions.t -> result value;
  lnurl_requestInvoiceWithServiceParams :
    InvoiceWithServiceParamsOptions.t -> result value }.

(* ------------------------------------------------------------------ *)
(** ** [src/unnamed/part_001]: the client with POS mode                *)
(* ------------------------------------------------------------------ *)

Module PosClient.

(** A destructuring default: [{ name = dflt } = options] *)
Definition default (v dflt : value) : value :=
  match v with
  | VUndefined => dflt
  | _ => v
  end.

(** [item[i]] where [item] is known to be an array. *)
Definition item_at (item : value) (i : nat) : value :=
  match item with
  | VArr elems => index elems i
  | _ => VUndefined
  end.

(** [a < b] and [a > b] where the left operand is a number: the comparison
    is the numeric one. *)
Definition lt (a b : value) : bool := num_lt (toNumber a) (toNumber b).
Definition gt (a b : value) : bool := num_gt (toNumber a) (toNumber b).

(** *** [validators] *)

Definition isValidLightningAddress (address : value) : bool :=
  match address with
  | VStr s =>
      match split "@" s with
      | [username; domain] =>
          Nat.ltb 0 (String.length username)
          && Nat.ltb 0 (String.length domain)
          && includes "." domain
      | _ => false
      end
  | _ => false
  end.

Definition isValidAmount (amount : value) : bool :=
  match amount with
  | VNum n => num_gt n (num_of_Z 0) && num_isInteger n
  | _ => false
  end.

Definition isValidComment (comment maxLength : value) : bool :=
  if negb (truthy comment) then true
  else match comment with
       | VStr s => num_le (nat_length s) (toNumber maxLength)
       | _ => false
       end.

(** *** Metadata helpers *)

(** [(item) => Array.isArray(item) && item[0] === "text/plain"] *)
Definition isTextPlainItem (item : value) : bool :=
  isArray item && eq_str (item_at item 0) "text/plain".

(** None of the operations in the [try] block throws on these values, so
    the [catch] block is never entered. *)
Definition parseDescription (metadata : value) : value :=
  match metadata with
  | VArr items =>
      match find isTextPlainItem items with
      | Some textPlain => item_at textPlain 1
      | None => VStr "Payment"
      end
  | _ => VStr "Payment"
  end.

(** [(item) => Array.isArray(item) &&
     (item[0] === "image/png;base64" || item[0] === "image/jpeg;base64")] *)
Definition isImageItem (item : value) : bool :=
  isArray item
  && (eq_str (item_at item 0) "image/png;base64"
      || eq_str (item_at item 0) "image/jpeg;base64").

Definition extractImage (metadata : value) : value :=
  match metadata with
  | VArr items =>
      match find isImageItem items with
      | Some image => item_at image 1
      | None => VStr EmptyString
      end
  | _ => VStr EmptyString
  end.

(** [hash.update(data)] accepts text; [undefined], which is what
    [JSON.stringify] returns for a value without JSON text, is refused. *)
Definition sha256_hex (data : option string) : result string :=
  match data with
  | Some text => Ok (Sha256.digest_hex text)
  | None =>
      Throw ("The " ++ Json.quote "data"
               ++ " argument must be of type string or an instance of Buffer,"
               ++ " TypedArray, or DataView. Received undefined")
  end.

Definition calculateMetadataHash (metadata : value) : string :=
  let attempt :=
    let metadataStr := match metadata with
                       | VStr s => Some s
                       | _ => Json.stringify metadata
                       end in
    let* hex := sha256_hex metadataStr in
    Ok (substring0 32 hex) in
  match attempt with
  | Ok h => h
  | Throw _ => substring0 32 (Sha256.digest_hex EmptyString)
  end.

Section Operations.

Variable P : Platform.

(** [httpClient.get(url, { timeout })]: the timeout defaults to 30000; the
    choice between [fetch] and [axios] and the wording of the errors of the
    transport are the platform's. *)
Definition httpClient_get (url : string) (timeout : value) : result value :=
  fetch_json P url (or_else timeout (VNum (num_of_Z 30000))).

(** [`https://${domain}/.well-known/lnurlp/${username}?pos=true`] *)
Definition discoveryUrl (domain username : string) : string :=
  "https://" ++ domain ++ "/.well-known/lnurlp/" ++ username ++ "?pos=true".

(** "Parse metadata": text is decoded, anything else is taken as it is. *)
Definition parseMetadata (raw : value) : result value :=
  match raw with
  | VStr text => JSON_parse P text
  | _ => Ok raw
  end.

(** The [try] block of [requestPayServiceParams], from the arrival of the
    provider's response on. *)
Definition serviceParamsOf (lnUrlOrAddress : value) (domain : string)
  (data : value) : result value :=
  let* status := get data "status" in
  if negb (eq_str status "OK") then
    let* reason := get data "reason" in
    Throw ("Service error: "
             ++ toString (or_else reason (VStr "Invalid response")))
  else
    let* raw := get data "metadata" in
    let* metadata := parseMetadata raw in
    let description := parseDescription metadata in
    let* callback := get data "callback" in
    let* minSendable := get data "minSendable" in
    let* maxSendable := get data "maxSendable" in
    let* commentAllowed := get data "commentAllowed" in
    Ok (VObj
          [ ("callback", callback);
            ("fixed", VBool false);
            ("min", VNum (num_div1000 (parseInt minSendable)));
            ("max", VNum (num_div1000 (parseInt maxSendable)));
            ("domain", VStr domain);
            ("metadata", metadata);
            ("metadataHash", VStr (calculateMetadataHash raw));
            ("identifier", lnUrlOrAddress);
            ("description", description);
            ("image", extractImage metadata);
            ("commentAllowed", or_else commentAllowed (VNum (num_of_Z 0)));
            ("rawData", data) ]).

(** The [try] block of [requestPayServiceParams]. *)
Definition resolvePosParams (lnUrlOrAddress timeout : value) : result value :=
  let* parts := call_split "lnUrlOrAddress" lnUrlOrAddress "@" in
  match nth_error parts 0, nth_error parts 1 with
  | Some username, Some domain =>
      if String.eqb username EmptyString || String.eqb domain EmptyString
      then Throw "Invalid Lightning address format"
      else
        let url := discoveryUrl domain username in
        let* data := httpClient_get url timeout in
        serviceParamsOf lnUrlOrAddress domain data
  | _, _ => Throw "Invalid Lightning address format"
  end.

(** The [catch] block of [requestPayServiceParams]. *)
Definition rethrowParamsError (message : string) : result value :=
  if includes "Invalid Lightning address" message then Throw message
  else Throw ("Failed to get POS service params: " ++ message).

(** [!posMode || !lnUrlOrAddress.includes("@")] *)
Definition notPosAddress (posMode lnUrlOrAddress : value) : result bool :=
  if negb (truthy posMode) then Ok true
  else
    let* isAddress := call_includes "lnUrlOrAddress" lnUrlOrAddress "@" in
    Ok (negb isAddress).

Definition requestPayServiceParams (options : ServiceParamsOptions.t)
  : result value :=
  let lnUrlOrAddress := ServiceParamsOptions.lnUrlOrAddress options in
  let posMode := default (ServiceParamsOptions.posMode options) (VBool false) in
  let timeout :=
    default (ServiceParamsOptions.timeout options) (VNum (num_of_Z 30000)) in
  if negb (truthy lnUrlOrAddress) then Throw "lnUrlOrAddress is required"
  else
    let* standard := notPosAddress posMode lnUrlOrAddress in
    if standard then lnurl_requestPayServiceParams P options
    else
      try_catch (resolvePosParams lnUrlOrAddress timeout) rethrowParamsError.

(** The steps between the resolution and the callback's answer are written
    twice in the source, in [requestInvoice] and in
    [requestInvoiceWithServiceParams], word for word; they are named here
    after the comments that head them. *)

(** "Validate amount against service limits" *)
Definition checkAmount (params tokens : value) : result unit :=
  let* min := get params "min" in
  if lt tokens min
  then Throw ("Amount too small. Minimum: " ++ toString min ++ " sats")
  else
    let* max := get params "max" in
    if gt tokens max
    then Throw ("Amount too large. Maximum: " ++ toString max ++ " sats")
    else Ok tt.

(** "Validate comment" *)
Definition checkComment (params comment : value) : result unit :=
  let* commentAllowed := get params "commentAllowed" in
  if negb (isValidComment comment commentAllowed)
  then Throw ("Comment too long. Maximum: " ++ toString commentAllowed
                ++ " characters")
  else Ok tt.

(** "Request invoice": the URL of the callback. *)
Definition invoiceUrl (params tokens comment : value) : result string :=
  let amountMillisats := num_mul1000 (toNumber tokens) in
  let* callback := get params "callback" in
  let invoiceUrl :=
    toString callback ++ "?amount=" ++ num_toString amountMillisats in
  if truthy comment
  then Ok (invoiceUrl ++ "&comment=" ++ encodeURIComponent (toString comment))
  else Ok invoiceUrl.

(** The three steps, ending with the body of the callback's response. *)
Definition callbackRequest (params tokens comment timeout : value)
  : result value :=
  let* _ := checkAmount params tokens in
  let* _ := checkComment params comment in
  let* url := invoiceUrl params tokens comment in
  httpClient_get url timeout.

(** The [try] block of [requestInvoice], from the arrival of the callback's
    response on. *)
Definition invoiceOf (params data : value) : result value :=
  let* status := get data "status" in
  if negb (eq_str status "OK") then
    let* reason := get data "reason" in
    Throw ("Invoice request failed: "
             ++ toString (or_else reason (VStr "Unknown error")))
  else
    let* pr := get data "pr" in
    let* successAction := get data "successAction" in
    Ok (VObj
          [ ("invoice", pr);
            ("params", params);
            ("successAction", or_else successAction VNull);
            ("rawData", data);
            ("hasValidAmount", VBool true);
            ("hasValidDescriptionHash", VBool true);
            ("validatePreimage", VFun "() => true") ]).

(** The [try] block of [requestInvoice]. *)
Definition requestPosInvoice (lnUrlOrAddress tokens comment timeout : value)
  : result value :=
  let* params :=
    requestPayServiceParams
      (ServiceParamsOptions.make lnUrlOrAddress (VBool true) VUndefined
         VUndefined timeout) in
  let* data := callbackRequest params tokens comment timeout in
  invoiceOf params data.

(** The [catch] block of [requestInvoice]. *)
Definition rethrowInvoiceError (message : string) : result value :=
  if includes "Amount too small" message
     || includes "Amount too large" message
     || includes "Comment too long" message
  then Throw message
  else Throw ("POS invoice request failed: " ++ message).

Definition requestInvoice (options : LnurlPayOptions.t) : result value :=
  let lnUrlOrAddress := LnurlPayOptions.lnUrlOrAddress options in
  let tokens := LnurlPayOptions.tokens options in
  let comment := LnurlPayOptions.comment options in
  let posMode := default (LnurlPayOptions.posMode options) (VBool false) in
  let timeout :=
    default (LnurlPayOptions.timeout options) (VNum (num_of_Z 30000)) in
  if negb (truthy lnUrlOrAddress) then Throw "lnUrlOrAddress is required"
  else if negb (isValidAmount tokens)
  then Throw "tokens must be a positive integer"
  else
    let* standard := notPosAddress posMode lnUrlOrAddress in
    if standard then lnurl_requestInvoice P options
    else
      try_catch (requestPosInvoice lnUrlOrAddress tokens comment timeout)
        rethrowInvoiceError.

(** [params.rawData && params.rawData.status === "OK" &&
     params.callback.includes("bringin.xyz")] *)
Definition hasPosMarker (params : value) : result bool :=
  let* rawData := get params "rawData" in
  if negb (truthy rawData) then Ok false
  else
    let* status := get rawData "status" in
    if negb (eq_str status "OK") then Ok false
    else
      let* callback := get params "callback" in
      call_includes "params.callback" callback "bringin.xyz".

(** The result of the POS branch of [requestInvoiceWithServiceParams],
    built from the callback's response. *)
Definition invoiceWithParamsOf (data : value) : result value :=
  let* pr := get data "pr" in
  let* successAction := get data "successAction" in
  Ok (VObj
        [ ("invoice", pr);
          ("successAction", or_else successAction VNull);
          ("rawData", data) ]).

Definition requestInvoiceWithServiceParams
  (options : InvoiceWithServiceParamsOptions.t) : result value :=
  let params := InvoiceWithServiceParamsOptions.params options in
  let tokens := InvoiceWithServiceParamsOptions.tokens options in
  let comment := InvoiceWithServiceParamsOptions.comment options in
  let timeout :=
    default (InvoiceWithServiceParamsOptions.timeout options)
      (VNum (num_of_Z 30000)) in
  if negb (truthy params) then Throw "params is required"
  else if negb (isValidAmount tokens)
  then Throw "tokens must be a positive integer"
  else
    let* pos := hasPosMarker params in
    if pos then
      let* data := callbackRequest params tokens comment timeout in
      invoiceWithParamsOf data
    else lnurl_requestInvoiceWithServiceParams P options.

End Operations.

End PosClient.

(* ------------------------------------------------------------------ *)
(** ** [src/unnamed/part_002]: the metadata helpers of the wrapper     *)
(* ------------------------------------------------------------------ *)

Module LibWrapper.

(** [items.find(pred)] for a predicate that may throw. *)
Fixpoint find_entry (pred : value -> result bool) (items : list value)
  : result (option value) :=
  match items with
  | [] => Ok None
  | entry :: rest =>
      let* hit := pred entry in
      if hit then Ok (Some entry) else find_entry pred rest
  end.

(** [Array.isArray(entry) && entry.length >= 2 &&
     entry[0].startsWith("image/")] *)
Definition isImageEntry (entry : value) : result bool :=
  match entry with
  | VArr elems =>
      if Nat.leb 2 (List.length elems)
      then call_startsWith "entry[0]" (index elems 0) "image/"
      else Ok false
  | _ => Ok false
  end.

Definition extractImage (metadata : value) : result value :=
  if negb (truthy metadata) || negb (isArray metadata) then Ok (VStr EmptyString)
  else
    match metadata with
    | VArr items =>
        let* imageEntry := find_entry isImageEntry items in
        match imageEntry with
        | Some entry => Ok (PosClient.item_at entry 1)
        | None => Ok (VStr EmptyString)
        end
    | _ => Ok (VStr EmptyString)
    end.

Definition calculateMetadataHash (metadata : value) : result string :=
  if negb (truthy metadata) then Ok EmptyString
  else
    let metadataString := if isArray metadata then Json.stringify metadata
                          else Some (toString metadata) in
    PosClient.sha256_hex metadataString.

End LibWrapper.

(* ------------------------------------------------------------------ *)
(** ** A provider and a library to run the operations against          *)
(* ------------------------------------------------------------------ *)

Module Scenario.

Definition num (z : Z) : value := VNum (num_of_Z z).

(** The response of the specification's end-to-end scenario; its metadata
    is the JSON text of [[["text/plain","Coffee"]]]. *)
Definition coffeeMetadata : string :=
  "[[" ++ Json.quote "text/plain" ++ "," ++ Json.quote "Coffee" ++ "]]".

Definition coffeeResponse_props : list (string * value) :=
  [ ("status", VStr "OK");
         ("callback", VStr "https://bringin.xyz/cb");
         ("minSendable", num 20000);
         ("maxSendable", num 100000000);
         ("metadata", VStr coffeeMetadata);
         ("commentAllowed", num 144) ].

Definition coffeeResponse : value := VObj coffeeResponse_props.

(** A response with bounds that are not multiples of 1000. *)
Definition oddResponse_props : list (string * value) :=
  [ ("status", VStr "OK");
         ("callback", VStr "https://bringin.xyz/cb");
         ("minSendable", num 20500);
         ("maxSendable", num 99999);
         ("metadata", VArr [VArr [VStr "text/plain"; VStr "Tea"]]);
         ("commentAllowed", num 144) ].

Definition oddResponse : value := VObj oddResponse_props.

(** A response whose bounds are in the wrong order. *)
Definition invertedResponse_props : list (string * value) :=
  [ ("status", VStr "OK");
         ("callback", VStr "https://bringin.xyz/cb");
         ("minSendable", num 5000);
         ("maxSendable", num 1000);
         ("metadata", VArr []);
         ("commentAllowed", num 0) ].

Definition invertedResponse : value := VObj invertedResponse_props.

Definition invoiceResponse_props : list (string * value) :=
  [ ("status", VStr "OK"); ("pr", VStr "lnbc...") ].

Definition invoiceResponse : value := VObj invoiceResponse_props.

Definition errorResponse_props : list (string * value) :=
  [ ("status", VStr "ERROR"); ("reason", VStr "No route") ].

Definition errorResponse : value := VObj errorResponse_props.

(** The provider: what each URL answers. *)
Definition provider (url : string) (timeout : value) : result value :=
  if String.eqb url "https://bringin.xyz/.well-known/lnurlp/merchant?pos=true"
  then Ok coffeeResponse
  else if String.eqb url "https://bringin.xyz/.well-known/lnurlp/odd?pos=true"
  then Ok oddResponse
  else if String.eqb url "https://bringin.xyz/.well-known/lnurlp/inverted?pos=true"
  then Ok invertedResponse
  else if String.eqb url "https://bringin.xyz/.well-known/lnurlp/closed?pos=true"
  then Ok errorResponse
  else if String.eqb url "https://bringin.xyz/cb?amount=50000"
  then Ok invoiceResponse
  else if String.eqb url "https://bringin.xyz/cb?amount=60000"
  then Ok errorResponse
  else if String.eqb url "https://b/.well-known/lnurlp/a?pos=true"
  then Ok coffeeResponse
  else if String.eqb url "https://localhost/.well-known/lnurlp/user?pos=true"
  then Ok coffeeResponse
  else Throw "HTTP 404: Not Found".

(** A stand-in for the wrapped library, which refuses what is not a URL
    with the library's own message and answers anything else with a marked
    object. *)
Definition libraryAnswer (what : string) : result value :=
  Ok (VObj [("from", VStr "lnurl-pay"); ("operation", VStr what)]).

Definition library_requestInvoice (options : LnurlPayOptions.t) : result value :=
  if truthy (LnurlPayOptions.lnUrlOrAddress options)
  then libraryAnswer "requestInvoice"
  else Throw "Invalid lnUrlOrAddress".

Definition library_requestPayServiceParams (options : ServiceParamsOptions.t)
  : result value :=
  if truthy (ServiceParamsOptions.lnUrlOrAddress options)
  then libraryAnswer "requestPayServiceParams"
  else Throw "Invalid lnUrlOrAddress".

Definition library_requestInvoiceWithServiceParams
  (options : InvoiceWithServiceParamsOptions.t) : result value :=
  libraryAnswer "requestInvoiceWithServiceParams".

Definition platform : Platform :=
  {| fetch_json := provider;
     JSON_parse := Json.parse;
     lnurl_requestInvoice := library_requestInvoice;
     lnurl_requestPayServiceParams := library_requestPayServiceParams;
     lnurl_requestInvoiceWithServiceParams :=
       library_requestInvoiceWithServiceParams |}.

Definition resolve (address : string) : result value :=
  PosClient.requestPayServiceParams platform
    (ServiceParamsOptions.make (VStr address) (VBool true) VUndefined
       VUndefined VUndefined).

Definition invoice (address : string) (amount : Z) : result value :=
  PosClient.requestInvoice platform
    (LnurlPayOptions.make (VStr address) (num amount) VUndefined (VBool true)
       VUndefined VUndefined VUndefined).

(** The parameters that the resolution of the scenario returns. *)
Definition coffeeParams_props : list (string * value) :=
  match resolve "merchant@bringin.xyz" with
  | Ok (VObj props) => props
  | _ => []
  end.

Definition coffeeParams : value := VObj coffeeParams_props.

Definition invoiceWith (params : value) (amount : Z) : result value :=
  PosClient.requestInvoiceWithServiceParams platform
    (InvoiceWithServiceParamsOptions.make params (num amount) VUndefined
       VUndefined).

End Scenario.


(* ------------------------------------------------------------------ *)
(** ** The statements of the specification, in its own words           *)
(* ------------------------------------------------------------------ *)

(** These definitions follow the specification, not the program: they are
    what the program is compared with. *)
Module Spec.

(** "Convert provider millisatoshi bounds to satoshis by integer-dividing
    by 1000." *)
Definition integerSats (bound : Z) : number := num_of_Z (bound / 1000).

(** "an ordered list of [contentType, payload] pairs": the content type and
    the payload of an entry. *)
Definition contentType (entry : value) : value := PosClient.item_at entry 0.
Definition payload (entry : value) : value := PosClient.item_at entry 1.

(** "the first entry whose content-type equals [text/plain]" *)
Definition isTextPlain (entry : value) : bool :=
  isArray entry && eq_str (contentType entry) "text/plain".

(** "the first entry whose content-type begins with [image/]" *)
Definition beginsWithImage (entry : value) : bool :=
  isArray entry
  && match contentType entry with
     | VStr ct => startsWith "image/" ct
     | _ => false
     end.

(** The result of the scan the specification describes: the payload of the
    first entry that qualifies, else the fallback. *)
Definition firstPayload (qualifies : value -> bool) (fallback : string)
  (metadata : value) : value :=
  match metadata with
  | VArr items =>
      match find qualifies items with
      | Some entry => payload entry
      | None => VStr fallback
      end
  | _ => VStr fallback
  end.

(** "serializes the metadata (list to canonical JSON text; already-text
    input used verbatim)"; a value without JSON text has no serialized
    form. *)
Definition serialized (metadata : value) : option string :=
  match metadata with
  | VStr text => Some text
  | _ => Json.stringify metadata
  end.

(** "returns a cryptographic digest (SHA-256) rendered as hexadecimal. On
    any failure, returns the digest of the empty string" *)
Definition metadataHash (metadata : value) : string :=
  match serialized metadata with
  | Some text => Sha256.digest_hex text
  | None => Sha256.digest_hex EmptyString
  end.

(** "validation-kind errors ... propagate to the caller verbatim and
    unwrapped" *)
Definition validationKind (message : string) : bool :=
  includes "Amount too small" message
  || includes "Amount too large" message
  || includes "Comment too long" message
  || includes "Invalid Lightning address" message.

(** "re-wrapped with a short contextual prefix identifying which step
    failed (parameter resolution vs invoice request)", once. *)
Definition wrappedOnce (original final : string) : Prop :=
  final = "Failed to get POS service params: " ++ original
  \/ final = "POS invoice request failed: " ++ original.

Definition errorPolicy (original final : string) : Prop :=
  if validationKind original then final = original
  else wrappedOnce original final.

(** "contains exactly one separator splitting it into non-empty local-part
    and domain-part, with the domain-part containing at least one ... dot" *)
Definition wellFormedAddress (s : string) : Prop :=
  exists username domain : string,
    s = username ++ "@" ++ domain
    /\ includes "@" username = false /\ includes "@" domain = false
    /\ username <> EmptyString /\ domain <> EmptyString
    /\ includes "." domain = true.

End Spec.

(* ------------------------------------------------------------------ *)
(** ** The situations the properties speak about                       *)
(* ------------------------------------------------------------------ *)

Module Situation.

Import PosClient.

(** A POS-mode resolution that the resolver accepts: the address is a text
    with a local part and a domain, POS mode is on, the provider answers the
    discovery request with an object [props] of status [OK], and its
    metadata can be read as [metadata]. *)
Definition acceptedResolution (P : Platform) (options : ServiceParamsOptions.t)
  (props : list (string * value)) (metadata : value) : Prop :=
  exists (s username domain : string) (rest : list string),
    ServiceParamsOptions.lnUrlOrAddress options = VStr s
    /\ truthy (ServiceParamsOptions.posMode options) = true
    /\ split "@" s = username :: domain :: rest
    /\ username <> EmptyString /\ domain <> EmptyString
    /\ httpClient_get P (discoveryUrl domain username)
         (default (ServiceParamsOptions.timeout options)
            (VNum (num_of_Z 30000)))
       = Ok (VObj props)
    /\ lookup "status" props = VStr "OK"
    /\ parseMetadata P (lookup "metadata" props) = Ok metadata.

(** The parameters carry the marker of the POS path: [rawData.status] is
    [OK] and the callback contains [bringin.xyz]. *)
Definition posParams (params : value) : Prop :=
  hasPosMarker params = Ok true.




End Situation.

(* ------------------------------------------------------------------ *)
(** ** A provider whose callback answers [null]                        *)
(* ------------------------------------------------------------------ *)

Module NullScenario.

Definition provider (url : string) (timeout : value) : result value :=
  if String.eqb url "https://bringin.xyz/cb?amount=50000" then Ok VNull
  else Scenario.provider url timeout.

Definition platform : Platform :=
  {| fetch_json := provider;
     JSON_parse := Json.parse;
     lnurl_requestInvoice := Scenario.library_requestInvoice;
     lnurl_requestPayServiceParams := Scenario.library_requestPayServiceParams;
     lnurl_requestInvoiceWithServiceParams :=
       Scenario.library_requestInvoiceWithServiceParams |}.

Definition invoiceWith (params : value) (amount : Z) : result value :=
  PosClient.requestInvoiceWithServiceParams platform
    (InvoiceWithServiceParamsOptions.make params (Scenario.num amount)
       VUndefined VUndefined).

End NullScenario.

(* ------------------------------------------------------------------ *)
(** ** [src/unnamed/part_001]: the HTTP client                         *)
(* ------------------------------------------------------------------ *)

Module HttpClient.

(** An [Error] object: the client tells errors apart by their name. *)
Record error : Type := { name : string; message : string }.

(** [new Error(message)] *)
Definition newError (message : string) : error :=
  {| name := "Error"; message := message |}.

(** What [response.json()] settles with. *)
Inductive body : Type :=
| Json (data : value) : body
| NotJson (e : error) : body.

(** What [fetch(url, { signal })] settles with, the signal being aborted
    after the timeout: a response with its [ok], [status], [statusText] and
    body, or a rejection. *)
Inductive outcome : Type :=
| Response (ok : bool) (status : Z) (statusText : string) (b : body) : outcome
| Rejected (e : error) : outcome.

(** What [get] settles with: the [data] of the object it returns, or the
    error it throws. *)
Inductive reply : Type :=
| Data (data : value) : reply
| Failure (e : error) : reply.

(** The [catch] block of [get]. *)
Definition rethrow (timeout : value) (e : error) : reply :=
  if String.eqb (name e) "AbortError"
  then Failure (newError ("Request timeout after " ++ toString timeout ++ "ms"))
  else Failure e.

(** [get(url, options)] of the client over [fetch]. *)
Definition get (fetch : string -> value -> outcome) (url : string)
  (options_timeout : value) : reply :=
  let timeout := or_else options_timeout (VNum (num_of_Z 30000)) in
  match fetch url timeout with
  | Response ok status statusText b =>
      if negb ok
      then rethrow timeout
             (newError ("HTTP " ++ string_of_Z status ++ ": " ++ statusText))
      else match b with
           | Json data => Data data
           | NotJson e => rethrow timeout e
           end
  | Rejected e => rethrow timeout e
  end.

(** [get(url, options)] of the client over [axios]: the timeout is handed
    over and the errors of [axios.get] are not touched. *)
Definition getWithAxios (axios_get : string -> value -> reply) (url : string)
  (options_timeout : value) : reply :=
  axios_get url (or_else options_timeout (VNum (num_of_Z 30000))).

(** The runtime: [globalThis.fetch] and the module [axios], each present or
    not. *)
Record runtime : Type := {
  global_fetch : option (string -> value -> outcome);
  axios_module : option (string -> value -> reply) }.

(** The client that the module builds when it is loaded; no client at all,
    and the error of the load, when neither is there. *)
Definition httpClient (rt : runtime)
  : result (string -> value -> reply) :=
  match global_fetch rt with
  | Some fetch => Ok (get fetch)
  | None =>
      match axios_module rt with
      | Some axios_get => Ok (getWithAxios axios_get)
      | None => Throw "Please install axios: npm install axios"
      end
  end.

(** The operations read nothing of an error but its message. *)
Definition outcomeOf (r : reply) : result value :=
  match r with
  | Data data => Ok data
  | Failure e => Throw (message e)
  end.

(** A platform whose network is the client over [fetch].  The operations
    hand the timeout over with the default of the client already applied;
    [get] applies it once more, which changes nothing. *)
Definition over (fetch : string -> value -> outcome) (P : Platform)
  : Platform :=
  {| fetch_json := fun url timeout => outcomeOf (get fetch url timeout);
     JSON_parse := JSON_parse P;
     lnurl_requestInvoice := lnurl_requestInvoice P;
     lnurl_requestPayServiceParams := lnurl_requestPayServiceParams P;
     lnurl_requestInvoiceWithServiceParams :=
       lnurl_requestInvoiceWithServiceParams P |}.

End HttpClient.

(* ------------------------------------------------------------------ *)
(** ** [src/unnamed/part_002]: the operations of the wrapper           *)
(* ------------------------------------------------------------------ *)

Module WrapperOps.

(** [Number.isInteger(v)] *)
Definition isInteger (v : value) : bool :=
  match v with
  | VNum n => num_isInteger n
  | _ => false
  end.

(** [a <= b] and [a >= b] where the left operand is a number. *)
Definition le (a b : value) : bool := num_le (toNumber a) (toNumber b).
Definition ge (a b : value) : bool := num_le (toNumber b) (toNumber a).

(** [!Number.isInteger(tokens) || tokens <= 0] *)
Definition notPositiveInteger (tokens : value) : bool :=
  negb (isInteger tokens) || le tokens (VNum (num_of_Z 0)).

(** [comment.length] of a comment that is a text. *)
Definition lengthOf (comment : value) : value :=
  match comment with
  | VStr s => VNum (nat_length s)
  | _ => VUndefined
  end.

(** [target.k = v] in strict mode, which is the mode of a class body.  A
    property with a name cannot be kept on an array or a function in this
    model of values: these are returned as they are. *)
Definition setProperty (target : value) (k : string) (v : value)
  : result value :=
  match target with
  | VObj props => Ok (VObj (Json.set_prop k v props))
  | VUndefined =>
      Throw ("Cannot set properties of undefined (setting '" ++ k ++ "')")
  | VNull => Throw ("Cannot set properties of null (setting '" ++ k ++ "')")
  | VStr s =>
      Throw ("Cannot create property '" ++ k ++ "' on string '" ++ s ++ "'")
  | VNum n =>
      Throw ("Cannot create property '" ++ k ++ "' on number '"
               ++ num_toString n ++ "'")
  | VBool b =>
      Throw ("Cannot create property '" ++ k ++ "' on boolean '"
               ++ toString (VBool b) ++ "'")
  | VArr _ | VFun _ => Ok target
  end.

(** [(entry) => Array.isArray(entry) && entry.length >= 2 &&
     entry[0] === "text/plain"] *)
Definition isTextEntry (entry : value) : bool :=
  match entry with
  | VArr elems =>
      Nat.leb 2 (List.length elems) && eq_str (index elems 0) "text/plain"
  | _ => false
  end.

Definition parseDescription (metadata : value) : value :=
  if negb (truthy metadata) || negb (isArray metadata) then VStr "Payment"
  else
    match metadata with
    | VArr items =>
        match find isTextEntry items with
        | Some textEntry => PosClient.item_at textEntry 1
        | None => VStr "Payment"
        end
    | _ => VStr "Payment"
    end.

Section Operations.

Variable P : Platform.

(** The address handed to the library: in POS mode a URL gets the
    parameter [pos=true], an address is left as it is. *)
Definition posUrlOrAddress (posMode lnUrlOrAddress : value) : result value :=
  if truthy posMode then
    let* isUrl := call_startsWith "lnUrlOrAddress" lnUrlOrAddress "http" in
    if isUrl then
      let* hasQuery := call_includes "lnUrlOrAddress" lnUrlOrAddress "?" in
      let separator := if hasQuery then "&" else "?" in
      Ok (VStr (toString lnUrlOrAddress ++ separator ++ "pos=true"))
    else Ok lnUrlOrAddress
  else Ok lnUrlOrAddress.

(** The [try] block of [requestPayServiceParams]. *)
Definition askLibraryForParams (options : ServiceParamsOptions.t)
  : result value :=
  let* lnUrlOrAddress :=
    posUrlOrAddress (ServiceParamsOptions.posMode options)
      (ServiceParamsOptions.lnUrlOrAddress options) in
  let* params :=
    lnurl_requestPayServiceParams P
      (ServiceParamsOptions.make lnUrlOrAddress VUndefined
         (ServiceParamsOptions.onionAllowed options)
         (ServiceParamsOptions.fetchGet options) VUndefined) in
  setProperty params "posMode"
    (or_else (ServiceParamsOptions.posMode options) (VBool false)).

(** The [catch] block of [requestPayServiceParams]. *)
Definition rethrowParamsError (posMode : value) (message : string)
  : result value :=
  if includes "is required" message || includes "Invalid" message
  then Throw message
  else if truthy posMode
       then Throw ("Failed to get POS service params: " ++ message)
       else Throw ("Failed to get service params: " ++ message).

Definition requestPayServiceParams (options : ServiceParamsOptions.t)
  : result value :=
  let lnUrlOrAddress := ServiceParamsOptions.lnUrlOrAddress options in
  if negb (truthy lnUrlOrAddress) then Throw "lnUrlOrAddress is required"
  else
    let* isAddress :=
      call_includes "options.lnUrlOrAddress" lnUrlOrAddress "@" in
    if negb isAddress then Throw "Invalid Lightning address format"
    else
      try_catch (askLibraryForParams options)
        (rethrowParamsError (ServiceParamsOptions.posMode options)).

(** The checks of [requestInvoiceWithServiceParams], which come before its
    [try] block. *)
Definition checkRequest (params tokens comment : value) : result unit :=
  if negb (truthy params) then Throw "params is required"
  else if notPositiveInteger tokens
  then Throw "tokens must be a positive integer"
  else if truthy comment && negb (is_string comment)
  then Throw "comment must be a string"
  else
    let* min := get params "min" in
    if PosClient.lt tokens min
    then Throw ("Amount too small. Minimum: " ++ toString min ++ " sats")
    else
      let* max := get params "max" in
      if PosClient.gt tokens max
      then Throw ("Amount too large. Maximum: " ++ toString max ++ " sats")
      else
        let* commentAllowed := get params "commentAllowed" in
        if truthy comment && PosClient.gt (lengthOf comment) commentAllowed
        then Throw ("Comment too long. Maximum: " ++ toString commentAllowed
                      ++ " characters")
        else Ok tt.

(** The [catch] block of [requestInvoiceWithServiceParams]. *)
Definition rethrowStepError (message : string) : result value :=
  if includes "is required" message
     || includes "must be" message
     || includes "too small" message
     || includes "too large" message
     || includes "too long" message
  then Throw message
  else Throw ("Invoice request failed: " ++ message).

Definition requestInvoiceWithServiceParams
  (options : InvoiceWithServiceParamsOptions.t) : result value :=
  let params := InvoiceWithServiceParamsOptions.params options in
  let tokens := InvoiceWithServiceParamsOptions.tokens options in
  let comment := InvoiceWithServiceParamsOptions.comment options in
  let* _ := checkRequest params tokens comment in
  try_catch
    (lnurl_requestInvoiceWithServiceParams P
       (InvoiceWithServiceParamsOptions.make params tokens comment VUndefined))
    rethrowStepError.

(** The [try] block of [requestInvoice]. *)
Definition resolveThenRequest (options : LnurlPayOptions.t) : result value :=
  let tokens := LnurlPayOptions.tokens options in
  let* params :=
    requestPayServiceParams
      (ServiceParamsOptions.make (LnurlPayOptions.lnUrlOrAddress options)
         (LnurlPayOptions.posMode options)
         (LnurlPayOptions.onionAllowed options)
         (LnurlPayOptions.fetchGet options)
         (LnurlPayOptions.timeout options)) in
  let* invoiceResponse :=
    requestInvoiceWithServiceParams
      (InvoiceWithServiceParamsOptions.make params tokens
         (LnurlPayOptions.comment options)
         (LnurlPayOptions.timeout options)) in
  let* invoice := get invoiceResponse "invoice" in
  let* successAction := get invoiceResponse "successAction" in
  let* rawData := get invoiceResponse "rawData" in
  let* min := get params "min" in
  let hasValidAmount :=
    if ge tokens min
    then let* max := get params "max" in Ok (le tokens max)
    else Ok false in
  let* valid := hasValidAmount in
  Ok (VObj
        [ ("invoice", invoice);
          ("params", params);
          ("successAction", successAction);
          ("rawData", rawData);
          ("hasValidAmount", VBool valid);
          ("hasValidDescriptionHash", VBool true);
          ("validatePreimage", VFun "() => true") ]).

(** The [catch] block of [requestInvoice]. *)
Definition rethrowInvoiceError (posMode : value) (message : string)
  : result value :=
  if includes "is required" message
     || includes "must be" message
     || includes "Invalid" message
     || includes "too long" message
  then Throw message
  else if truthy posMode
       then Throw ("POS invoice request failed: " ++ message)
       else Throw ("Invoice request failed: " ++ message).

Definition requestInvoice (options : LnurlPayOptions.t) : result value :=
  let lnUrlOrAddress := LnurlPayOptions.lnUrlOrAddress options in
  let tokens := LnurlPayOptions.tokens options in
  let comment := LnurlPayOptions.comment options in
  if negb (truthy lnUrlOrAddress) then Throw "lnUrlOrAddress is required"
  else if notPositiveInteger tokens
  then Throw "tokens must be a positive integer"
  else if truthy comment && negb (is_string comment)
  then Throw "comment must be a string"
  else if truthy comment
          && PosClient.gt (lengthOf comment) (VNum (num_of_Z 144))
  then Throw "Comment too long. Maximum: 144 characters"
  else
    let* isAddress :=
      call_includes "options.lnUrlOrAddress" lnUrlOrAddress "@" in
    if negb isAddress then Throw "Invalid Lightning address format"
    else
      try_catch (resolveThenRequest options)
        (rethrowInvoiceError (LnurlPayOptions.posMode options)).

End Operations.

End WrapperOps.

(* ------------------------------------------------------------------ *)
(** ** Another provider to run the operations against                  *)
(* ------------------------------------------------------------------ *)

(** A provider on another host, whose response carries the status, the
    callback and the metadata and nothing else: no bounds and no length of
    comment. *)
Module BareScenario.

Definition bareResponse_props : list (string * value) :=
  [ ("status", VStr "OK");
    ("callback", VStr "https://pay.example.com/cb");
    ("metadata", VArr []) ].

Definition provider (url : string) (timeout : value) : result value :=
  if String.eqb url "https://pay.example.com/.well-known/lnurlp/shop?pos=true"
  then Ok (VObj bareResponse_props)
  else Throw "HTTP 404: Not Found".

Definition platform : Platform :=
  {| fetch_json := provider;
     JSON_parse := Json.parse;
     lnurl_requestInvoice := Scenario.library_requestInvoice;
     lnurl_requestPayServiceParams := Scenario.library_requestPayServiceParams;
     lnurl_requestInvoiceWithServiceParams :=
       Scenario.library_requestInvoiceWithServiceParams |}.

Definition options : ServiceParamsOptions.t :=
  ServiceParamsOptions.make (VStr "shop@pay.example.com") (VBool true)
    VUndefined VUndefined VUndefined.

End BareScenario.

(** The timeout of a call: [n] milliseconds when the option is the
    strictly positive integer [n], and 30000 when there is no option. *)
Module ClientSituation.

Definition effectiveTimeout (timeout : value) (n : Z) : Prop :=
  (timeout = VUndefined /\ n = 30000)
  \/ (timeout = VNum (num_of_Z n) /\ 0 < n).

End ClientSituation.

Module WrapperSituation.

(** A comment that is absent (falsy) or a text: what the wrapper lets
    through its test [comment must be a string]. *)
Definition textOrAbsent (comment : value) : Prop :=
  truthy comment = false \/ is_string comment = true.

(** A comment that is absent or a text of 144 UTF-16 code units at most:
    what the one-call operation of the wrapper lets through its own
    checks. *)
Definition shortComment (comment : value) : Prop :=
  truthy comment = false
  \/ exists c : string, comment = VStr c /\ (utf16_length c <= 144)%nat.

(** [comment && comment.length > params.commentAllowed] *)
Definition tooLong (comment : value) (props : list (string * value)) : bool :=
  truthy comment
  && PosClient.gt (WrapperOps.lengthOf comment) (lookup "commentAllowed" props).

End WrapperSituation.

(* ------------------------------------------------------------------ *)
(** ** A network to run the HTTP client against                        *)
(* ------------------------------------------------------------------ *)

Module NetScenario.

Definition aborted : HttpClient.error :=
  {| HttpClient.name := "AbortError";
     HttpClient.message := "This operation was aborted" |}.

Definition unreachable : HttpClient.error :=
  {| HttpClient.name := "TypeError"; HttpClient.message := "fetch failed" |}.

(** One host that does not answer in time, one that does not know the
    user, and the provider of the specification's scenario. *)
Definition fetch (url : string) (timeout : value) : HttpClient.outcome :=
  if String.eqb url "https://slow.example.com/.well-known/lnurlp/user?pos=true"
  then HttpClient.Rejected aborted
  else if String.eqb url
            "https://shop.example.com/.well-known/lnurlp/nobody?pos=true"
  then HttpClient.Response false 404 "Not Found"
         (HttpClient.NotJson unreachable)
  else if String.eqb url
            "https://bringin.xyz/.well-known/lnurlp/merchant?pos=true"
  then HttpClient.Response true 200 "OK"
         (HttpClient.Json Scenario.coffeeResponse)
  else HttpClient.Rejected unreachable.

Definition platform : Platform := HttpClient.over fetch Scenario.platform.

Definition resolve (address : string) (timeout : value) : result value :=
  PosClient.requestPayServiceParams platform
    (ServiceParamsOptions.make (VStr address) (VBool true) VUndefined
       VUndefined timeout).

End NetScenario.

(* ------------------------------------------------------------------ *)
(** ** A library to run the wrapper against                            *)
(* ------------------------------------------------------------------ *)

Module WrapperScenario.

(** What the library returns for a resolution, and for a request. *)
Definition libraryParams_props : list (string * value) :=
  [ ("callback", VStr "https://example.com/lnurlp/callback");
    ("fixed", VBool false);
    ("min", Scenario.num 22000);
    ("max", Scenario.num 500000);
    ("domain", VStr "example.com");
    ("metadata", VArr [VArr [VStr "text/plain"; VStr "Shop"]]);
    ("commentAllowed", Scenario.num 200) ].

Definition libraryInvoice_props : list (string * value) :=
  [ ("invoice", VStr "lnbc250u1...");
    ("successAction", VNull);
    ("rawData", VObj [("pr", VStr "lnbc250u1...")]) ].

(** The library: one host is down, the others answer; the text handed over
    is kept in the answer under [asked]. *)
Definition library_requestPayServiceParams (options : ServiceParamsOptions.t)
  : result value :=
  if eq_str (ServiceParamsOptions.lnUrlOrAddress options) "shop@down.example.com"
  then Throw "connect ECONNREFUSED"
  else Ok (VObj (("asked", ServiceParamsOptions.lnUrlOrAddress options)
                   :: libraryParams_props)).

Definition library_requestInvoiceWithServiceParams
  (options : InvoiceWithServiceParamsOptions.t) : result value :=
  Ok (VObj libraryInvoice_props).

(** A text of [n] times the letter e with an acute accent, which takes two
    bytes and is one UTF-16 code unit. *)
Fixpoint accented (n : nat) : string :=
  match n with
  | O => EmptyString
  | S n' => String (ascii_of_nat 195) (String (ascii_of_nat 169) (accented n'))
  end.

Definition platform : Platform :=
  {| fetch_json := Scenario.provider;
     JSON_parse := Json.parse;
     lnurl_requestInvoice := Scenario.library_requestInvoice;
     lnurl_requestPayServiceParams := library_requestPayServiceParams;
     lnurl_requestInvoiceWithServiceParams :=
       library_requestInvoiceWithServiceParams |}.

Definition resolve (address : string) (posMode : value) : result value :=
  WrapperOps.requestPayServiceParams platform
    (ServiceParamsOptions.make (VStr address) posMode VUndefined VUndefined
       VUndefined).

Definition invoice (address : string) (amount : Z) (posMode : value)
  : result value :=
  WrapperOps.requestInvoice platform
    (LnurlPayOptions.make (VStr address) (Scenario.num amount) VUndefined
       posMode VUndefined VUndefined VUndefined).

Definition invoiceWith (params : value) (amount : Z) : result value :=
  WrapperOps.requestInvoiceWithServiceParams platform
    (InvoiceWithServiceParamsOptions.make params (Scenario.num amount)
       VUndefined VUndefined).

End WrapperScenario.

(* ------------------------------------------------------------------ *)
(** ** Facts about numbers and their text                              *)
(* ------------------------------------------------------------------ *)

Module NumberFacts.

Lemma Qred_inject_Z (k : Z) : Qred (inject_Z k) = inject_Z k.
Proof.
  unfold Qred, inject_Z.
  pose proof (Z.ggcd_gcd k 1) as Hg.
  pose proof (Z.ggcd_correct_divisors k 1) as Hd.
  destruct (Z.ggcd k 1) as [g [aa bb]]. simpl in *.
  rewrite Z.gcd_1_r in Hg. subst g. destruct Hd as [Ha Hb].
  assert (Hbb : bb = 1) by lia. assert (Haa : aa = k) by lia.
  rewrite Hbb, Haa. reflexivity.
Qed.

Lemma Qleb_le (x y : Q) : Qleb x y = true <-> (x <= y)%Q.
Proof.
  unfold Qleb. destruct (Qcompare_spec x y) as [H | H | H]; split; intro G;
    try reflexivity; try discriminate.
  - rewrite H. apply Qle_refl.
  - apply Qlt_le_weak. exact H.
  - exfalso. apply (Qlt_irrefl x). eapply Qle_lt_trans; eauto.
Qed.

Lemma Qltb_lt (x y : Q) : Qltb x y = true <-> (x < y)%Q.
Proof.
  unfold Qltb. rewrite Qlt_alt. destruct (x ?= y)%Q; split; congruence.
Qed.

Lemma pow2_pos (k : Z) : (0 < 2 ^ k)%Q.
Proof. apply Qpower_0_lt. reflexivity. Qed.

Lemma pow2_Z (k : Z) : 0 <= k -> (2 ^ k == inject_Z (2 ^ k))%Q.
Proof. intros H. rewrite (Zpower_Qpower 2 k H). reflexivity. Qed.

(** The nearest integer is at most one half away. *)
Lemma round_half_even_error (q : Q) :
  (Qabs (inject_Z (round_half_even q) - q) <= 1 # 2)%Q.
Proof.
  unfold round_half_even.
  pose proof (Qfloor_le q) as Hlo. pose proof (Qlt_floor q) as Hhi.
  rewrite inject_Z_plus in Hhi. change (inject_Z 1) with 1%Q in Hhi.
  assert (Hup : forall f : Z, (inject_Z (f + 1) == inject_Z f + 1)%Q).
  { intros f. rewrite inject_Z_plus. reflexivity. }
  apply Qabs_Qle_condition.
  destruct (Qcompare_spec (q - inject_Z (Qfloor q)) (1 # 2)) as [H | H | H].
  - destruct (Z.even (Qfloor q)); [ | rewrite Hup]; split; lra.
  - split; lra.
  - rewrite Hup. split; lra.
Qed.

Lemma round_half_even_integer (q : Q) (m : Z) :
  (q == inject_Z m)%Q -> round_half_even q = m.
Proof.
  intros H. unfold round_half_even.
  assert (Hf : Qfloor q = m).
  { rewrite (Qfloor_comp _ _ H). apply Qfloor_Z. }
  rewrite Hf.
  destruct (Qcompare_spec (q - inject_Z m) (1 # 2)) as [E | E | E];
    try reflexivity; lra.
Qed.

(** [2^(log2_floor q)] is below [q]. *)
Lemma log2_floor_le (q : Q) : (0 < q)%Q -> (2 ^ log2_floor q <= q)%Q.
Proof.
  intros Hq. unfold log2_floor.
  destruct (Qleb (2 ^ (Z.log2 (Qnum q) - Z.log2 (Z.pos (Qden q)))) q) eqn:E.
  - apply Qleb_le. exact E.
  - clear E. destruct q as [p d]. cbn [Qnum Qden].
    assert (Hp : 0 < p).
    { unfold Qlt in Hq. cbn in Hq. lia. }
    pose proof (Z.log2_spec p Hp) as [Hp1 _].
    pose proof (Z.log2_spec (Z.pos d) (Pos2Z.is_pos d)) as [_ Hd2].
    pose proof (Z.log2_nonneg p) as Hlp.
    pose proof (Z.log2_nonneg (Z.pos d)) as Hld.
    replace (Z.log2 p - Z.log2 (Z.pos d) - 1)
      with (Z.log2 p - Z.succ (Z.log2 (Z.pos d))) by lia.
    rewrite Qpower_minus by discriminate.
    rewrite (pow2_Z (Z.log2 p)) by lia.
    rewrite (pow2_Z (Z.succ (Z.log2 (Z.pos d)))) by lia.
    rewrite (Qmake_Qdiv p d).
    assert (H1 : (inject_Z (2 ^ Z.log2 p) <= inject_Z p)%Q)
      by (rewrite <- Zle_Qle; exact Hp1).
    assert (H2 : (inject_Z (Z.pos d) <= inject_Z (2 ^ Z.succ (Z.log2 (Z.pos d))))%Q)
      by (rewrite <- Zle_Qle; lia).
    assert (H3 : (0 < inject_Z (Z.pos d))%Q)
      by (rewrite <- (Zlt_Qlt 0); lia).
    assert (H4 : (0 < inject_Z (2 ^ Z.log2 p))%Q).
    { rewrite <- (Zlt_Qlt 0). apply Z.pow_pos_nonneg; lia. }
    set (A := inject_Z (2 ^ Z.log2 p)) in *.
    set (B := inject_Z (2 ^ Z.succ (Z.log2 (Z.pos d)))) in *.
    set (P := inject_Z p) in *. set (D := inject_Z (Z.pos d)) in *.
    apply Qle_shift_div_l; [exact H3 | ].
    unfold Qdiv. 
    assert (HB : (0 < B)%Q) by lra.
    assert (Hinv : (A * / B * D <= A)%Q).
    { assert (HD : (D * / B <= 1)%Q).
      { apply Qle_shift_div_r; [exact HB | lra]. }
      assert (Heq : (A * / B * D == A * (D * / B))%Q) by ring.
      rewrite Heq. 
      assert (Hm : (A * (D * / B) <= A * 1)%Q).
      { apply Qmult_le_l; [exact H4 | exact HD]. }
      lra. }
    lra.
Qed.

(** A positive rational that is an integer of at most [2^53] is a binary64
    value: it is rounded to itself. *)
Lemma round64_pos_exact (q : Q) (z : Z) :
  (q == inject_Z z)%Q -> 0 < z <= 2 ^ 53 ->
  round64_pos q = Num (inject_Z z).
Proof.
  intros Hq [Hz Hmax].
  assert (Hpos : (0 < q)%Q).
  { rewrite Hq. rewrite <- (Zlt_Qlt 0). exact Hz. }
  pose proof (log2_floor_le q Hpos) as He.
  unfold round64_pos.
  set (e := log2_floor q) in *.
  assert (He53 : e <= 53).
  { apply (Qpower_le_compat_l_inv 2); [ | reflexivity].
    rewrite (pow2_Z 53) by lia. apply (Qle_trans _ q); [exact He | ].
    rewrite Hq. rewrite <- Zle_Qle. exact Hmax. }
  set (u := Z.max (e - 52) (-1074)).
  assert (Hu : -1074 <= u <= 1) by (subst u; lia).
  assert (Hm : exists m : Z, (q / 2 ^ u == inject_Z m)%Q
                             /\ (inject_Z m * 2 ^ u == inject_Z z)%Q).
  { destruct (Z.le_gt_cases u 0) as [Hneg | Hone].
    - exists (z * 2 ^ (- u)).
      assert (Hinv : (2 ^ u == / inject_Z (2 ^ (- u)))%Q).
      { replace u with (- - u) at 1 by lia. rewrite Qpower_opp.
        rewrite (pow2_Z (- u)) by lia. reflexivity. }
      assert (Hnz : ~ (inject_Z (2 ^ (- u)) == 0)%Q).
      { intros H0. assert (0 < 2 ^ (- u)) by (apply Z.pow_pos_nonneg; lia).
        rewrite (Zlt_Qlt 0) in H. rewrite H0 in H.
        exact (Qlt_irrefl _ H). }
      rewrite Hinv, inject_Z_mult, Hq. split; field; exact Hnz.
    - assert (Hu1 : u = 1) by lia.
      assert (He1 : e = 53) by (subst u; lia).
      assert (Hz53 : z = 2 ^ 53).
      { apply Z.le_antisymm; [exact Hmax | ].
        rewrite Zle_Qle. rewrite <- Hq, <- (pow2_Z 53) by lia.
        rewrite He1 in He. exact He. }
      exists (2 ^ 52). rewrite Hu1, Hq, Hz53. split; reflexivity. }
  destruct Hm as (m & Hm1 & Hm2).
  rewrite (round_half_even_integer _ m Hm1).
  assert (Hfin : Qleb (2 ^ 1024) (inject_Z m * 2 ^ u) = false).
  { destruct (Qleb (2 ^ 1024) (inject_Z m * 2 ^ u)) eqn:E; [ | reflexivity].
    apply Qleb_le in E. rewrite Hm2 in E.
    rewrite (pow2_Z 1024) in E by lia. rewrite <- Zle_Qle in E.
    assert (2 ^ 53 < 2 ^ 1024) by (apply Z.pow_lt_mono_r; lia). lia. }
  rewrite Hfin. f_equal.
  rewrite <- (Qred_inject_Z z). apply Qred_complete. exact Hm2.
Qed.

(** Every integer of at most [2^53] in absolute value is rounded to
    itself. *)
Lemma round64_exact (q : Q) (z : Z) :
  (q == inject_Z z)%Q -> Z.abs z <= 2 ^ 53 -> round64 q = Num (inject_Z z).
Proof.
  intros Hq Hz. unfold round64.
  destruct (Qcompare_spec q 0) as [H | H | H].
  - rewrite Hq in H. unfold Qeq in H. cbn in H.
    assert (H0 : z = 0) by lia. subst z. reflexivity.
  - rewrite Hq in H. change 0%Q with (inject_Z 0) in H.
    rewrite <- Zlt_Qlt in H.
    rewrite (round64_pos_exact (- q) (- z)).
    + cbn [num_opp]. f_equal. rewrite <- inject_Z_opp, Z.opp_involutive.
      apply Qred_inject_Z.
    + rewrite Hq, inject_Z_opp. reflexivity.
    + lia.
  - rewrite Hq in H. change 0%Q with (inject_Z 0) in H.
    rewrite <- Zlt_Qlt in H.
    apply round64_pos_exact; [exact Hq | lia].
Qed.

Lemma round64_integer (z : Z) :
  Z.abs z <= 2 ^ 53 -> round64 (inject_Z z) = num_of_Z z.
Proof. intros Hz. apply round64_exact; [reflexivity | exact Hz]. Qed.

(** A positive rational in the range of the normal binary64 values is
    rounded to a number within the relative distance [2^-53]. *)
Lemma round64_pos_near (q : Q) :
  (0 < q)%Q -> (2 ^ (-1022) <= q)%Q -> (q < 2 ^ 1023)%Q ->
  exists r : Q,
    round64_pos q = Num r /\ (Qabs (r - q) <= q * 2 ^ (-53))%Q.
Proof.
  intros Hpos Hlow Hhigh.
  pose proof (log2_floor_le q Hpos) as He.
  unfold round64_pos.
  set (e := log2_floor q) in *.
  set (u := Z.max (e - 52) (-1074)).
  pose proof (pow2_pos u) as Hsp.
  assert (Hspq : (2 ^ u <= q * 2 ^ (-52))%Q).
  { destruct (Z.max_spec (e - 52) (-1074)) as [[_ Hmax] | [_ Hmax]];
      fold u in Hmax; rewrite Hmax.
    - change (-1074) with (-1022 + -52).
      rewrite Qpower_plus by discriminate.
      apply Qmult_le_compat_r; [exact Hlow | ].
      apply Qlt_le_weak, pow2_pos.
    - unfold Z.sub. rewrite Qpower_plus by discriminate.
      apply Qmult_le_compat_r; [exact He | ].
      apply Qlt_le_weak, pow2_pos. }
  set (sp := (2 ^ u)%Q) in *.
  pose proof (round_half_even_error (q / sp)) as Herr.
  set (m := round_half_even (q / sp)) in *.
  assert (Hdist : (Qabs (inject_Z m * sp - q) <= sp * (1 # 2))%Q).
  { assert (Heq : (inject_Z m * sp - q == (inject_Z m - q / sp) * sp)%Q).
    { field. intros H0. rewrite H0 in Hsp. exact (Qlt_irrefl _ Hsp). }
    rewrite Heq, Qabs_Qmult, (Qabs_pos sp) by (apply Qlt_le_weak; exact Hsp).
    rewrite (Qmult_comm sp).
    apply Qmult_le_compat_r; [exact Herr | apply Qlt_le_weak; exact Hsp]. }
  assert (H52 : (2 ^ (-52) == 1 # 4503599627370496)%Q) by reflexivity.
  assert (H53 : (2 ^ (-53) == 1 # 9007199254740992)%Q) by reflexivity.
  assert (Hbound : (Qabs (inject_Z m * sp - q) <= q * 2 ^ (-53))%Q).
  { rewrite H53. rewrite H52 in Hspq.
    apply (Qle_trans _ _ _ Hdist). lra. }
  assert (Htop : (2 ^ 1024 == 2 * 2 ^ 1023)%Q).
  { change 1024 with (1 + 1023). rewrite Qpower_plus by discriminate.
    reflexivity. }
  assert (Hfin : Qleb (2 ^ 1024) (inject_Z m * sp) = false).
  { destruct (Qleb (2 ^ 1024) (inject_Z m * sp)) eqn:E; [ | reflexivity].
    apply Qleb_le in E. rewrite Htop in E.
    apply Qabs_Qle_condition in Hbound. rewrite H53 in Hbound.
    set (T := (2 ^ 1023)%Q) in *. lra. }
  rewrite Hfin. exists (Qred (inject_Z m * sp)). split; [reflexivity | ].
  rewrite Qred_correct. exact Hbound.
Qed.

(** The same for both signs. *)
Lemma round64_near (q : Q) :
  (2 ^ (-1022) <= Qabs q)%Q -> (Qabs q < 2 ^ 1023)%Q ->
  exists r : Q,
    round64 q = Num r /\ (Qabs (r - q) <= Qabs q * 2 ^ (-53))%Q.
Proof.
  intros Hlow Hhigh.
  assert (Hnz : (0 < Qabs q)%Q).
  { apply (Qlt_le_trans _ (2 ^ (-1022))); [apply pow2_pos | exact Hlow]. }
  unfold round64.
  destruct (Qcompare_spec q 0) as [H | H | H].
  - rewrite H in Hnz. exfalso. exact (Qlt_irrefl _ Hnz).
  - assert (Habs : (Qabs q == - q)%Q).
    { apply Qabs_neg. apply Qlt_le_weak. exact H. }
    rewrite Habs in Hlow, Hhigh, Hnz.
    destruct (round64_pos_near (- q)) as (r & Hr & Herr);
      [exact Hnz | exact Hlow | exact Hhigh | ].
    rewrite Hr. cbn [num_opp]. exists (Qred (- r)). split; [reflexivity | ].
    rewrite Qred_correct.
    assert (Heq : (- r - q == - (r - - q))%Q) by ring.
    rewrite Heq, Qabs_opp, Habs. exact Herr.
  - assert (Habs : (Qabs q == q)%Q).
    { apply Qabs_pos. apply Qlt_le_weak. exact H. }
    rewrite Habs in Hlow, Hhigh, Hnz.
    destruct (round64_pos_near q) as (r & Hr & Herr);
      [exact Hnz | exact Hlow | exact Hhigh | ].
    exists r. split; [exact Hr | ]. rewrite Habs. exact Herr.
Qed.

Lemma div1000_mul (x : Q) : (x / 1000 == x * (1 # 1000))%Q.
Proof. reflexivity. Qed.

Lemma Qabs_div1000 (a : Z) :
  (Qabs (inject_Z a / 1000) == inject_Z (Z.abs a) / 1000)%Q.
Proof.
  unfold Qeq, Qabs, Qdiv, Qmult, Qinv, inject_Z. cbn [Qnum Qden]. lia.
Qed.

Lemma safe_bound (a : Z) (k : Z) :
  Z.abs a < 2 ^ k -> (inject_Z (Z.abs a) < inject_Z (2 ^ k))%Q.
Proof. intros H. rewrite <- Zlt_Qlt. exact H. Qed.

(** The quotient by 1000 of an integer below [2^53] in absolute value is
    rounded to a number less than one thousandth away, and within the
    relative distance [2^-53]. *)
Lemma div1000_near (a : Z) :
  Z.abs a < 2 ^ 53 ->
  exists r : Q,
    num_div1000 (num_of_Z a) = Num r
    /\ (Qabs (r - inject_Z a / 1000) * inject_Z (2 ^ 53) * 1000
        <= inject_Z (Z.abs a))%Q.
Proof.
  intros Ha. unfold num_div1000, num_of_Z.
  destruct (Z.eq_dec a 0) as [-> | Hnz].
  - exists 0%Q. split; [reflexivity | ]. vm_compute. discriminate.
  - pose proof (safe_bound a 53 Ha) as HA.
    assert (H1 : (1 <= inject_Z (Z.abs a))%Q).
    { change 1%Q with (inject_Z 1). rewrite <- Zle_Qle. lia. }
    change (inject_Z (2 ^ 53)) with (9007199254740992 # 1) in *.
    pose proof (Qabs_div1000 a) as Habs.
    destruct (round64_near (inject_Z a / 1000)) as (r & Hr & Herr).
    + rewrite Habs. apply (Qle_trans _ (2 ^ (-10))).
      * apply Qpower_le_compat_l; [lia | discriminate].
      * assert (H10 : (2 ^ (-10) == 1 # 1024)%Q) by reflexivity.
        rewrite H10, div1000_mul. lra.
    + rewrite Habs. apply (Qlt_le_trans _ (2 ^ 53)).
      * assert (H53 : (2 ^ 53 == 9007199254740992 # 1)%Q) by reflexivity.
        rewrite H53, div1000_mul. lra.
      * apply Qpower_le_compat_l; [lia | discriminate].
    + exists r. split; [exact Hr | ].
      assert (H53 : (2 ^ (-53) == 1 # 9007199254740992)%Q) by reflexivity.
      set (D := Qabs (r - inject_Z a / 1000)) in *.
      rewrite Habs, H53, div1000_mul in Herr.
      set (A := inject_Z (Z.abs a)) in *. clear Habs. lra.
Qed.

(** A multiple of 1000 gives the integer quotient. *)
Lemma num_div1000_multiple (k : Z) :
  Z.abs k <= 2 ^ 53 -> num_div1000 (num_of_Z (1000 * k)) = num_of_Z k.
Proof.
  intros Hk. unfold num_div1000, num_of_Z.
  apply round64_exact; [ | exact Hk].
  unfold Qeq, Qdiv, Qmult, Qinv, inject_Z. cbn [Qnum Qden]. lia.
Qed.

(** The quotient is a whole number for the multiples of 1000 only. *)
Lemma num_isInteger_div1000 (a : Z) :
  Z.abs a < 2 ^ 53 ->
  num_isInteger (num_div1000 (num_of_Z a)) = true <-> a mod 1000 = 0.
Proof.
  intros Ha. split.
  - destruct (div1000_near a Ha) as (r & Hr & Herr).
    rewrite Hr. unfold num_isInteger. rewrite Pos.eqb_eq. intros Hden.
    pose proof (Qred_correct r) as Hred.
    destruct (Qred r) as [k d]. cbn [Qden] in Hden. subst d.
    change (k # 1) with (inject_Z k) in Hred.
    rewrite <- Hred in Herr.
    pose proof (safe_bound a 53 Ha) as HA.
    change (inject_Z (2 ^ 53)) with (9007199254740992 # 1) in *.
    assert (Hclose : (Qabs (inject_Z k - inject_Z a / 1000) * 1000 < 1)%Q).
    { set (D := Qabs (inject_Z k - inject_Z a / 1000)) in *.
      set (A := inject_Z (Z.abs a)) in *. lra. }
    assert (Hdiff : (Qabs (inject_Z k - inject_Z a / 1000) * 1000
                     == inject_Z (Z.abs (1000 * k - a)))%Q).
    { unfold Qeq, Qabs, Qdiv, Qmult, Qinv, Qminus, Qplus, Qopp, inject_Z.
      cbn [Qnum Qden]. lia. }
    rewrite Hdiff in Hclose. change 1%Q with (inject_Z 1) in Hclose.
    rewrite <- Zlt_Qlt in Hclose.
    assert (Hak : a = k * 1000) by lia.
    rewrite Hak. apply Z.mod_mul. lia.
  - intros Hmod.
    assert (Hk : a = 1000 * (a / 1000)) by (apply Z.div_exact; lia).
    rewrite Hk, num_div1000_multiple.
    + unfold num_isInteger, num_of_Z. rewrite Qred_inject_Z. reflexivity.
    + assert (Z.abs (a / 1000) <= Z.abs a); [ | lia].
      rewrite Hk at 2. lia.
Qed.

(** Below [2^52] the quotients are ordered exactly as the integers are. *)
Lemma num_le_div1000 (a b : Z) :
  Z.abs a < 2 ^ 52 -> Z.abs b < 2 ^ 52 ->
  num_le (num_div1000 (num_of_Z a)) (num_div1000 (num_of_Z b)) = true
  <-> (a <= b)%Z.
Proof.
  intros Ha Hb.
  assert (Hpow : 2 ^ 52 < 2 ^ 53) by (apply Z.pow_lt_mono_r; lia).
  destruct (div1000_near a) as (ra & Hra & Ea); [lia | ].
  destruct (div1000_near b) as (rb & Hrb & Eb); [lia | ].
  pose proof (safe_bound a 52 Ha) as HA.
  pose proof (safe_bound b 52 Hb) as HB.
  change (inject_Z (2 ^ 53)) with (9007199254740992 # 1) in *.
  change (inject_Z (2 ^ 52)) with (4503599627370496 # 1) in *.
  assert (Ha' : (Qabs (ra - inject_Z a / 1000) < 1 # 2000)%Q).
  { set (D := Qabs (ra - inject_Z a / 1000)) in *.
    set (A := inject_Z (Z.abs a)) in *. lra. }
  assert (Hb' : (Qabs (rb - inject_Z b / 1000) < 1 # 2000)%Q).
  { set (D := Qabs (rb - inject_Z b / 1000)) in *.
    set (B := inject_Z (Z.abs b)) in *. lra. }
  apply Qabs_Qlt_condition in Ha'. apply Qabs_Qlt_condition in Hb'.
  rewrite div1000_mul in Ha', Hb'.
  assert (Hstrict : forall x y : Z,
             x < y -> (inject_Z x + 1 <= inject_Z y)%Q).
  { intros x y Hxy. change 1%Q with (inject_Z 1).
    rewrite <- inject_Z_plus, <- Zle_Qle. lia. }
  rewrite Hra in *. rewrite Hrb in *. unfold num_le. rewrite Qleb_le.
  clear Ea Eb HA HB. split.
  - intros Hle. destruct (Z.le_gt_cases a b) as [H | H]; [exact H | ].
    pose proof (Hstrict b a H). exfalso. lra.
  - intros Hle. destruct (Z.eq_dec a b) as [-> | Hne].
    + rewrite Hra in Hrb. injection Hrb as ->. apply Qle_refl.
    + assert (Hlt : a < b) by lia. pose proof (Hstrict a b Hlt). lra.
Qed.

(** [a <= b] excludes [b < a]. *)
Lemma num_le_not_lt (a b : number) : num_le a b = true -> num_lt b a = false.
Proof.
  destruct a as [ | | | x], b as [ | | | y]; simpl; try congruence.
  unfold Qleb, Qltb. rewrite <- (Qcompare_antisym x y).
  destruct (x ?= y)%Q; simpl; congruence.
Qed.

Lemma num_le_lt_trans (a b c : number) :
  num_le a b = true -> num_lt b c = true -> num_lt a c = true.
Proof.
  destruct a as [ | | | x], b as [ | | | y], c as [ | | | z]; simpl;
    try congruence.
  rewrite Qleb_le, !Qltb_lt. apply Qle_lt_trans.
Qed.

(** *** Printing an integer and reading it back *)

Import Decimal.

Ltac step_digit :=
  cbn [NilEmpty.string_of_uint read_digits Pos.of_uint_acc Pos.of_uint nb_digits];
  match goal with
  | |- context [digit_value ?c] =>
      let v := eval vm_compute in (digit_value c) in
      change (digit_value c) with v
  end;
  cbv iota;
  match goal with
  | |- context [?d <? 10] =>
      let b := eval vm_compute in (d <? 10) in change (d <? 10) with b
  end;
  cbv iota.

Lemma read_digits_acc (d : uint) :
  forall (acc : Z) (count : nat), (0 < acc)%Z ->
    read_digits 10 acc count (NilEmpty.string_of_uint d)
    = (Zpos (Pos.of_uint_acc d (Z.to_pos acc)), (count + nb_digits d)%nat,
       EmptyString).
Proof.
  induction d; intros acc count Hacc;
    try (step_digit; rewrite IHd by lia; rewrite <- plus_n_Sm;
         repeat f_equal; lia).
  cbn. rewrite Nat.add_0_r. repeat f_equal. lia.
Qed.

Lemma read_digits_uint (d : uint) :
  forall count : nat,
    read_digits 10 0 count (NilEmpty.string_of_uint d)
    = (Z.of_N (Pos.of_uint d), (count + nb_digits d)%nat, EmptyString).
Proof.
  induction d; intros count;
    try (step_digit; rewrite read_digits_acc by lia; rewrite <- plus_n_Sm;
         reflexivity).
  - cbn. rewrite Nat.add_0_r. reflexivity.
  - step_digit. change (0 * 10 + 0) with 0.
    rewrite IHd, <- plus_n_Sm. reflexivity.
Qed.

Lemma string_of_uint_head (d : uint) :
  d <> Nil ->
  let s := NilEmpty.string_of_uint d in
  NilZero.string_of_uint d = s
  /\ trim_left s = s
  /\ read_sign s = (false, false, s)
  /\ match s with
     | String "0" (String "x" rest) | String "0" (String "X" rest) => (16, rest)
     | _ => (10, s)
     end = (10, s).
Proof.
  intros Hd. destruct d as [ | d | d | d | d | d | d | d | d | d | d];
    try congruence; cbn; repeat split; destruct d; reflexivity.
Qed.

(** [parseInt] of an integer number of at most [2^53] in absolute value is
    that number: its text is its digits, and the digits are read back. *)
Lemma parseInt_integer (z : Z) :
  Z.abs z <= 2 ^ 53 -> parseInt (VNum (num_of_Z z)) = num_of_Z z.
Proof.
  intros Hz. unfold parseInt. cbn [toString].
  unfold num_of_Z at 1, num_toString.
  rewrite Qred_inject_Z. cbn [inject_Z Qnum Qden Pos.eqb andb].
  replace (Z.abs z <=? 2 ^ 53) with true by (symmetry; apply Z.leb_le; exact Hz).
  unfold string_of_Z. destruct z as [ | p | p].
  - reflexivity.
  - cbn [Z.to_int NilZero.string_of_int].
    destruct (string_of_uint_head (Pos.to_uint p) (Unsigned.to_uint_nonnil p))
      as (H0 & H1 & H2 & H3).
    rewrite H0, H1, H2, H3, read_digits_uint, Unsigned.of_to.
    pose proof (Unsigned.to_uint_nonnil p) as Hn.
    destruct (Pos.to_uint p); try congruence;
      cbn [nb_digits Nat.add Z.of_N]; apply round64_integer; exact Hz.
  - cbn [Z.to_int NilZero.string_of_int].
    destruct (string_of_uint_head (Pos.to_uint p) (Unsigned.to_uint_nonnil p))
      as (H0 & H1 & H2 & H3).
    rewrite H0. cbn [trim_left is_space].
    change (is_space "-") with false. cbv iota. cbn [read_sign].
    rewrite H3, read_digits_uint, Unsigned.of_to.
    pose proof (Unsigned.to_uint_nonnil p) as Hn.
    destruct (Pos.to_uint p); try congruence;
      cbn [nb_digits Nat.add Z.of_N Z.opp]; apply round64_integer; exact Hz.
Qed.

(** *** The length of a text *)

Lemma utf16_nonempty (s : string) :
  s <> EmptyString -> (0 < utf16_length s)%nat.
Proof.
  destruct s as [ | c rest]; [congruence | ]. intros _.
  unfold utf16_length. cbn [utf16_units Nat.ltb Nat.leb andb].
  repeat match goal with
         | |- context [if ?b then _ else _] => destruct b
         end; lia.
Qed.

End NumberFacts.

(** Beyond the bounds of the lemmas above the numbers behave otherwise,
    as binary64 numbers do.  From [10^21] on a number is written with an
    exponent, and [parseInt] reads the digits before it only; a quotient by
    1000 of an integer above [2^53] can be whole although the integer is no
    multiple of 1000; two different integers above [2^52] can have the same
    quotient; and the thousandfold of [2^60] is written with sixteen
    digits. *)
Example numbers_beyond_the_bounds :
  num_toString (num_of_Z (10 ^ 21)) = "1e+21"
  /\ parseInt (VNum (num_of_Z (10 ^ 21))) = num_of_Z 1
  /\ num_toString (num_div1000 (parseInt (VNum (num_of_Z (10 ^ 21)))))
     = "0.001"
  /\ 144115188075856992 mod 1000 = 992
  /\ num_div1000 (num_of_Z 144115188075856992) = num_of_Z 144115188075857
  /\ num_div1000 (num_of_Z 9000000000000002)
     = num_div1000 (num_of_Z 9000000000000001)
  /\ num_toString (num_mul1000 (num_of_Z (2 ^ 60)))
     = "1.152921504606847e+21"
  /\ num_toString (num_of_Z (2 ^ 60)) = "1152921504606847000".
Proof. vm_compute. repeat split. Qed.

(** Numbers that are no integers, small and large. *)
Example text_of_numbers :
  num_toString (Num (41 # 2)) = "20.5"
  /\ num_toString (num_div1000 (num_of_Z 20001)) = "20.001"
  /\ num_toString (num_div1000 (num_of_Z 1)) = "0.001"
  /\ num_toString (round64 (1 # 10000000)) = "1e-7"
  /\ num_toString (round64 (1 # 3)) = "0.3333333333333333"
  /\ num_toString (round64 (- (5 # 2))) = "-2.5"
  /\ num_toString (round64 (inject_Z (10 ^ 400))) = "Infinity".
Proof. vm_compute. repeat split. Qed.

(** For the integers up to [2^53] the shortest digits that are read back
    are all the digits. *)
Example shortest_digits_of_integers :
  forallb (fun z => String.eqb (positive_toString (inject_Z z)) (string_of_Z z))
    [ 1; 9; 10; 144; 1000; 20000; 30000; 50000; 100000000; 123456789012;
      9007199254740991; 9007199254740992 ]
  = true.
Proof. vm_compute. reflexivity. Qed.

(** The length of a text is counted in UTF-16 code units: one for a
    character of two or three bytes, two for a character of four. *)
Example length_in_code_units :
  utf16_length "Hello World" = 11%nat
  /\ utf16_length (String (ascii_of_nat 195) (String (ascii_of_nat 169)
                      EmptyString)) = 1%nat
  /\ utf16_length (String (ascii_of_nat 226) (String (ascii_of_nat 130)
                      (String (ascii_of_nat 172) EmptyString))) = 1%nat
  /\ utf16_length (String (ascii_of_nat 240) (String (ascii_of_nat 159)
                      (String (ascii_of_nat 152) (String (ascii_of_nat 128)
                         EmptyString)))) = 2%nat.
Proof. vm_compute. repeat split. Qed.

(* ------------------------------------------------------------------ *)
(** ** Facts about strings                                             *)
(* ------------------------------------------------------------------ *)

Module StringFacts.

Lemma prefix_app (p s : string) : prefix p (p ++ s) = true.
Proof.
  induction p as [ | a p IH]; cbn.
  - destruct s; reflexivity.
  - destruct (ascii_dec a a) as [_ | Hne]; [exact IH | congruence].
Qed.

Lemma includes_unfold (p s : string) :
  includes p s = if prefix p s then true
                 else match s with
                      | EmptyString => false
                      | String _ rest => includes p rest
                      end.
Proof. destruct s; reflexivity. Qed.

(** A text includes what it starts with. *)
Lemma includes_app (p s : string) : includes p (p ++ s) = true.
Proof. rewrite includes_unfold, prefix_app. reflexivity. Qed.

(** A text includes what comes after any head. *)
Lemma includes_skip (p h s : string) :
  includes p s = true -> includes p (h ++ s) = true.
Proof.
  intros H. induction h as [ | a h IH]; cbn [append]; [exact H | ].
  cbn [includes]. rewrite IH. destruct (prefix p (String a (h ++ s))); reflexivity.
Qed.

Lemma includes_one_cons (c a : ascii) (t : string) :
  includes (String c EmptyString) (String a t) = Ascii.eqb a c || includes (String c EmptyString) t.
Proof.
  cbn [includes prefix].
  destruct (ascii_dec c a) as [-> | Hne].
  - rewrite Ascii.eqb_refl. destruct t; reflexivity.
  - assert (Ascii.eqb a c = false) as -> by (apply Ascii.eqb_neq; congruence).
    reflexivity.
Qed.

Lemma split_nonempty (c : ascii) (s : string) : split c s <> [].
Proof.
  destruct s as [ | a t]; cbn; [congruence | ].
  destruct (Ascii.eqb a c); [congruence | ].
  destruct (split c t); congruence.
Qed.

(** No separator: the text is the only part. *)
Lemma split_single (c : ascii) (s u : string) :
  split c s = [u] <-> s = u /\ includes (String c EmptyString) u = false.
Proof.
  revert u. induction s as [ | a t IH]; intros u.
  - cbn. split.
    + intros H. injection H as <-. split; reflexivity.
    + intros [<- _]. reflexivity.
  - cbn [split]. destruct (Ascii.eqb a c) eqn:E.
    + split.
      * intros H. injection H as _ H. exfalso. exact (split_nonempty c t H).
      * intros [<- H]. rewrite includes_one_cons, E in H. discriminate.
    + destruct (split c t) as [ | part parts] eqn:S;
        [exfalso; exact (split_nonempty c t S) | ].
      split.
      * intros H. injection H as <- ->.
        destruct (proj1 (IH part) eq_refl) as [-> Hinc].
        split; [reflexivity | ]. rewrite includes_one_cons, E. exact Hinc.
      * intros [<- H]. rewrite includes_one_cons, E in H. cbn in H.
        assert (G : part :: parts = [t]) by (apply IH; split; auto).
        injection G as -> ->. reflexivity.
Qed.

(** A first part followed by others: the text is the first part, the
    separator, and a text that splits into the others. *)
Lemma split_cons (c : ascii) (s u p : string) (ps : list string) :
  split c s = u :: p :: ps
  <-> exists t, s = u ++ String c t /\ includes (String c EmptyString) u = false
                /\ split c t = p :: ps.
Proof.
  revert u. induction s as [ | a t IH]; intros u.
  - cbn. split; [congruence | ].
    intros (t & H & _). destruct u; discriminate.
  - cbn [split]. destruct (Ascii.eqb a c) eqn:E.
    + apply Ascii.eqb_eq in E. subst a. split.
      * intros H. injection H as <- H. exists t. repeat split. exact H.
      * intros (t' & H & Hinc & Hs). destruct u as [ | b u'].
        -- cbn in H. injection H as <-. rewrite Hs. reflexivity.
        -- cbn in H. injection H as <- _.
           rewrite includes_one_cons, Ascii.eqb_refl in Hinc. discriminate.
    + destruct (split c t) as [ | part parts] eqn:S;
        [exfalso; exact (split_nonempty c t S) | ].
      split.
      * intros H. injection H as <- ->.
        destruct (proj1 (IH part) eq_refl) as (t' & -> & Hinc & Hs).
        exists t'. repeat split; [ | exact Hs].
        rewrite includes_one_cons, E. exact Hinc.
      * intros (t' & H & Hinc & Hs). destruct u as [ | b u'].
        -- cbn in H. injection H as -> _. rewrite Ascii.eqb_refl in E.
           discriminate.
        -- cbn in H. injection H as <- ->.
           rewrite includes_one_cons, E in Hinc. cbn in Hinc.
           assert (G : part :: parts = u' :: p :: ps).
           { apply (proj2 (IH u')). exists t'. repeat split; assumption. }
           injection G as -> ->. reflexivity.
Qed.

(** A text with the separator has at least two parts. *)
Lemma split_includes (c : ascii) (s u p : string) (ps : list string) :
  split c s = u :: p :: ps -> includes (String c EmptyString) s = true.
Proof.
  intros H. destruct (includes (String c EmptyString) s) eqn:E; [reflexivity | ].
  assert (G : split c s = [s]) by (apply split_single; split; auto).
  congruence.
Qed.

End StringFacts.

(* ------------------------------------------------------------------ *)
(** ** The metadata helpers                                            *)
(* ------------------------------------------------------------------ *)

Module ScanFacts.

(** [find] stops at the first element that qualifies. *)
Lemma find_first {A : Type} (f : A -> bool) (before : list A) (x : A)
  (after : list A) :
  (forall e, In e before -> f e = false) -> f x = true ->
  find f (before ++ x :: after)%list = Some x.
Proof.
  intros Hb Hx. induction before as [ | b before IH]; cbn.
  - rewrite Hx. reflexivity.
  - rewrite (Hb b) by (left; reflexivity).
    apply IH. intros e He. apply Hb. right. exact He.
Qed.

Lemma find_none {A : Type} (f : A -> bool) (items : list A) :
  (forall e, In e items -> f e = false) -> find f items = None.
Proof.
  intros H. induction items as [ | b items IH]; cbn; [reflexivity | ].
  rewrite (H b) by (left; reflexivity).
  apply IH. intros e He. apply H. right. exact He.
Qed.

(** Every list is of one of the two kinds. *)
Lemma scan_cases {A : Type} (f : A -> bool) (items : list A) :
  (forall e, In e items -> f e = false)
  \/ exists before x after,
       items = (before ++ x :: after)%list
       /\ (forall e, In e before -> f e = false) /\ f x = true.
Proof.
  induction items as [ | b items IH].
  - left. intros e [].
  - destruct (f b) eqn:Hb.
    + right. exists [], b, items. repeat split; auto. intros e [].
    + destruct IH as [Hall | (before & x & after & -> & Hbefore & Hx)].
      * left. intros e [<- | He]; auto.
      * right. exists (b :: before), x, after. repeat split; auto.
        intros e [<- | He]; auto.
Qed.

(** The same for the scan of the wrapper, whose test may throw. *)
Lemma find_entry_first (pred : value -> result bool) (before : list value)
  (x : value) (after : list value) :
  (forall e, In e before -> pred e = Ok false) -> pred x = Ok true ->
  LibWrapper.find_entry pred (before ++ x :: after)%list = Ok (Some x).
Proof.
  intros Hb Hx. induction before as [ | b before IH]; cbn.
  - rewrite Hx. reflexivity.
  - rewrite (Hb b) by (left; reflexivity). cbn.
    apply IH. intros e He. apply Hb. right. exact He.
Qed.

Lemma find_entry_none (pred : value -> result bool) (items : list value) :
  (forall e, In e items -> pred e = Ok false) ->
  LibWrapper.find_entry pred items = Ok None.
Proof.
  intros H. induction items as [ | b items IH]; cbn; [reflexivity | ].
  rewrite (H b) by (left; reflexivity). cbn.
  apply IH. intros e He. apply H. right. exact He.
Qed.

End ScanFacts.

(** C10. For every metadata value, [parseDescription] returns the payload of
    the first entry whose content type equals [text/plain], and the text
    [Payment] when there is no such entry or the metadata is not a list.
    The function is total: it returns a value for every input. *)
Theorem C10_parseDescription_first_text_plain :
  (forall metadata : value,
      isArray metadata = false ->
      PosClient.parseDescription metadata = VStr "Payment")
  /\ (forall items : list value,
         (forall e, In e items -> Spec.isTextPlain e = false) ->
         PosClient.parseDescription (VArr items) = VStr "Payment")
  /\ (forall (before : list value) (entry : value) (after : list value),
         (forall e, In e before -> Spec.isTextPlain e = false) ->
         Spec.isTextPlain entry = true ->
         PosClient.parseDescription (VArr (before ++ entry :: after)%list)
         = Spec.payload entry).
Proof.
  split; [ | split].
  - intros metadata H. destruct metadata; try reflexivity. discriminate.
  - intros items H. unfold PosClient.parseDescription.
    rewrite (ScanFacts.find_none PosClient.isTextPlainItem items H).
    reflexivity.
  - intros before entry after Hb He. unfold PosClient.parseDescription.
    rewrite (ScanFacts.find_first PosClient.isTextPlainItem before entry after
               Hb He).
    reflexivity.
Qed.

(** The list of the unit tests: an image entry, then the description. *)
Lemma C10_witness :
  PosClient.parseDescription
    (VArr [ VArr [VStr "image/png;base64"; VStr "data"];
            VArr [VStr "text/plain"; VStr "Test payment"] ])
  = VStr "Test payment".
Proof.
  apply (proj2 (proj2 C10_parseDescription_first_text_plain)
           [VArr [VStr "image/png;base64"; VStr "data"]]
           (VArr [VStr "text/plain"; VStr "Test payment"]) []).
  - intros e [<- | []]. reflexivity.
  - reflexivity.
Defined.

(** The examples of the specification. *)
Example parseDescription_coffee :
  PosClient.parseDescription (VArr [VArr [VStr "text/plain"; VStr "Coffee"]])
  = VStr "Coffee".
Proof. reflexivity. Qed.

Example parseDescription_empty :
  PosClient.parseDescription (VArr []) = VStr "Payment".
Proof. reflexivity. Qed.

Example parseDescription_null :
  PosClient.parseDescription VNull = VStr "Payment".
Proof. reflexivity. Qed.

(** An entry that has a content type and nothing else has no payload. *)
Example parseDescription_no_payload :
  PosClient.parseDescription (VArr [VArr [VStr "text/plain"]]) = VUndefined.
Proof. reflexivity. Qed.

(** *** The image *)

(** The items [extractImage] of the client stops at are those whose content
    type is one of the two encodings of an image that it names. *)
Lemma isImageItem_iff (item : value) :
  PosClient.isImageItem item = true
  <-> exists tail : list value,
        item = VArr (VStr "image/png;base64" :: tail)
        \/ item = VArr (VStr "image/jpeg;base64" :: tail).
Proof.
  unfold PosClient.isImageItem. split.
  - destruct item as [ | | | | | elems | | ]; try discriminate.
    destruct elems as [ | ct tail]; [discriminate | ].
    cbn. destruct ct; try discriminate. cbn.
    intros H. apply orb_true_iff in H. exists tail.
    destruct H as [H | H]; apply String.eqb_eq in H; subst; auto.
  - intros (tail & [-> | ->]); reflexivity.
Qed.

(** The entries the wrapper passes over without stopping and without
    throwing: what is not a list, a list of fewer than two elements, and a
    list whose content type is a text that does not begin with [image/]. *)
Lemma isImageEntry_false (entry : value) :
  LibWrapper.isImageEntry entry = Ok false
  <-> isArray entry = false
      \/ (exists elems, entry = VArr elems /\ (List.length elems < 2)%nat)
      \/ (exists ct tail, entry = VArr (VStr ct :: tail)
                          /\ startsWith "image/" ct = false).
Proof.
  split.
  - destruct entry as [ | | | | | elems | | ]; auto.
    unfold LibWrapper.isImageEntry.
    destruct (Nat.leb 2 (List.length elems)) eqn:L.
    + destruct elems as [ | ct tail]; [discriminate | ].
      destruct ct; try discriminate.
      cbn [index nth call_startsWith].
      intros H. injection H as H. right. right. eauto.
    + intros _. apply Nat.leb_gt in L. right. left. eauto.
  - intros [H | [(elems & -> & H) | (ct & tail & -> & H)]].
    + destruct entry; try reflexivity. discriminate.
    + unfold LibWrapper.isImageEntry. apply Nat.leb_gt in H. rewrite H.
      reflexivity.
    + unfold LibWrapper.isImageEntry. cbn [index nth call_startsWith].
      rewrite H. destruct (Nat.leb 2 (List.length (VStr ct :: tail)));
        reflexivity.
Qed.

(** C7, as the specification states it, fails on the client: the content
    type [image/gif;base64] begins with [image/], its payload is [abc], and
    the client returns the empty text. *)
Lemma C7_gif_is_not_extracted :
  let metadata := VArr [VArr [VStr "image/gif;base64"; VStr "abc"]] in
  PosClient.extractImage metadata = VStr EmptyString
  /\ Spec.firstPayload Spec.beginsWithImage EmptyString metadata = VStr "abc"
  /\ PosClient.extractImage metadata
     <> Spec.firstPayload Spec.beginsWithImage EmptyString metadata.
Proof.
  cbv zeta. repeat split; try reflexivity. vm_compute. discriminate.
Qed.

(** C7, amended.  The client returns the payload of the first entry whose
    content type is exactly [image/png;base64] or [image/jpeg;base64], and
    the empty text when there is none or the metadata is not a list; it is
    total.  The wrapper returns the payload of the first entry of at least
    two elements whose content type begins with [image/], provided that the
    entries before it are of the kinds of [isImageEntry_false], and the
    empty text when all entries are of these kinds or the metadata is not a
    list. *)
Theorem C7_extractImage :
  (forall metadata : value,
      isArray metadata = false ->
      PosClient.extractImage metadata = VStr EmptyString)
  /\ (forall items : list value,
         (forall e, In e items -> PosClient.isImageItem e = false) ->
         PosClient.extractImage (VArr items) = VStr EmptyString)
  /\ (forall (before : list value) (entry : value) (after : list value),
         (forall e, In e before -> PosClient.isImageItem e = false) ->
         PosClient.isImageItem entry = true ->
         PosClient.extractImage (VArr (before ++ entry :: after)%list)
         = Spec.payload entry)
  /\ (forall metadata : value,
         isArray metadata = false ->
         LibWrapper.extractImage metadata = Ok (VStr EmptyString))
  /\ (forall items : list value,
         (forall e, In e items -> LibWrapper.isImageEntry e = Ok false) ->
         LibWrapper.extractImage (VArr items) = Ok (VStr EmptyString))
  /\ (forall (before : list value) (ct : string) (payload : value)
             (rest after : list value),
         (forall e, In e before -> LibWrapper.isImageEntry e = Ok false) ->
         startsWith "image/" ct = true ->
         LibWrapper.extractImage
           (VArr (before ++ VArr (VStr ct :: payload :: rest) :: after)%list)
         = Ok payload).
Proof.
  repeat apply conj.
  - intros metadata H. destruct metadata; try reflexivity. discriminate.
  - intros items H. unfold PosClient.extractImage.
    rewrite (ScanFacts.find_none _ items H). reflexivity.
  - intros before entry after Hb He. unfold PosClient.extractImage.
    rewrite (ScanFacts.find_first _ before entry after Hb He). reflexivity.
  - intros metadata H. unfold LibWrapper.extractImage. rewrite H.
    rewrite orb_true_r. reflexivity.
  - intros items H. unfold LibWrapper.extractImage. cbn [truthy isArray negb orb].
    rewrite (ScanFacts.find_entry_none _ items H). reflexivity.
  - intros before ct payload rest after Hb Hct.
    unfold LibWrapper.extractImage. cbn [truthy isArray negb orb].
    rewrite (ScanFacts.find_entry_first _ before
               (VArr (VStr ct :: payload :: rest)) after Hb).
    + reflexivity.
    + unfold LibWrapper.isImageEntry. cbn [List.length Nat.leb index nth
                                            call_startsWith].
      rewrite Hct. reflexivity.
Qed.

(** The lists of the unit tests, on both variants. *)
Lemma C7_witness :
  PosClient.extractImage
    (VArr [ VArr [VStr "text/plain"; VStr "description"];
            VArr [VStr "image/jpeg;base64"; VStr "jpeg-data"] ])
  = VStr "jpeg-data"
  /\ LibWrapper.extractImage
       (VArr [ VArr [VStr "text/plain"; VStr "description"];
               VArr [VStr "image/jpeg;base64"; VStr "jpeg-data"] ])
     = Ok (VStr "jpeg-data").
Proof.
  split.
  - apply (proj1 (proj2 (proj2 C7_extractImage))
             [VArr [VStr "text/plain"; VStr "description"]]
             (VArr [VStr "image/jpeg;base64"; VStr "jpeg-data"]) []).
    + intros e [<- | []]. reflexivity.
    + reflexivity.
  - apply (proj2 (proj2 (proj2 (proj2 (proj2 C7_extractImage))))
             [VArr [VStr "text/plain"; VStr "description"]]
             "image/jpeg;base64" (VStr "jpeg-data") [] []).
    + intros e [<- | []]. reflexivity.
    + reflexivity.
Defined.

(** The examples of the specification hold on both variants. *)
Example extractImage_png :
  PosClient.extractImage (VArr [VArr [VStr "image/png;base64"; VStr "abc"]])
  = VStr "abc"
  /\ LibWrapper.extractImage
       (VArr [VArr [VStr "image/png;base64"; VStr "abc"]]) = Ok (VStr "abc").
Proof. split; reflexivity. Qed.

Example extractImage_text_only :
  PosClient.extractImage (VArr [VArr [VStr "text/plain"; VStr "x"]])
  = VStr EmptyString
  /\ LibWrapper.extractImage (VArr [VArr [VStr "text/plain"; VStr "x"]])
     = Ok (VStr EmptyString).
Proof. split; reflexivity. Qed.

(** What the amended statement leaves out: the wrapper throws when it meets
    an entry of two elements whose content type is not a text. *)
Example wrapper_extractImage_throws :
  LibWrapper.extractImage (VArr [VArr [VNum (num_of_Z 1); VNum (num_of_Z 2)]])
  = Throw "entry[0].startsWith is not a function".
Proof. reflexivity. Qed.

(** *** The hash *)

Module HashFacts.

Import Sha256.

Lemma round_length (st : list Z) (kw : Z * Z) :
  List.length st = 8%nat -> List.length (round st kw) = 8%nat.
Proof.
  intros H. do 9 (destruct st as [ | ? st]; try discriminate). reflexivity.
Qed.

Lemma rounds_length (kws : list (Z * Z)) :
  forall st, List.length st = 8%nat ->
             List.length (fold_left round kws st) = 8%nat.
Proof.
  induction kws as [ | kw kws IH]; intros st H; cbn; [exact H | ].
  apply IH, round_length, H.
Qed.

Lemma compress_length (h block : list Z) :
  List.length h = 8%nat -> List.length (compress h block) = 8%nat.
Proof.
  intros H. unfold compress.
  rewrite length_map, length_combine, rounds_length, H; auto.
Qed.

Lemma blocks_length (fuel : nat) :
  forall ws h, List.length h = 8%nat -> List.length (blocks fuel ws h) = 8%nat.
Proof.
  induction fuel as [ | fuel IH]; intros ws h H; cbn; [exact H | ].
  destruct ws; [exact H | ]. apply IH, compress_length, H.
Qed.

Lemma be_bytes_length (n : nat) (x : Z) : List.length (be_bytes n x) = n.
Proof. induction n; cbn; congruence. Qed.

Lemma words_bytes_length (h : list Z) :
  List.length (flat_map (be_bytes 4) h) = (4 * List.length h)%nat.
Proof.
  induction h as [ | x h IH]; [reflexivity | ].
  cbn [flat_map]. rewrite length_app, be_bytes_length, IH. cbn. lia.
Qed.

Lemma hex_of_bytes_length (bs : list Z) :
  String.length (hex_of_bytes bs) = (2 * List.length bs)%nat.
Proof. induction bs as [ | b bs IH]; cbn; [reflexivity | rewrite IH; lia]. Qed.

(** A digest is 64 hexadecimal characters. *)
Lemma digest_hex_length (s : string) : String.length (digest_hex s) = 64%nat.
Proof.
  unfold digest_hex.
  rewrite hex_of_bytes_length, words_bytes_length, blocks_length; reflexivity.
Qed.

Lemma substring0_length (n : nat) :
  forall s, String.length (substring0 n s) = Nat.min n (String.length s).
Proof.
  unfold substring0. induction n as [ | n IH]; intros s.
  - destruct s; reflexivity.
  - destruct s as [ | c s]; [reflexivity | ]. cbn. rewrite IH. reflexivity.
Qed.

End HashFacts.

(** C6, as the specification states it, fails on the client: the hash of the
    text [abc] is the first half of the hexadecimal digest, not the digest. *)
Lemma C6_hash_is_truncated :
  PosClient.calculateMetadataHash (VStr "abc")
  = "ba7816bf8f01cfea414140de5dae2223"
  /\ Spec.metadataHash (VStr "abc")
     = "ba7816bf8f01cfea414140de5dae2223b00361a396177a9cb410ff61f20015ad"
  /\ PosClient.calculateMetadataHash (VStr "abc")
     <> Spec.metadataHash (VStr "abc").
Proof.
  split; [ | split].
  - vm_compute. reflexivity.
  - vm_compute. reflexivity.
  - vm_compute. intros H. discriminate H.
Qed.

(** C6, amended.  The client returns the first 32 hexadecimal characters of
    the SHA-256 digest of the serialized metadata (a text verbatim, any
    other value as its JSON text) and, when the metadata has no serialized
    form, the first 32 characters of the digest of the empty text; it is
    total and a function of its input.  The wrapper returns the whole
    digest, of 64 characters, for a list or a non-empty text, and the empty
    text, which is no digest, for metadata that is falsy. *)
Theorem C6_calculateMetadataHash :
  (forall metadata : value,
      PosClient.calculateMetadataHash metadata
      = substring0 32 (Spec.metadataHash metadata))
  /\ (forall metadata : value,
         String.length (PosClient.calculateMetadataHash metadata) = 32%nat)
  /\ (forall a b : value,
         a = b ->
         PosClient.calculateMetadataHash a = PosClient.calculateMetadataHash b)
  /\ (forall metadata : value,
         truthy metadata = true ->
         isArray metadata = true \/ is_string metadata = true ->
         LibWrapper.calculateMetadataHash metadata
         = Ok (Spec.metadataHash metadata)
         /\ String.length (Spec.metadataHash metadata) = 64%nat)
  /\ (forall metadata : value,
         truthy metadata = false ->
         LibWrapper.calculateMetadataHash metadata = Ok EmptyString).
Proof.
  assert (Hclient : forall metadata : value,
             PosClient.calculateMetadataHash metadata
             = substring0 32 (Spec.metadataHash metadata)).
  { intros metadata.
    unfold PosClient.calculateMetadataHash, Spec.metadataHash.
    change (match metadata with
            | VStr s => Some s
            | _ => Json.stringify metadata
            end) with (Spec.serialized metadata).
    destruct (Spec.serialized metadata); reflexivity. }
  assert (Hlen : forall metadata : value,
             String.length (Spec.metadataHash metadata) = 64%nat).
  { intros metadata. unfold Spec.metadataHash.
    destruct (Spec.serialized metadata); apply HashFacts.digest_hex_length. }
  repeat apply conj.
  - exact Hclient.
  - intros metadata.
    rewrite Hclient, HashFacts.substring0_length, Hlen. reflexivity.
  - intros a b ->. reflexivity.
  - intros metadata Ht [Ha | Hs]; (split; [ | apply Hlen]).
    + destruct metadata; try discriminate.
      unfold LibWrapper.calculateMetadataHash, Spec.metadataHash,
        Spec.serialized.
      cbn [truthy negb isArray Json.stringify PosClient.sha256_hex].
      reflexivity.
    + destruct metadata; try discriminate.
      unfold LibWrapper.calculateMetadataHash, Spec.metadataHash,
        Spec.serialized.
      rewrite Ht. cbn [negb isArray toString PosClient.sha256_hex].
      reflexivity.
  - intros metadata Ht. unfold LibWrapper.calculateMetadataHash.
    rewrite Ht. reflexivity.
Qed.

(** The metadata of the specification's scenario, as text and as a list. *)
Lemma C6_witness :
  (LibWrapper.calculateMetadataHash (VStr Scenario.coffeeMetadata)
   = Ok (Spec.metadataHash (VStr Scenario.coffeeMetadata))
   /\ String.length (Spec.metadataHash (VStr Scenario.coffeeMetadata)) = 64%nat)
  /\ LibWrapper.calculateMetadataHash VNull = Ok EmptyString.
Proof.
  split.
  - apply (proj1 (proj2 (proj2 (proj2 C6_calculateMetadataHash)))).
    + reflexivity.
    + right. reflexivity.
  - apply (proj2 (proj2 (proj2 (proj2 C6_calculateMetadataHash)))).
    reflexivity.
Defined.

(** The same metadata given as text and as the list it encodes have the same
    hash: the JSON text of the list is that text. *)
Example hash_of_text_and_list :
  PosClient.calculateMetadataHash (VStr Scenario.coffeeMetadata)
  = "f85c47b4bfe2bb1a9c2fe9959990b4c0"
  /\ PosClient.calculateMetadataHash
       (VArr [VArr [VStr "text/plain"; VStr "Coffee"]])
     = "f85c47b4bfe2bb1a9c2fe9959990b4c0".
Proof. split; vm_compute; reflexivity. Qed.

(** Metadata without JSON text: the fallback of the client. *)
Example hash_of_undefined :
  PosClient.calculateMetadataHash VUndefined
  = "e3b0c44298fc1c149afbf4c8996fb924"
  /\ Sha256.digest_hex EmptyString
     = "e3b0c44298fc1c149afbf4c8996fb92427ae41e4649b934ca495991b7852b855".
Proof. split; vm_compute; reflexivity. Qed.

(* ------------------------------------------------------------------ *)
(** ** The paths through the three operations                          *)
(* ------------------------------------------------------------------ *)

Module PathFacts.

Import PosClient.

Lemma truthy_default_false (v : value) :
  truthy (default v (VBool false)) = truthy v.
Proof. destruct v; reflexivity. Qed.

Lemma default_idempotent (v d : value) :
  default (default v d) d = default v d.
Proof. destruct v; try reflexivity. destruct d; reflexivity. Qed.

(** An address with a separator is not the empty text. *)
Lemma split_truthy (s u d : string) (rest : list string) :
  split "@" s = u :: d :: rest -> truthy (VStr s) = true.
Proof. destruct s; cbn; [congruence | reflexivity]. Qed.

Lemma truthy_VStr (s : string) :
  s <> EmptyString -> truthy (VStr s) = true.
Proof.
  intros H. unfold truthy.
  destruct (String.eqb_spec s EmptyString); [congruence | reflexivity].
Qed.

Section WithPlatform.

Variable P : Platform.

(** The gate: with POS mode off, or for a text without [@], the operations
    hand over to the library. *)
Lemma notPosAddress_string (posMode : value) (s : string) :
  notPosAddress posMode (VStr s)
  = Ok (negb (truthy posMode) || negb (includes "@" s)).
Proof.
  unfold notPosAddress. destruct (truthy posMode); reflexivity.
Qed.

Lemma requestPayServiceParams_standard (options : ServiceParamsOptions.t)
  (s : string) :
  ServiceParamsOptions.lnUrlOrAddress options = VStr s ->
  s <> EmptyString ->
  truthy (ServiceParamsOptions.posMode options) = false
  \/ includes "@" s = false ->
  requestPayServiceParams P options = lnurl_requestPayServiceParams P options.
Proof.
  intros Hs Hne Hgate. unfold requestPayServiceParams.
  rewrite Hs, (truthy_VStr s Hne), notPosAddress_string, truthy_default_false.
  cbn [negb bind].
  destruct Hgate as [-> | ->]; cbn [negb orb]; [reflexivity | ].
  rewrite orb_true_r. reflexivity.
Qed.

Lemma requestPayServiceParams_pos (options : ServiceParamsOptions.t)
  (s u d : string) (rest : list string) :
  ServiceParamsOptions.lnUrlOrAddress options = VStr s ->
  truthy (ServiceParamsOptions.posMode options) = true ->
  split "@" s = u :: d :: rest ->
  requestPayServiceParams P options
  = try_catch
      (resolvePosParams P (VStr s)
         (default (ServiceParamsOptions.timeout options)
            (VNum (num_of_Z 30000))))
      rethrowParamsError.
Proof.
  intros Hs Hpos Hsplit. unfold requestPayServiceParams.
  rewrite Hs, (split_truthy s u d rest Hsplit), notPosAddress_string,
    truthy_default_false, Hpos, (StringFacts.split_includes _ _ _ _ _ Hsplit).
  reflexivity.
Qed.

Lemma requestInvoice_standard (options : LnurlPayOptions.t) (s : string) :
  LnurlPayOptions.lnUrlOrAddress options = VStr s ->
  s <> EmptyString ->
  isValidAmount (LnurlPayOptions.tokens options) = true ->
  truthy (LnurlPayOptions.posMode options) = false
  \/ includes "@" s = false ->
  requestInvoice P options = lnurl_requestInvoice P options.
Proof.
  intros Hs Hne Hamount Hgate. unfold requestInvoice.
  rewrite Hs, (truthy_VStr s Hne), Hamount, notPosAddress_string,
    truthy_default_false.
  cbn [negb bind].
  destruct Hgate as [-> | ->]; cbn [negb orb]; [reflexivity | ].
  rewrite orb_true_r. reflexivity.
Qed.

Lemma requestInvoice_pos (options : LnurlPayOptions.t)
  (s u d : string) (rest : list string) :
  LnurlPayOptions.lnUrlOrAddress options = VStr s ->
  isValidAmount (LnurlPayOptions.tokens options) = true ->
  truthy (LnurlPayOptions.posMode options) = true ->
  split "@" s = u :: d :: rest ->
  requestInvoice P options
  = try_catch
      (requestPosInvoice P (VStr s) (LnurlPayOptions.tokens options)
         (LnurlPayOptions.comment options)
         (default (LnurlPayOptions.timeout options) (VNum (num_of_Z 30000))))
      rethrowInvoiceError.
Proof.
  intros Hs Hamount Hpos Hsplit. unfold requestInvoice.
  rewrite Hs, (split_truthy s u d rest Hsplit), Hamount, notPosAddress_string,
    truthy_default_false, Hpos, (StringFacts.split_includes _ _ _ _ _ Hsplit).
  reflexivity.
Qed.

(** The resolution inside the [try] block of [requestInvoice] is the POS
    resolution with the same timeout. *)
Lemma inner_resolution (s u d : string) (rest : list string) (timeout : value) :
  split "@" s = u :: d :: rest ->
  requestPayServiceParams P
    (ServiceParamsOptions.make (VStr s) (VBool true) VUndefined VUndefined
       (default timeout (VNum (num_of_Z 30000))))
  = try_catch
      (resolvePosParams P (VStr s) (default timeout (VNum (num_of_Z 30000))))
      rethrowParamsError.
Proof.
  intros Hsplit.
  rewrite (requestPayServiceParams_pos
             (ServiceParamsOptions.make (VStr s) (VBool true) VUndefined
                VUndefined (default timeout (VNum (num_of_Z 30000))))
             s u d rest eq_refl eq_refl Hsplit).
  cbn [ServiceParamsOptions.timeout].
  rewrite default_idempotent. reflexivity.
Qed.

(** The [try] block of the resolution, part by part. *)
Lemma resolvePosParams_parts (s u d : string) (rest : list string)
  (timeout : value) :
  split "@" s = u :: d :: rest ->
  resolvePosParams P (VStr s) timeout
  = if String.eqb u EmptyString || String.eqb d EmptyString
    then Throw "Invalid Lightning address format"
    else
      let* data := httpClient_get P (discoveryUrl d u) timeout in
      serviceParamsOf P (VStr s) d data.
Proof.
  intros Hsplit. unfold resolvePosParams. cbn [call_split bind].
  rewrite Hsplit. reflexivity.
Qed.

Lemma resolvePosParams_invalid (s u d : string) (rest : list string)
  (timeout : value) :
  split "@" s = u :: d :: rest ->
  u = EmptyString \/ d = EmptyString ->
  resolvePosParams P (VStr s) timeout = Throw "Invalid Lightning address format".
Proof.
  intros Hsplit H. rewrite (resolvePosParams_parts s u d rest timeout Hsplit).
  destruct H as [-> | ->]; [reflexivity | ].
  rewrite orb_true_r. reflexivity.
Qed.

Lemma resolvePosParams_fetch (s u d : string) (rest : list string)
  (timeout : value) :
  split "@" s = u :: d :: rest ->
  u <> EmptyString -> d <> EmptyString ->
  resolvePosParams P (VStr s) timeout
  = let* data := httpClient_get P (discoveryUrl d u) timeout in
    serviceParamsOf P (VStr s) d data.
Proof.
  intros Hsplit Hu Hd. rewrite (resolvePosParams_parts s u d rest timeout Hsplit).
  destruct (String.eqb_spec u EmptyString); [congruence | ].
  destruct (String.eqb_spec d EmptyString); [congruence | ].
  reflexivity.
Qed.

(** A response with status [OK] whose metadata can be read becomes the
    record of service parameters. *)
Lemma serviceParamsOf_ok (lnUrlOrAddress : value) (domain : string)
  (props : list (string * value)) (metadata : value) :
  lookup "status" props = VStr "OK" ->
  parseMetadata P (lookup "metadata" props) = Ok metadata ->
  serviceParamsOf P lnUrlOrAddress domain (VObj props)
  = Ok (VObj
          [ ("callback", lookup "callback" props);
            ("fixed", VBool false);
            ("min", VNum (num_div1000 (parseInt (lookup "minSendable" props))));
            ("max", VNum (num_div1000 (parseInt (lookup "maxSendable" props))));
            ("domain", VStr domain);
            ("metadata", metadata);
            ("metadataHash",
             VStr (calculateMetadataHash (lookup "metadata" props)));
            ("identifier", lnUrlOrAddress);
            ("description", parseDescription metadata);
            ("image", extractImage metadata);
            ("commentAllowed",
             or_else (lookup "commentAllowed" props) (VNum (num_of_Z 0)));
            ("rawData", VObj props) ]).
Proof.
  intros Hstatus Hmeta. unfold serviceParamsOf. cbn [get bind].
  rewrite Hstatus. cbn [eq_str]. 
  change (String.eqb "OK" "OK") with true. cbn [negb].
  rewrite Hmeta. reflexivity.
Qed.

(** Any other status is a service error. *)
Lemma serviceParamsOf_not_ok (lnUrlOrAddress : value) (domain : string)
  (props : list (string * value)) :
  eq_str (lookup "status" props) "OK" = false ->
  serviceParamsOf P lnUrlOrAddress domain (VObj props)
  = Throw ("Service error: "
             ++ toString (or_else (lookup "reason" props)
                            (VStr "Invalid response"))).
Proof.
  intros Hstatus. unfold serviceParamsOf. cbn [get bind].
  rewrite Hstatus. reflexivity.
Qed.

End WithPlatform.

End PathFacts.

(* ------------------------------------------------------------------ *)
(** ** Resolution of the service parameters                            *)
(* ------------------------------------------------------------------ *)

Module ResolutionFacts.

Import PosClient.

(** What an accepted resolution returns. *)
Lemma accepted_resolution (P : Platform) (options : ServiceParamsOptions.t)
  (props : list (string * value)) (metadata : value) :
  Situation.acceptedResolution P options props metadata ->
  exists (s domain : string),
    requestPayServiceParams P options
    = Ok (VObj
            [ ("callback", lookup "callback" props);
              ("fixed", VBool false);
              ("min",
               VNum (num_div1000 (parseInt (lookup "minSendable" props))));
              ("max",
               VNum (num_div1000 (parseInt (lookup "maxSendable" props))));
              ("domain", VStr domain);
              ("metadata", metadata);
              ("metadataHash",
               VStr (calculateMetadataHash (lookup "metadata" props)));
              ("identifier", VStr s);
              ("description", parseDescription metadata);
              ("image", extractImage metadata);
              ("commentAllowed",
               or_else (lookup "commentAllowed" props) (VNum (num_of_Z 0)));
              ("rawData", VObj props) ]).
Proof.
  intros (s & u & d & rest & Hs & Hpos & Hsplit & Hu & Hd & Hget & Hst & Hmd).
  exists s, d.
  rewrite (PathFacts.requestPayServiceParams_pos P options s u d rest Hs Hpos
             Hsplit).
  rewrite (PathFacts.resolvePosParams_fetch P s u d rest _ Hsplit Hu Hd).
  rewrite Hget. cbn [bind].
  rewrite (PathFacts.serviceParamsOf_ok P (VStr s) d props metadata Hst Hmd).
  reflexivity.
Qed.

End ResolutionFacts.

(** C1, as the specification states it, fails: the bound 20500 is not a
    multiple of 1000 and the resolver returns 20.5 satoshis, where integer
    division gives 20. *)
Lemma C1_fractional_satoshis :
  exists record : list (string * value),
    Scenario.resolve "odd@bringin.xyz" = Ok (VObj record)
    /\ lookup "minSendable" Scenario.oddResponse_props = Scenario.num 20500
    /\ lookup "min" record = VNum (Num (41 # 2))
    /\ Spec.integerSats 20500 = num_of_Z 20
    /\ lookup "min" record <> VNum (Spec.integerSats 20500)
    /\ num_isInteger (Num (41 # 2)) = false
    /\ num_toString (Num (41 # 2)) = "20.5".
Proof.
  eexists. split; [vm_compute; reflexivity | ].
  repeat split; try reflexivity. cbn. discriminate.
Qed.

(** C1, amended.  For every POS-mode resolution that the resolver accepts
    and whose response carries integer bounds below [2^53] in absolute
    value, the returned record has [min] and [max] equal to the quotients of
    the bounds by 1000, as the division of numbers gives them: the integer
    quotient when the bound is a multiple of 1000, and otherwise a number of
    satoshis that is not whole, the binary64 number nearest to the exact
    quotient, within the relative distance [2^-53] of it. *)
Theorem C1_satoshi_bounds_are_rounded_quotients (P : Platform)
  (options : ServiceParamsOptions.t) (props : list (string * value))
  (metadata : value) (a b : Z) :
  Situation.acceptedResolution P options props metadata ->
  lookup "minSendable" props = VNum (num_of_Z a) ->
  lookup "maxSendable" props = VNum (num_of_Z b) ->
  Z.abs a < 2 ^ 53 -> Z.abs b < 2 ^ 53 ->
  exists (record : list (string * value)) (min max : Q),
    PosClient.requestPayServiceParams P options = Ok (VObj record)
    /\ lookup "min" record = VNum (Num min)
    /\ lookup "max" record = VNum (Num max)
    /\ Num min = round64 (inject_Z a / 1000)
    /\ Num max = round64 (inject_Z b / 1000)
    /\ (Qabs (min - inject_Z a / 1000) * inject_Z (2 ^ 53) * 1000
        <= inject_Z (Z.abs a))%Q
    /\ (Qabs (max - inject_Z b / 1000) * inject_Z (2 ^ 53) * 1000
        <= inject_Z (Z.abs b))%Q
    /\ (a mod 1000 = 0 -> Num min = Spec.integerSats a)
    /\ (b mod 1000 = 0 -> Num max = Spec.integerSats b)
    /\ (a mod 1000 <> 0 -> num_isInteger (Num min) = false)
    /\ (b mod 1000 <> 0 -> num_isInteger (Num max) = false).
Proof.
  intros Hacc Ha Hb Hsa Hsb.
  destruct (ResolutionFacts.accepted_resolution P options props metadata Hacc)
    as (s & d & Hres).
  rewrite Ha, Hb, !NumberFacts.parseInt_integer in Hres by lia.
  destruct (NumberFacts.div1000_near a Hsa) as (min & Hmin & Hnear_a).
  destruct (NumberFacts.div1000_near b Hsb) as (max & Hmax & Hnear_b).
  assert (Hmult : forall c, Z.abs c < 2 ^ 53 -> c mod 1000 = 0 ->
                            num_div1000 (num_of_Z c) = Spec.integerSats c).
  { intros c Hs Hc. unfold Spec.integerSats.
    assert (Hc' : c = 1000 * (c / 1000)) by (apply Z.div_exact; lia).
    rewrite Hc' at 1. apply NumberFacts.num_div1000_multiple.
    assert (Z.abs (c / 1000) <= Z.abs c); [ | lia].
    rewrite Hc' at 2. lia. }
  assert (Hfrac : forall c, Z.abs c < 2 ^ 53 -> c mod 1000 <> 0 ->
                            num_isInteger (num_div1000 (num_of_Z c)) = false).
  { intros c Hs Hc.
    destruct (num_isInteger (num_div1000 (num_of_Z c))) eqn:E; [ | reflexivity].
    apply NumberFacts.num_isInteger_div1000 in E; [contradiction | exact Hs]. }
  rewrite Hmin, Hmax in Hres.
  eexists. exists min, max.
  split; [exact Hres | ].
  split; [reflexivity | ]. split; [reflexivity | ].
  split; [symmetry; exact Hmin | ]. split; [symmetry; exact Hmax | ].
  split; [exact Hnear_a | ]. split; [exact Hnear_b | ].
  rewrite <- Hmin, <- Hmax. repeat split; auto.
Qed.

(** The scenario of the specification: 20000 and 100000000 millisatoshis
    are 20 and 100000 satoshis. *)
Lemma C1_witness :
  exists (record : list (string * value)) (min max : Q),
    Scenario.resolve "merchant@bringin.xyz" = Ok (VObj record)
    /\ lookup "min" record = VNum (Num min)
    /\ lookup "max" record = VNum (Num max)
    /\ Num min = round64 (inject_Z 20000 / 1000)
    /\ Num max = round64 (inject_Z 100000000 / 1000)
    /\ (Qabs (min - inject_Z 20000 / 1000) * inject_Z (2 ^ 53) * 1000
        <= inject_Z (Z.abs 20000))%Q
    /\ (Qabs (max - inject_Z 100000000 / 1000) * inject_Z (2 ^ 53) * 1000
        <= inject_Z (Z.abs 100000000))%Q
    /\ (20000 mod 1000 = 0 -> Num min = Spec.integerSats 20000)
    /\ (100000000 mod 1000 = 0 -> Num max = Spec.integerSats 100000000)
    /\ (20000 mod 1000 <> 0 -> num_isInteger (Num min) = false)
    /\ (100000000 mod 1000 <> 0 -> num_isInteger (Num max) = false).
Proof.
  apply (C1_satoshi_bounds_are_rounded_quotients Scenario.platform _
           Scenario.coffeeResponse_props
           (VArr [VArr [VStr "text/plain"; VStr "Coffee"]])).
  - exists "merchant@bringin.xyz", "merchant", "bringin.xyz", [].
    repeat split; try reflexivity; discriminate.
  - reflexivity.
  - reflexivity.
  - reflexivity.
  - reflexivity.
Defined.

(** The end-to-end scenario of the specification. *)
Example resolve_coffee :
  exists record : list (string * value),
    Scenario.resolve "merchant@bringin.xyz" = Ok (VObj record)
    /\ lookup "min" record = Scenario.num 20
    /\ lookup "max" record = Scenario.num 100000
    /\ lookup "description" record = VStr "Coffee".
Proof. eexists. split; [vm_compute; reflexivity | repeat split]. Qed.

(** C8, as the specification states it, fails: the resolver accepts a
    response whose bounds are 5000 and 1000 millisatoshis and returns a
    minimum of 5 satoshis above a maximum of 1. *)
Lemma C8_inverted_bounds_accepted :
  exists record : list (string * value),
    Scenario.resolve "inverted@bringin.xyz" = Ok (VObj record)
    /\ lookup "min" record = Scenario.num 5
    /\ lookup "max" record = Scenario.num 1
    /\ num_le (num_of_Z 5) (num_of_Z 1) = false.
Proof. eexists. split; [vm_compute; reflexivity | repeat split]. Qed.

(** C8, amended.  The resolver does not compare the bounds: the record of an
    accepted resolution with integer bounds below [2^52] in absolute value
    satisfies [min <= max] exactly when the response satisfies
    [minSendable <= maxSendable]. *)
Theorem C8_bounds_ordered_as_received (P : Platform)
  (options : ServiceParamsOptions.t) (props : list (string * value))
  (metadata : value) (a b : Z) :
  Situation.acceptedResolution P options props metadata ->
  lookup "minSendable" props = VNum (num_of_Z a) ->
  lookup "maxSendable" props = VNum (num_of_Z b) ->
  Z.abs a < 2 ^ 52 -> Z.abs b < 2 ^ 52 ->
  exists (record : list (string * value)) (min max : number),
    PosClient.requestPayServiceParams P options = Ok (VObj record)
    /\ lookup "min" record = VNum min /\ lookup "max" record = VNum max
    /\ min = round64 (inject_Z a / 1000)
    /\ max = round64 (inject_Z b / 1000)
    /\ (num_le min max = true <-> a <= b).
Proof.
  intros Hacc Ha Hb Hsa Hsb.
  assert (Hpow : 2 ^ 52 < 2 ^ 53) by (apply Z.pow_lt_mono_r; lia).
  destruct (ResolutionFacts.accepted_resolution P options props metadata Hacc)
    as (s & d & Hres).
  rewrite Ha, Hb, !NumberFacts.parseInt_integer in Hres by lia.
  eexists. exists (num_div1000 (num_of_Z a)), (num_div1000 (num_of_Z b)).
  split; [exact Hres | ].
  split; [reflexivity | ]. split; [reflexivity | ].
  split; [reflexivity | ]. split; [reflexivity | ].
  apply NumberFacts.num_le_div1000; assumption.
Qed.

Lemma C8_witness :
  exists (record : list (string * value)) (min max : number),
    Scenario.resolve "merchant@bringin.xyz" = Ok (VObj record)
    /\ lookup "min" record = VNum min /\ lookup "max" record = VNum max
    /\ min = round64 (inject_Z 20000 / 1000)
    /\ max = round64 (inject_Z 100000000 / 1000)
    /\ (num_le min max = true <-> 20000 <= 100000000).
Proof.
  apply (C8_bounds_ordered_as_received Scenario.platform _
           Scenario.coffeeResponse_props
           (VArr [VArr [VStr "text/plain"; VStr "Coffee"]])).
  - exists "merchant@bringin.xyz", "merchant", "bringin.xyz", [].
    repeat split; try reflexivity; discriminate.
  - reflexivity.
  - reflexivity.
  - reflexivity.
  - reflexivity.
Defined.

(* ------------------------------------------------------------------ *)
(** ** Delegation to the library                                       *)
(* ------------------------------------------------------------------ *)

(** C3, as the specification states it, fails: the checks of the presence
    of the address and of the amount come before the hand-over.  The empty
    text has no [@], and the wrapper answers with its own error whatever the
    library is; with POS mode off and an amount of zero, [requestInvoice]
    fails although the library is never asked. *)
Lemma C3_checks_precede_delegation :
  let noAddress :=
    ServiceParamsOptions.make (VStr EmptyString) (VBool true) VUndefined
      VUndefined VUndefined in
  let noAmount :=
    LnurlPayOptions.make (VStr "lnurl1dp68gurn8ghj7") (Scenario.num 0)
      VUndefined (VBool false) VUndefined VUndefined VUndefined in
  (forall P : Platform,
      PosClient.requestPayServiceParams P noAddress
      = Throw "lnUrlOrAddress is required")
  /\ lnurl_requestPayServiceParams Scenario.platform noAddress
     = Throw "Invalid lnUrlOrAddress"
  /\ PosClient.requestPayServiceParams Scenario.platform noAddress
     <> lnurl_requestPayServiceParams Scenario.platform noAddress
  /\ (forall P : Platform,
         PosClient.requestInvoice P noAmount
         = Throw "tokens must be a positive integer")
  /\ PosClient.requestInvoice Scenario.platform noAmount
     <> lnurl_requestInvoice Scenario.platform noAmount.
Proof.
  cbv zeta. split; [reflexivity | ]. split; [reflexivity | ].
  split; [cbn; discriminate | ]. split; [reflexivity | ].
  cbn. discriminate.
Qed.

(** C3, amended.  For every call with a non-empty address text (and, for
    [requestInvoice], an amount that is a positive integer) in which POS
    mode is off or the text has no [@], the operation returns the library's
    result for the same options, unchanged.  A call without an address fails
    with [lnUrlOrAddress is required], and [requestInvoice] with an amount
    that is not a positive integer fails with
    [tokens must be a positive integer], before any hand-over. *)
Theorem C3_delegation_after_checks (P : Platform) :
  (forall (options : ServiceParamsOptions.t) (s : string),
      ServiceParamsOptions.lnUrlOrAddress options = VStr s ->
      s <> EmptyString ->
      truthy (ServiceParamsOptions.posMode options) = false
      \/ includes "@" s = false ->
      PosClient.requestPayServiceParams P options
      = lnurl_requestPayServiceParams P options)
  /\ (forall (options : LnurlPayOptions.t) (s : string),
         LnurlPayOptions.lnUrlOrAddress options = VStr s ->
         s <> EmptyString ->
         PosClient.isValidAmount (LnurlPayOptions.tokens options) = true ->
         truthy (LnurlPayOptions.posMode options) = false
         \/ includes "@" s = false ->
         PosClient.requestInvoice P options = lnurl_requestInvoice P options)
  /\ (forall options : ServiceParamsOptions.t,
         truthy (ServiceParamsOptions.lnUrlOrAddress options) = false ->
         PosClient.requestPayServiceParams P options
         = Throw "lnUrlOrAddress is required")
  /\ (forall options : LnurlPayOptions.t,
         truthy (LnurlPayOptions.lnUrlOrAddress options) = false ->
         PosClient.requestInvoice P options = Throw "lnUrlOrAddress is required")
  /\ (forall options : LnurlPayOptions.t,
         truthy (LnurlPayOptions.lnUrlOrAddress options) = true ->
         PosClient.isValidAmount (LnurlPayOptions.tokens options) = false ->
         PosClient.requestInvoice P options
         = Throw "tokens must be a positive integer").
Proof.
  repeat apply conj.
  - apply PathFacts.requestPayServiceParams_standard.
  - apply PathFacts.requestInvoice_standard.
  - intros options H. unfold PosClient.requestPayServiceParams. rewrite H.
    reflexivity.
  - intros options H. unfold PosClient.requestInvoice. rewrite H. reflexivity.
  - intros options H Ha. unfold PosClient.requestInvoice. rewrite H, Ha.
    reflexivity.
Qed.

(** An LNURL with POS mode on, and an address with POS mode off. *)
Lemma C3_witness :
  PosClient.requestPayServiceParams Scenario.platform
    (ServiceParamsOptions.make (VStr "lnurl1dp68gurn8ghj7") (VBool true)
       VUndefined VUndefined VUndefined)
  = Scenario.libraryAnswer "requestPayServiceParams"
  /\ PosClient.requestInvoice Scenario.platform
       (LnurlPayOptions.make (VStr "merchant@bringin.xyz") (Scenario.num 50)
          VUndefined (VBool false) VUndefined VUndefined VUndefined)
     = Scenario.libraryAnswer "requestInvoice".
Proof.
  split.
  - apply (proj1 (C3_delegation_after_checks Scenario.platform)
             (ServiceParamsOptions.make (VStr "lnurl1dp68gurn8ghj7")
                (VBool true) VUndefined VUndefined VUndefined)
             "lnurl1dp68gurn8ghj7").
    + reflexivity.
    + discriminate.
    + right. reflexivity.
  - apply (proj1 (proj2 (C3_delegation_after_checks Scenario.platform))
             (LnurlPayOptions.make (VStr "merchant@bringin.xyz")
                (Scenario.num 50) VUndefined (VBool false) VUndefined
                VUndefined VUndefined)
             "merchant@bringin.xyz").
    + reflexivity.
    + discriminate.
    + reflexivity.
    + left. reflexivity.
Defined.

(* ------------------------------------------------------------------ *)
(** ** Validation of the address                                       *)
(* ------------------------------------------------------------------ *)

(** The validator of the package accepts exactly the well-formed addresses
    of the specification, and nothing that is not a text. *)
Lemma isValidLightningAddress_iff (s : string) :
  PosClient.isValidLightningAddress (VStr s) = true <-> Spec.wellFormedAddress s.
Proof.
  unfold PosClient.isValidLightningAddress, Spec.wellFormedAddress. split.
  - destruct (split "@" s) as [ | u [ | d [ | x rest]]] eqn:Hsplit;
      try discriminate.
    intros H. apply andb_true_iff in H. destruct H as [H Hdot].
    apply andb_true_iff in H. destruct H as [Hu Hd].
    apply (StringFacts.split_cons "@" s u d []) in Hsplit.
    destruct Hsplit as (t & Hs & Hnou & Ht).
    apply StringFacts.split_single in Ht. destruct Ht as [-> Hnod].
    exists u, d. repeat split; auto.
    + intros ->. discriminate.
    + intros ->. discriminate.
  - intros (u & d & Hs & Hnou & Hnod & Hu & Hd & Hdot).
    assert (Hsplit : split "@" s = [u; d]).
    { apply StringFacts.split_cons. exists d. repeat split; auto.
      apply StringFacts.split_single. split; auto. }
    rewrite Hsplit, Hdot.
    destruct u; [congruence | ]. destruct d; [congruence | ]. reflexivity.
Qed.

Lemma isValidLightningAddress_not_text (address : value) :
  is_string address = false ->
  PosClient.isValidLightningAddress address = false.
Proof. destruct address; try reflexivity. discriminate. Qed.

(** The examples of the specification, on the validator. *)
Example validator_examples :
  PosClient.isValidLightningAddress (VStr "user@sub.domain.com") = true
  /\ PosClient.isValidLightningAddress (VStr "user@") = false
  /\ PosClient.isValidLightningAddress (VStr "@domain.com") = false
  /\ PosClient.isValidLightningAddress (VStr "nodomain") = false
  /\ PosClient.isValidLightningAddress (VStr EmptyString) = false
  /\ PosClient.isValidLightningAddress VNull = false
  /\ PosClient.isValidLightningAddress (VStr "a@b@c.d") = false
  /\ PosClient.isValidLightningAddress (VStr "user@localhost") = false.
Proof. repeat split. Qed.

(** The POS-mode resolution does not call the validator: it refuses an
    address only when what is before the first [@], or between the first
    and the second, is empty. *)
Lemma resolution_checks_two_parts (P : Platform) (s u d : string)
  (rest : list string) (timeout : value) :
  split "@" s = u :: d :: rest ->
  (u = EmptyString \/ d = EmptyString ->
   PosClient.resolvePosParams P (VStr s) timeout
   = Throw "Invalid Lightning address format")
  /\ (u <> EmptyString -> d <> EmptyString ->
      PosClient.resolvePosParams P (VStr s) timeout
      = let* data := PosClient.httpClient_get P (PosClient.discoveryUrl d u)
                       timeout in
        PosClient.serviceParamsOf P (VStr s) d data).
Proof.
  intros Hsplit. split.
  - apply (PathFacts.resolvePosParams_invalid P s u d rest timeout Hsplit).
  - apply (PathFacts.resolvePosParams_fetch P s u d rest timeout Hsplit).
Qed.

(** C4: the code at the failing inputs.  An address with two separators and
    an address whose domain has no dot are refused by the validator, and
    the POS-mode resolution accepts both: for [a@b@c.d] it asks the domain
    [b] and drops what follows the second separator. *)
Theorem C4_malformed_addresses_are_resolved :
  PosClient.isValidLightningAddress (VStr "a@b@c.d") = false
  /\ (exists record : list (string * value),
         Scenario.resolve "a@b@c.d" = Ok (VObj record)
         /\ lookup "domain" record = VStr "b"
         /\ lookup "identifier" record = VStr "a@b@c.d")
  /\ PosClient.isValidLightningAddress (VStr "user@localhost") = false
  /\ (exists record : list (string * value),
         Scenario.resolve "user@localhost" = Ok (VObj record)
         /\ lookup "domain" record = VStr "localhost").
Proof.
  split; [reflexivity | ]. split.
  - eexists. split; [vm_compute; reflexivity | split; reflexivity].
  - split; [reflexivity | ].
    eexists. split; [vm_compute; reflexivity | reflexivity].
Qed.

(** The other examples of the specification, through the POS-mode
    resolution: a well-formed address reaches the provider (which has no
    such user here), an empty part is refused with the address-format
    error, the empty text with the missing-field error, and a text without
    [@] is handed to the library. *)
Example resolution_examples :
  Scenario.resolve "user@sub.domain.com"
  = Throw "Failed to get POS service params: HTTP 404: Not Found"
  /\ Scenario.resolve "user@" = Throw "Invalid Lightning address format"
  /\ Scenario.resolve "@domain.com" = Throw "Invalid Lightning address format"
  /\ Scenario.resolve EmptyString = Throw "lnUrlOrAddress is required"
  /\ Scenario.resolve "nodomain"
     = lnurl_requestPayServiceParams Scenario.platform
         (ServiceParamsOptions.make (VStr "nodomain") (VBool true) VUndefined
            VUndefined VUndefined).
Proof.
  repeat split; vm_compute; reflexivity.
Qed.

(* ------------------------------------------------------------------ *)
(** ** The request of an invoice                                       *)
(* ------------------------------------------------------------------ *)

Module InvoiceFacts.

Import PosClient.

Lemma isValidAmount_positive (n : Z) :
  0 < n -> isValidAmount (VNum (num_of_Z n)) = true.
Proof.
  intros H. unfold isValidAmount, num_of_Z, num_gt, num_lt, num_isInteger.
  rewrite NumberFacts.Qred_inject_Z. cbn [inject_Z Qden Pos.eqb].
  rewrite andb_true_r. apply NumberFacts.Qltb_lt.
  unfold Qlt. cbn [inject_Z Qnum Qden]. lia.
Qed.

Lemma num_lt_asym (a b : number) : num_lt a b = true -> num_lt b a = false.
Proof.
  destruct a as [ | | | x], b as [ | | | y]; cbn; try congruence.
  unfold Qltb. rewrite <- (Qcompare_antisym x y).
  destruct (x ?= y)%Q; cbn; congruence.
Qed.

(** With the marker, the parameters are an object. *)
Lemma posParams_object (params : value) :
  Situation.posParams params ->
  exists props : list (string * value), params = VObj props.
Proof.
  unfold Situation.posParams, hasPosMarker.
  destruct params; cbn; try discriminate. eauto.
Qed.

(** Every value but [null] and [undefined] can be asked for a property. *)
Lemma get_readable (data : value) (k : string) :
  data <> VNull -> data <> VUndefined -> exists v : value, get data k = Ok v.
Proof. destruct data; cbn; try congruence; eauto. Qed.

Lemma checkAmount_cases (props : list (string * value)) (tokens : value) :
  checkAmount (VObj props) tokens
  = if lt tokens (lookup "min" props)
    then Throw ("Amount too small. Minimum: " ++ toString (lookup "min" props)
                  ++ " sats")
    else if gt tokens (lookup "max" props)
         then Throw ("Amount too large. Maximum: "
                       ++ toString (lookup "max" props) ++ " sats")
         else Ok tt.
Proof. reflexivity. Qed.

(** The messages of the amount and comment checks carry the words that the
    [catch] block of [requestInvoice] looks for. *)
Lemma checkAmount_message (params tokens : value) (m : string) :
  checkAmount params tokens = Throw m ->
  params = VNull \/ params = VUndefined
  \/ includes "Amount too small" m = true
  \/ includes "Amount too large" m = true.
Proof.
  destruct params as [ | | | | | | props | ]; auto; unfold checkAmount;
    cbn [get bind];
    match goal with
    | |- context [lt tokens ?min] => destruct (lt tokens min)
    end;
    try match goal with
      | |- context [gt tokens ?max] => destruct (gt tokens max)
      end;
    try discriminate; intros H; injection H as <-; right; right;
    first [left; reflexivity | right; reflexivity].
Qed.

Lemma checkComment_message (params comment : value) (m : string) :
  checkComment params comment = Throw m ->
  params = VNull \/ params = VUndefined
  \/ includes "Comment too long" m = true.
Proof.
  destruct params as [ | | | | | | props | ]; auto; unfold checkComment;
    cbn [get bind];
    match goal with
    | |- context [isValidComment comment ?c] =>
        destruct (isValidComment comment c)
    end;
    try discriminate; intros H; injection H as <-; right; right; reflexivity.
Qed.

Section WithPlatform.

Variable P : Platform.

(** The two-step operation on parameters with the marker. *)
Lemma requestInvoiceWithServiceParams_pos
  (options : InvoiceWithServiceParamsOptions.t) :
  Situation.posParams (InvoiceWithServiceParamsOptions.params options) ->
  isValidAmount (InvoiceWithServiceParamsOptions.tokens options) = true ->
  requestInvoiceWithServiceParams P options
  = let* data :=
      callbackRequest P (InvoiceWithServiceParamsOptions.params options)
        (InvoiceWithServiceParamsOptions.tokens options)
        (InvoiceWithServiceParamsOptions.comment options)
        (default (InvoiceWithServiceParamsOptions.timeout options)
           (VNum (num_of_Z 30000))) in
    invoiceWithParamsOf data.
Proof.
  intros Hpos Hamount. unfold requestInvoiceWithServiceParams.
  destruct (posParams_object _ Hpos) as [props Hprops].
  rewrite Hamount. unfold Situation.posParams in Hpos. rewrite Hpos.
  rewrite Hprops. reflexivity.
Qed.

(** The two-step operation on parameters without the marker. *)
Lemma requestInvoiceWithServiceParams_standard
  (options : InvoiceWithServiceParamsOptions.t) :
  truthy (InvoiceWithServiceParamsOptions.params options) = true ->
  isValidAmount (InvoiceWithServiceParamsOptions.tokens options) = true ->
  hasPosMarker (InvoiceWithServiceParamsOptions.params options) = Ok false ->
  requestInvoiceWithServiceParams P options
  = lnurl_requestInvoiceWithServiceParams P options.
Proof.
  intros Ht Hamount Hpos. unfold requestInvoiceWithServiceParams.
  rewrite Ht, Hamount, Hpos. reflexivity.
Qed.

End WithPlatform.

End InvoiceFacts.

(** C2, as the specification states it, fails.  Without the marker of the
    POS path the parameters are handed to the library, whatever the amount:
    for an amount of 10 below a minimum of 20 the result is the library's.
    And on the POS path the minimum is compared first: with a minimum of 5
    above a maximum of 1, the amount 3 is above the maximum and the error
    is the one of the minimum. *)
Lemma C2_amount_errors_depend_on_the_path :
  let standardParams :=
    VObj [ ("callback", VStr "https://example.com/lnurlp/callback");
           ("min", Scenario.num 20); ("max", Scenario.num 100) ] in
  (forall P : Platform,
      PosClient.requestInvoiceWithServiceParams P
        (InvoiceWithServiceParamsOptions.make standardParams (Scenario.num 10)
           VUndefined VUndefined)
      = lnurl_requestInvoiceWithServiceParams P
          (InvoiceWithServiceParamsOptions.make standardParams
             (Scenario.num 10) VUndefined VUndefined))
  /\ Scenario.invoiceWith standardParams 10
     = Scenario.libraryAnswer "requestInvoiceWithServiceParams"
  /\ Scenario.invoiceWith standardParams 10
     <> Throw "Amount too small. Minimum: 20 sats"
  /\ (exists record : list (string * value),
         Scenario.resolve "inverted@bringin.xyz" = Ok (VObj record)
         /\ Situation.posParams (VObj record)
         /\ lookup "min" record = Scenario.num 5
         /\ lookup "max" record = Scenario.num 1
         /\ Scenario.invoiceWith (VObj record) 3
            = Throw "Amount too small. Minimum: 5 sats").
Proof.
  cbv zeta. split; [reflexivity | ]. split; [reflexivity | ].
  split; [cbn; discriminate | ].
  eexists. split; [vm_compute; reflexivity | ].
  split; [reflexivity | ]. split; [reflexivity | ]. split; [reflexivity | ].
  vm_compute. reflexivity.
Qed.

(** C2, amended.  For parameters that carry the marker of the POS path,
    with numbers for [min] and [max], and for every strictly positive
    integer amount: when [min <= amount <= max] the amount check passes and
    the operation goes on with the comment check and the callback request;
    when [amount < min] it fails with the amount-too-small error carrying
    [min]; when [amount > max] and the amount is not below [min], which is
    so whenever [min <= max], it fails with the amount-too-large error
    carrying [max]. *)
Theorem C2_amount_limits_on_the_pos_path (P : Platform)
  (options : InvoiceWithServiceParamsOptions.t)
  (props : list (string * value)) (n : Z) (min max : number) :
  InvoiceWithServiceParamsOptions.params options = VObj props ->
  Situation.posParams (VObj props) ->
  InvoiceWithServiceParamsOptions.tokens options = VNum (num_of_Z n) ->
  0 < n ->
  lookup "min" props = VNum min ->
  lookup "max" props = VNum max ->
  let comment := InvoiceWithServiceParamsOptions.comment options in
  let timeout :=
    PosClient.default (InvoiceWithServiceParamsOptions.timeout options)
      (VNum (num_of_Z 30000)) in
  (num_le min (num_of_Z n) = true -> num_le (num_of_Z n) max = true ->
   PosClient.checkAmount (VObj props) (VNum (num_of_Z n)) = Ok tt
   /\ PosClient.requestInvoiceWithServiceParams P options
      = let* _ := PosClient.checkComment (VObj props) comment in
        let* url := PosClient.invoiceUrl (VObj props) (VNum (num_of_Z n))
                      comment in
        let* data := PosClient.httpClient_get P url timeout in
        PosClient.invoiceWithParamsOf data)
  /\ (num_lt (num_of_Z n) min = true ->
      PosClient.requestInvoiceWithServiceParams P options
      = Throw ("Amount too small. Minimum: " ++ num_toString min ++ " sats"))
  /\ (num_lt (num_of_Z n) min = false -> num_gt (num_of_Z n) max = true ->
      PosClient.requestInvoiceWithServiceParams P options
      = Throw ("Amount too large. Maximum: " ++ num_toString max ++ " sats"))
  /\ (num_le min max = true -> num_gt (num_of_Z n) max = true ->
      PosClient.requestInvoiceWithServiceParams P options
      = Throw ("Amount too large. Maximum: " ++ num_toString max ++ " sats")).
Proof.
  intros Hparams Hpos Htokens Hn Hmin Hmax comment timeout.
  assert (Hop : PosClient.requestInvoiceWithServiceParams P options
                = let* data :=
                    PosClient.callbackRequest P (VObj props)
                      (VNum (num_of_Z n)) comment timeout in
                  PosClient.invoiceWithParamsOf data).
  { rewrite InvoiceFacts.requestInvoiceWithServiceParams_pos.
    - rewrite Hparams, Htokens. reflexivity.
    - rewrite Hparams. exact Hpos.
    - rewrite Htokens. apply InvoiceFacts.isValidAmount_positive, Hn. }
  assert (Hcheck : PosClient.checkAmount (VObj props) (VNum (num_of_Z n))
                   = if num_lt (num_of_Z n) min
                     then Throw ("Amount too small. Minimum: "
                                   ++ num_toString min ++ " sats")
                     else if num_gt (num_of_Z n) max
                          then Throw ("Amount too large. Maximum: "
                                        ++ num_toString max ++ " sats")
                          else Ok tt).
  { rewrite InvoiceFacts.checkAmount_cases, Hmin, Hmax. reflexivity. }
  assert (Hlarge : num_lt (num_of_Z n) min = false ->
                   num_gt (num_of_Z n) max = true ->
                   PosClient.requestInvoiceWithServiceParams P options
                   = Throw ("Amount too large. Maximum: " ++ num_toString max
                              ++ " sats")).
  { intros Hlo Hhi. rewrite Hop. unfold PosClient.callbackRequest.
    rewrite Hcheck, Hlo, Hhi. reflexivity. }
  repeat apply conj.
  - intros Hlo Hhi.
    assert (Hpass : PosClient.checkAmount (VObj props) (VNum (num_of_Z n))
                    = Ok tt).
    { rewrite Hcheck, (NumberFacts.num_le_not_lt _ _ Hlo).
      unfold num_gt. rewrite (NumberFacts.num_le_not_lt _ _ Hhi).
      reflexivity. }
    split; [exact Hpass | ].
    rewrite Hop. unfold PosClient.callbackRequest. rewrite Hpass.
    cbn [bind].
    destruct (PosClient.checkComment (VObj props) comment); [ | reflexivity].
    cbn [bind].
    destruct (PosClient.invoiceUrl (VObj props) (VNum (num_of_Z n)) comment);
      reflexivity.
  - intros Hlo. rewrite Hop. unfold PosClient.callbackRequest.
    rewrite Hcheck, Hlo. reflexivity.
  - exact Hlarge.
  - intros Hle Hhi. apply Hlarge; [ | exact Hhi].
    apply InvoiceFacts.num_lt_asym.
    apply (NumberFacts.num_le_lt_trans _ _ _ Hle Hhi).
Qed.

(** The scenario of the specification: an amount of 10 below the minimum
    of 20. *)
Lemma C2_witness :
  Scenario.invoiceWith Scenario.coffeeParams 10
  = Throw "Amount too small. Minimum: 20 sats".
Proof.
  apply (proj1 (proj2 (C2_amount_limits_on_the_pos_path Scenario.platform
                         (InvoiceWithServiceParamsOptions.make
                            Scenario.coffeeParams (Scenario.num 10)
                            VUndefined VUndefined)
                         Scenario.coffeeParams_props 10
                         (num_of_Z 20) (num_of_Z 100000)
                         eq_refl eq_refl eq_refl eq_refl eq_refl eq_refl))).
  reflexivity.
Defined.

(** The scenario of the specification: an amount of 50 within the bounds
    is answered with the invoice. *)
Example invoice_within_bounds :
  Scenario.invoiceWith Scenario.coffeeParams 50
  = Ok (VObj [ ("invoice", VStr "lnbc...");
               ("successAction", VNull);
               ("rawData", Scenario.invoiceResponse) ]).
Proof. vm_compute. reflexivity. Qed.

Module CallbackFacts.

Import PosClient.


End CallbackFacts.




Example one_call_refuses_error_status :
  Scenario.invoice "merchant@bringin.xyz" 60
  = Throw "POS invoice request failed: Invoice request failed: No route".
Proof. vm_compute. reflexivity. Qed.

(* ------------------------------------------------------------------ *)
(** ** Errors                                                          *)
(* ------------------------------------------------------------------ *)

(** C9, as the specification states it, fails.  The provider refuses the
    discovery with the service error [Service error: No route], which is no
    validation error.  Through [requestInvoice] it arrives under two
    prefixes, that of the resolution inside that of the invoice request;
    and a failure of the callback request on the POS path of
    [requestInvoiceWithServiceParams] arrives under none. *)
Lemma C9_service_error_is_wrapped_twice :
  Spec.validationKind "Service error: No route" = false
  /\ Scenario.resolve "closed@bringin.xyz"
     = Throw "Failed to get POS service params: Service error: No route"
  /\ Scenario.invoice "closed@bringin.xyz" 60
     = Throw "POS invoice request failed: Failed to get POS service params: Service error: No route"
  /\ ~ Spec.errorPolicy "Service error: No route"
         "POS invoice request failed: Failed to get POS service params: Service error: No route"
  /\ Spec.validationKind "HTTP 404: Not Found" = false
  /\ Scenario.invoiceWith Scenario.coffeeParams 70
     = Throw "HTTP 404: Not Found"
  /\ ~ Spec.errorPolicy "HTTP 404: Not Found" "HTTP 404: Not Found".
Proof.
  split; [reflexivity | ]. split; [vm_compute; reflexivity | ].
  split; [vm_compute; reflexivity | ].
  split; [intros [H | H]; discriminate H | ].
  split; [reflexivity | ]. split; [vm_compute; reflexivity | ].
  intros [H | H]; discriminate H.
Qed.

(** C9, amended.  Every failure of a POS-path operation is one error, known
    by its message.  In [requestPayServiceParams], a failure of the
    resolution whose message contains [Invalid Lightning address] arrives
    as it is, and any other arrives once under the prefix
    [Failed to get POS service params: ]; the address-format failure is of
    the first kind.  In [requestInvoice], a failure whose message contains
    [Amount too small], [Amount too large] or [Comment too long] arrives as
    it is, which is the case of the failures of the amount and comment
    checks; any other failure, the address-format failure left aside,
    arrives under the prefix [POS invoice request failed: ] put before the
    message it has when it leaves the resolution or the request, so that a
    failure of the resolution carries both prefixes.  In
    [requestInvoiceWithServiceParams] the failures of the POS path arrive
    as they are, under no prefix. *)
Theorem C9_error_wrapping (P : Platform) :
  (forall (options : ServiceParamsOptions.t) (s u d : string)
          (rest : list string),
      ServiceParamsOptions.lnUrlOrAddress options = VStr s ->
      truthy (ServiceParamsOptions.posMode options) = true ->
      split "@" s = u :: d :: rest ->
      let timeout :=
        PosClient.default (ServiceParamsOptions.timeout options)
          (VNum (num_of_Z 30000)) in
      (forall m : string,
          PosClient.resolvePosParams P (VStr s) timeout = Throw m ->
          PosClient.requestPayServiceParams P options
          = Throw (if includes "Invalid Lightning address" m then m
                   else "Failed to get POS service params: " ++ m))
      /\ (u = EmptyString \/ d = EmptyString ->
          PosClient.requestPayServiceParams P options
          = Throw "Invalid Lightning address format")
      /\ (forall m : string,
             u <> EmptyString -> d <> EmptyString ->
             PosClient.httpClient_get P (PosClient.discoveryUrl d u) timeout
             = Throw m ->
             includes "Invalid Lightning address" m = false ->
             PosClient.requestPayServiceParams P options
             = Throw ("Failed to get POS service params: " ++ m)))
  /\ (forall (options : LnurlPayOptions.t) (s u d : string)
             (rest : list string),
         LnurlPayOptions.lnUrlOrAddress options = VStr s ->
         PosClient.isValidAmount (LnurlPayOptions.tokens options) = true ->
         truthy (LnurlPayOptions.posMode options) = true ->
         split "@" s = u :: d :: rest ->
         let tokens := LnurlPayOptions.tokens options in
         let comment := LnurlPayOptions.comment options in
         let timeout :=
           PosClient.default (LnurlPayOptions.timeout options)
             (VNum (num_of_Z 30000)) in
         let resolution :=
           PosClient.requestPayServiceParams P
             (ServiceParamsOptions.make (VStr s) (VBool true) VUndefined
                VUndefined timeout) in
         (forall m : string,
             PosClient.requestPosInvoice P (VStr s) tokens comment timeout
             = Throw m ->
             includes "Invalid Lightning address" m = false ->
             PosClient.requestInvoice P options
             = Throw (if includes "Amount too small" m
                         || includes "Amount too large" m
                         || includes "Comment too long" m
                      then m
                      else "POS invoice request failed: " ++ m))
         /\ (forall (params : list (string * value)) (m : string),
                resolution = Ok (VObj params) ->
                PosClient.checkAmount (VObj params) tokens = Throw m ->
                PosClient.requestInvoice P options = Throw m)
         /\ (forall (params : list (string * value)) (m : string),
                resolution = Ok (VObj params) ->
                PosClient.checkAmount (VObj params) tokens = Ok tt ->
                PosClient.checkComment (VObj params) comment = Throw m ->
                PosClient.requestInvoice P options = Throw m)
         /\ (forall m : string,
                resolution = Throw m ->
                PosClient.requestPosInvoice P (VStr s) tokens comment timeout
                = Throw m))
  /\ (forall (options : InvoiceWithServiceParamsOptions.t) (m : string),
         Situation.posParams (InvoiceWithServiceParamsOptions.params options) ->
         PosClient.isValidAmount
           (InvoiceWithServiceParamsOptions.tokens options) = true ->
         PosClient.callbackRequest P
           (InvoiceWithServiceParamsOptions.params options)
           (InvoiceWithServiceParamsOptions.tokens options)
           (InvoiceWithServiceParamsOptions.comment options)
           (PosClient.default
              (InvoiceWithServiceParamsOptions.timeout options)
              (VNum (num_of_Z 30000)))
         = Throw m ->
         PosClient.requestInvoiceWithServiceParams P options = Throw m).
Proof.
  split; [ | split].
  - intros options s u d rest Hs Hpos Hsplit timeout.
    pose proof (PathFacts.requestPayServiceParams_pos P options s u d rest Hs
                  Hpos Hsplit) as Hop.
    fold timeout in Hop.
    assert (Hany : forall m : string,
               PosClient.resolvePosParams P (VStr s) timeout = Throw m ->
               PosClient.requestPayServiceParams P options
               = Throw (if includes "Invalid Lightning address" m then m
                        else "Failed to get POS service params: " ++ m)).
    { intros m Hm. rewrite Hop, Hm. cbn [try_catch].
      unfold PosClient.rethrowParamsError.
      destruct (includes "Invalid Lightning address" m); reflexivity. }
    split; [exact Hany | ]. split.
    + intros Hempty.
      rewrite (Hany _ (PathFacts.resolvePosParams_invalid P s u d rest timeout
                         Hsplit Hempty)).
      reflexivity.
    + intros m Hu Hd Hget Hplain.
      rewrite (Hany m).
      * rewrite Hplain. reflexivity.
      * rewrite (PathFacts.resolvePosParams_fetch P s u d rest timeout Hsplit
                   Hu Hd), Hget.
        reflexivity.
  - intros options s u d rest Hs Hamount Hpos Hsplit tokens comment timeout
      resolution.
    pose proof (PathFacts.requestInvoice_pos P options s u d rest Hs Hamount
                  Hpos Hsplit) as Hop.
    fold tokens comment timeout in Hop.
    assert (Hverbatim : forall m : string,
               PosClient.requestPosInvoice P (VStr s) tokens comment timeout
               = Throw m ->
               includes "Amount too small" m
               || includes "Amount too large" m
               || includes "Comment too long" m = true ->
               PosClient.requestInvoice P options = Throw m).
    { intros m Hm Hkind. rewrite Hop, Hm. cbn [try_catch].
      unfold PosClient.rethrowInvoiceError. rewrite Hkind. reflexivity. }
    split; [ | split; [ | split]].
    + intros m Hm _. rewrite Hop, Hm. cbn [try_catch].
      unfold PosClient.rethrowInvoiceError.
      destruct (includes "Amount too small" m
                || includes "Amount too large" m
                || includes "Comment too long" m); reflexivity.
    + intros params m Hres Hcheck. apply Hverbatim.
      * unfold PosClient.requestPosInvoice. fold resolution. rewrite Hres.
        cbn [bind]. unfold PosClient.callbackRequest. rewrite Hcheck.
        reflexivity.
      * destruct (InvoiceFacts.checkAmount_message _ _ _ Hcheck)
          as [H | [H | [H | H]]]; try discriminate H; rewrite H;
          [reflexivity | ].
        rewrite orb_true_r. reflexivity.
    + intros params m Hres Hcheck Hcomment. apply Hverbatim.
      * unfold PosClient.requestPosInvoice. fold resolution. rewrite Hres.
        cbn [bind]. unfold PosClient.callbackRequest.
        rewrite Hcheck. cbn [bind]. rewrite Hcomment. reflexivity.
      * destruct (InvoiceFacts.checkComment_message _ _ _ Hcomment)
          as [H | [H | H]]; try discriminate H; rewrite H.
        rewrite orb_true_r. reflexivity.
    + intros m Hres. unfold PosClient.requestPosInvoice. fold resolution.
      rewrite Hres. reflexivity.
  - intros options m Hpos Hamount Hcall.
    rewrite (InvoiceFacts.requestInvoiceWithServiceParams_pos P options Hpos
               Hamount), Hcall.
    reflexivity.
Qed.

(** A provider that does not know the user, seen from the resolution; and
    the amount below the minimum, seen from [requestInvoice]. *)
Lemma C9_witness :
  Scenario.resolve "user@sub.domain.com"
  = Throw "Failed to get POS service params: HTTP 404: Not Found"
  /\ Scenario.invoice "merchant@bringin.xyz" 10
     = Throw "Amount too small. Minimum: 20 sats".
Proof.
  split.
  - destruct (proj1 (C9_error_wrapping Scenario.platform)
                (ServiceParamsOptions.make (VStr "user@sub.domain.com")
                   (VBool true) VUndefined VUndefined VUndefined)
                "user@sub.domain.com" "user" "sub.domain.com" []
                eq_refl eq_refl eq_refl) as (_ & _ & Hfetch).
    apply (Hfetch "HTTP 404: Not Found").
    + discriminate.
    + discriminate.
    + reflexivity.
    + reflexivity.
  - destruct (proj1 (proj2 (C9_error_wrapping Scenario.platform))
                (LnurlPayOptions.make (VStr "merchant@bringin.xyz")
                   (Scenario.num 10) VUndefined (VBool true) VUndefined
                   VUndefined VUndefined)
                "merchant@bringin.xyz" "merchant" "bringin.xyz" []
                eq_refl eq_refl eq_refl eq_refl) as (_ & Hamount & _ & _).
    apply (Hamount Scenario.coffeeParams_props).
    + reflexivity.
    + reflexivity.
Defined.

(** What the amended statement leaves out: the address-format failure of
    the resolution, which [requestPayServiceParams] lets through as it is,
    arrives from [requestInvoice] under the prefix of the invoice request. *)
Example address_error_through_requestInvoice :
  Scenario.resolve "user@" = Throw "Invalid Lightning address format"
  /\ Scenario.invoice "user@" 60
     = Throw "POS invoice request failed: Invalid Lightning address format".
Proof. split; vm_compute; reflexivity. Qed.

(* ------------------------------------------------------------------ *)
(** ** Further properties: the validators of the client                *)
(* ------------------------------------------------------------------ *)

Module TextFacts.

(** A text that lacks the first character of another does not include it. *)
Lemma includes_first_char (c : ascii) (p s : string) :
  includes (String c EmptyString) s = false -> includes (String c p) s = false.
Proof.
  induction s as [ | a t IH]; intros H.
  - reflexivity.
  - rewrite StringFacts.includes_one_cons in H.
    apply orb_false_iff in H. destruct H as [Hac Ht].
    cbn [includes prefix].
    destruct (ascii_dec c a) as [-> | _].
    + rewrite Ascii.eqb_refl in Hac. discriminate.
    + apply IH, Ht.
Qed.

Lemma includes_one_app (c : ascii) (s t : string) :
  includes (String c EmptyString) (s ++ t)
  = includes (String c EmptyString) s || includes (String c EmptyString) t.
Proof.
  induction s as [ | a s IH]; cbn [append].
  - destruct t; reflexivity.
  - rewrite !StringFacts.includes_one_cons, IH, orb_assoc. reflexivity.
Qed.

(** Across a head without the first character of the needle, the search
    goes on in the tail. *)
Lemma includes_past (c : ascii) (p h t : string) :
  includes (String c EmptyString) h = false ->
  includes (String c p) (h ++ t) = includes (String c p) t.
Proof.
  induction h as [ | a h IH]; intros H; cbn [append]; [reflexivity | ].
  rewrite StringFacts.includes_one_cons in H.
  apply orb_false_iff in H. destruct H as [Hac Hh].
  cbn [includes prefix].
  destruct (ascii_dec c a) as [-> | _].
  - rewrite Ascii.eqb_refl in Hac. discriminate.
  - apply IH, Hh.
Qed.

Import Decimal.

(** The decimal digits of a number hold no other character. *)
Lemma digits_only (c : ascii) (d : uint) :
  includes (String c EmptyString) "0123456789" = false ->
  includes (String c EmptyString) (NilEmpty.string_of_uint d) = false.
Proof.
  intros H.
  repeat (rewrite StringFacts.includes_one_cons in H;
          apply orb_false_iff in H; destruct H as [? H]).
  induction d; cbn [NilEmpty.string_of_uint];
    try (rewrite StringFacts.includes_one_cons, IHd, orb_false_r; assumption).
  reflexivity.
Qed.

Lemma string_of_Z_chars (c : ascii) (z : Z) :
  includes (String c EmptyString) "-0123456789" = false ->
  includes (String c EmptyString) (string_of_Z z) = false.
Proof.
  intros H. rewrite StringFacts.includes_one_cons in H.
  apply orb_false_iff in H. destruct H as [Hminus H].
  pose proof (fun d => digits_only c d H) as Hd.
  unfold string_of_Z. destruct z as [ | p | p]; cbn [Z.to_int NilZero.string_of_int].
  - exact (Hd (D0 Nil)).
  - destruct (NumberFacts.string_of_uint_head (Pos.to_uint p)
                (Unsigned.to_uint_nonnil p)) as (-> & _). apply Hd.
  - destruct (NumberFacts.string_of_uint_head (Pos.to_uint p)
                (Unsigned.to_uint_nonnil p)) as (-> & _).
    rewrite StringFacts.includes_one_cons, Hminus. apply Hd.
Qed.

(** The text of an integer number of at most [2^53] in absolute value is
    its decimal writing. *)
Lemma num_toString_integer (z : Z) :
  Z.abs z <= 2 ^ 53 -> num_toString (num_of_Z z) = string_of_Z z.
Proof.
  intros Hz. unfold num_toString, num_of_Z.
  rewrite NumberFacts.Qred_inject_Z. cbn [inject_Z Qnum Qden Pos.eqb andb].
  replace (Z.abs z <=? 2 ^ 53) with true
    by (symmetry; apply Z.leb_le; exact Hz).
  reflexivity.
Qed.


End TextFacts.

(** X1.  [isValidAmount] accepts exactly the numbers that are strictly
    positive integers: no text, no [NaN], no infinity, no fraction, no zero
    and no negative number passes. *)
Theorem X1_isValidAmount_positive_integers (v : value) :
  PosClient.isValidAmount v = true
  <-> exists (n : Z) (q : Q), 0 < n /\ v = VNum (Num q) /\ (q == inject_Z n)%Q.
Proof.
  unfold PosClient.isValidAmount. split.
  - destruct v as [ | | | [ | | | q] | | | | ]; try discriminate.
    intros H. apply andb_true_iff in H. destruct H as [Hpos Hint].
    unfold num_gt, num_lt, num_of_Z in Hpos. apply NumberFacts.Qltb_lt in Hpos.
    unfold num_isInteger in Hint. apply Pos.eqb_eq in Hint.
    pose proof (Qred_correct q) as Hq.
    destruct (Qred q) as [n d]. cbn [Qden] in Hint. subst d.
    exists n, q. split; [ | split; [reflexivity | ]].
    + rewrite <- Hq in Hpos. unfold Qlt, inject_Z in Hpos.
      cbn [Qnum Qden] in Hpos. lia.
    + symmetry. exact Hq.
  - intros (n & q & Hn & -> & Hq).
    unfold num_gt, num_lt, num_isInteger, num_of_Z.
    rewrite (Qred_complete _ _ Hq), NumberFacts.Qred_inject_Z.
    cbn [inject_Z Qden Pos.eqb]. rewrite andb_true_r.
    apply NumberFacts.Qltb_lt. rewrite Hq.
    unfold Qlt, inject_Z. cbn [Qnum Qden]. lia.
Qed.

(** The amounts of the unit tests: 50 passes; 1.5 and the text "100" do
    not. *)
Lemma X1_witness :
  PosClient.isValidAmount (VNum (num_of_Z 50)) = true
  /\ PosClient.isValidAmount (VNum (Num (3 # 2))) = false
  /\ PosClient.isValidAmount (VStr "100") = false.
Proof.
  split; [ | split; reflexivity].
  apply (proj2 (X1_isValidAmount_positive_integers (VNum (num_of_Z 50)))).
  exists 50, (inject_Z 50). split; [reflexivity | ].
  split; [reflexivity | ]. reflexivity.
Defined.

Module ValidatorFacts.

Lemma isValidComment_falsy (comment maxLength : value) :
  truthy comment = false ->
  PosClient.isValidComment comment maxLength = true.
Proof.
  intros H. unfold PosClient.isValidComment. rewrite H. reflexivity.
Qed.

Lemma isValidComment_text (s : string) (limit : Z) :
  s <> EmptyString ->
  PosClient.isValidComment (VStr s) (VNum (num_of_Z limit)) = true
  <-> Z.of_nat (utf16_length s) <= limit.
Proof.
  intros Hs. unfold PosClient.isValidComment.
  rewrite (PathFacts.truthy_VStr s Hs). cbn [negb toNumber].
  unfold nat_length, num_of_Z, num_le. rewrite NumberFacts.Qleb_le.
  rewrite <- Zle_Qle. reflexivity.
Qed.

End ValidatorFacts.

(** X2.  [isValidComment] accepts a comment that is absent or empty
    whatever the limit is; it accepts a text that is not empty exactly when
    its length, counted in UTF-16 code units, does not exceed the integer
    limit, and refuses every such text when the limit is [undefined] or
    [NaN]; it refuses any other value. *)
Theorem X2_isValidComment :
  (forall comment maxLength : value,
      truthy comment = false ->
      PosClient.isValidComment comment maxLength = true)
  /\ (forall (s : string) (limit : Z),
         s <> EmptyString ->
         (PosClient.isValidComment (VStr s) (VNum (num_of_Z limit)) = true
          <-> Z.of_nat (utf16_length s) <= limit))
  /\ (forall (s : string) (maxLength : value),
         s <> EmptyString ->
         maxLength = VUndefined \/ maxLength = VNum NaN ->
         PosClient.isValidComment (VStr s) maxLength = false)
  /\ (forall comment maxLength : value,
         truthy comment = true -> is_string comment = false ->
         PosClient.isValidComment comment maxLength = false).
Proof.
  split; [ | split; [ | split]].
  - exact ValidatorFacts.isValidComment_falsy.
  - exact ValidatorFacts.isValidComment_text.
  - intros s maxLength Hs Hlimit. unfold PosClient.isValidComment.
    rewrite (PathFacts.truthy_VStr s Hs). cbn [negb].
    destruct Hlimit as [-> | ->]; cbn [toNumber]; unfold nat_length, num_of_Z;
      reflexivity.
  - intros comment maxLength Ht Hs. unfold PosClient.isValidComment.
    rewrite Ht. destruct comment; try reflexivity. discriminate.
Qed.

(** The comments of the unit tests, and a comment of two characters that
    take five bytes. *)
Lemma X2_witness :
  PosClient.isValidComment VNull (VNum (num_of_Z 10)) = true
  /\ PosClient.isValidComment (VStr "Hello World") (VNum (num_of_Z 15)) = true
  /\ PosClient.isValidComment
       (VStr (String (ascii_of_nat 195) (String (ascii_of_nat 169)
                (String (ascii_of_nat 226) (String (ascii_of_nat 130)
                   (String (ascii_of_nat 172) EmptyString))))))
       (VNum (num_of_Z 2)) = true
  /\ PosClient.isValidComment (VStr "Test") VUndefined = false.
Proof.
  split; [ | split; [ | split]].
  - apply (proj1 X2_isValidComment). reflexivity.
  - apply (proj1 (proj2 X2_isValidComment) "Hello World" 15).
    + discriminate.
    + vm_compute. discriminate.
  - apply (proj1 (proj2 X2_isValidComment)).
    + discriminate.
    + vm_compute. discriminate.
  - apply (proj1 (proj2 (proj2 X2_isValidComment))).
    + discriminate.
    + left. reflexivity.
Defined.

(* ------------------------------------------------------------------ *)
(** ** Further properties: the callback request of the client          *)
(* ------------------------------------------------------------------ *)

Module UrlFacts.

Lemma append_assoc (a b c : string) : ((a ++ b) ++ c = a ++ b ++ c)%string.
Proof. induction a as [ | x a IH]; cbn; [reflexivity | rewrite IH; reflexivity]. Qed.




End UrlFacts.



(* ------------------------------------------------------------------ *)
(** ** Further properties: what the resolution hands to the request    *)
(* ------------------------------------------------------------------ *)

(** X4.  The parameters of an accepted POS-mode resolution are taken for
    POS parameters by [requestInvoiceWithServiceParams] exactly when the
    callback of the provider contains [bringin.xyz]: for a provider with
    another callback, the request made with these parameters is the
    library's, although the resolution was the POS one. *)
Theorem X4_resolved_parameters_and_the_marker (P : Platform)
  (options : ServiceParamsOptions.t) (props : list (string * value))
  (metadata : value) (callback : string) :
  Situation.acceptedResolution P options props metadata ->
  lookup "callback" props = VStr callback ->
  exists record : list (string * value),
    PosClient.requestPayServiceParams P options = Ok (VObj record)
    /\ PosClient.hasPosMarker (VObj record)
       = Ok (includes "bringin.xyz" callback)
    /\ (includes "bringin.xyz" callback = false ->
        forall tokens comment timeout : value,
          PosClient.isValidAmount tokens = true ->
          PosClient.requestInvoiceWithServiceParams P
            (InvoiceWithServiceParamsOptions.make (VObj record) tokens comment
               timeout)
          = lnurl_requestInvoiceWithServiceParams P
              (InvoiceWithServiceParamsOptions.make (VObj record) tokens
                 comment timeout)).
Proof.
  intros Hacc Hcb.
  assert (Hstatus : lookup "status" props = VStr "OK").
  { destruct Hacc as (s & u & d & rest & _ & _ & _ & _ & _ & _ & H & _).
    exact H. }
  destruct (ResolutionFacts.accepted_resolution P options props metadata Hacc)
    as (s & d & Hres).
  eexists. split; [exact Hres | ].
  assert (Hmarker : forall record,
             lookup "rawData" record = VObj props ->
             lookup "callback" record = VStr callback ->
             PosClient.hasPosMarker (VObj record)
             = Ok (includes "bringin.xyz" callback)).
  { intros record Hraw Hc. unfold PosClient.hasPosMarker. cbn [get bind].
    rewrite Hraw. cbn [truthy negb get bind]. rewrite Hstatus. cbn [eq_str].
    change (String.eqb "OK" "OK") with true. cbn [negb].
    rewrite Hc. reflexivity. }
  split.
  - apply Hmarker; [reflexivity | exact Hcb].
  - intros Hother tokens comment timeout Hamount.
    apply InvoiceFacts.requestInvoiceWithServiceParams_standard.
    + reflexivity.
    + exact Hamount.
    + cbn [InvoiceWithServiceParamsOptions.params].
      rewrite Hmarker; [rewrite Hother; reflexivity | reflexivity | exact Hcb].
Qed.

Lemma X4_witness :
  exists record : list (string * value),
    PosClient.requestPayServiceParams BareScenario.platform BareScenario.options
    = Ok (VObj record)
    /\ PosClient.hasPosMarker (VObj record)
       = Ok (includes "bringin.xyz" "https://pay.example.com/cb")
    /\ (includes "bringin.xyz" "https://pay.example.com/cb" = false ->
        forall tokens comment timeout : value,
          PosClient.isValidAmount tokens = true ->
          PosClient.requestInvoiceWithServiceParams BareScenario.platform
            (InvoiceWithServiceParamsOptions.make (VObj record) tokens comment
               timeout)
          = lnurl_requestInvoiceWithServiceParams BareScenario.platform
              (InvoiceWithServiceParamsOptions.make (VObj record) tokens
                 comment timeout)).
Proof.
  apply (X4_resolved_parameters_and_the_marker BareScenario.platform
           BareScenario.options BareScenario.bareResponse_props (VArr [])
           "https://pay.example.com/cb").
  - exists "shop@pay.example.com", "shop", "pay.example.com", [].
    repeat split; try reflexivity; discriminate.
  - reflexivity.
Defined.

(** X5.  A provider response without [minSendable] and [maxSendable] is
    accepted, the bounds of the record are then [NaN], and the amount check
    made with this record lets every amount through. *)
Theorem X5_missing_bounds_disable_the_amount_check (P : Platform)
  (options : ServiceParamsOptions.t) (props : list (string * value))
  (metadata : value) :
  Situation.acceptedResolution P options props metadata ->
  lookup "minSendable" props = VUndefined ->
  lookup "maxSendable" props = VUndefined ->
  exists record : list (string * value),
    PosClient.requestPayServiceParams P options = Ok (VObj record)
    /\ lookup "min" record = VNum NaN /\ lookup "max" record = VNum NaN
    /\ forall tokens : value, PosClient.checkAmount (VObj record) tokens = Ok tt.
Proof.
  intros Hacc Hmin Hmax.
  destruct (ResolutionFacts.accepted_resolution P options props metadata Hacc)
    as (s & d & Hres).
  rewrite Hmin, Hmax in Hres.
  eexists. split; [exact Hres | ].
  split; [reflexivity | ]. split; [reflexivity | ].
  intros tokens. rewrite InvoiceFacts.checkAmount_cases.
  change (lookup "min" _) with (VNum NaN).
  change (lookup "max" _) with (VNum NaN).
  unfold PosClient.lt, PosClient.gt, num_gt. cbn [toNumber].
  destruct (toNumber tokens); reflexivity.
Qed.

Lemma X5_witness :
  exists record : list (string * value),
    PosClient.requestPayServiceParams BareScenario.platform BareScenario.options
    = Ok (VObj record)
    /\ lookup "min" record = VNum NaN /\ lookup "max" record = VNum NaN
    /\ forall tokens : value, PosClient.checkAmount (VObj record) tokens = Ok tt.
Proof.
  apply (X5_missing_bounds_disable_the_amount_check BareScenario.platform
           BareScenario.options BareScenario.bareResponse_props (VArr [])).
  - exists "shop@pay.example.com", "shop", "pay.example.com", [].
    repeat split; try reflexivity; discriminate.
  - reflexivity.
  - reflexivity.
Defined.

(** X6.  When the provider response has no [commentAllowed], or a falsy
    one, the record allows comments of length 0: the comment check made with
    this record passes a comment that is absent or empty and refuses every
    other text with [Comment too long. Maximum: 0 characters]. *)
Theorem X6_no_comment_without_commentAllowed (P : Platform)
  (options : ServiceParamsOptions.t) (props : list (string * value))
  (metadata : value) :
  Situation.acceptedResolution P options props metadata ->
  truthy (lookup "commentAllowed" props) = false ->
  exists record : list (string * value),
    PosClient.requestPayServiceParams P options = Ok (VObj record)
    /\ lookup "commentAllowed" record = VNum (num_of_Z 0)
    /\ (forall comment : value,
           truthy comment = false ->
           PosClient.checkComment (VObj record) comment = Ok tt)
    /\ (forall s : string,
           s <> EmptyString ->
           PosClient.checkComment (VObj record) (VStr s)
           = Throw "Comment too long. Maximum: 0 characters").
Proof.
  intros Hacc Hca.
  destruct (ResolutionFacts.accepted_resolution P options props metadata Hacc)
    as (s & d & Hres).
  unfold or_else in Hres. rewrite Hca in Hres.
  eexists. split; [exact Hres | ].
  split; [reflexivity | ]. split.
  - intros comment Hc. unfold PosClient.checkComment. cbn [get bind].
    rewrite (ValidatorFacts.isValidComment_falsy comment _ Hc). reflexivity.
  - intros c Hc. unfold PosClient.checkComment. cbn [get bind].
    change (lookup "commentAllowed" _) with (VNum (num_of_Z 0)).
    destruct (PosClient.isValidComment (VStr c) (VNum (num_of_Z 0))) eqn:E;
      [ | reflexivity].
    apply (ValidatorFacts.isValidComment_text c 0 Hc) in E.
    pose proof (NumberFacts.utf16_nonempty c Hc). lia.
Qed.

Lemma X6_witness :
  exists record : list (string * value),
    PosClient.requestPayServiceParams BareScenario.platform BareScenario.options
    = Ok (VObj record)
    /\ lookup "commentAllowed" record = VNum (num_of_Z 0)
    /\ (forall comment : value,
           truthy comment = false ->
           PosClient.checkComment (VObj record) comment = Ok tt)
    /\ (forall s : string,
           s <> EmptyString ->
           PosClient.checkComment (VObj record) (VStr s)
           = Throw "Comment too long. Maximum: 0 characters").
Proof.
  apply (X6_no_comment_without_commentAllowed BareScenario.platform
           BareScenario.options BareScenario.bareResponse_props (VArr [])).
  - exists "shop@pay.example.com", "shop", "pay.example.com", [].
    repeat split; try reflexivity; discriminate.
  - reflexivity.
Defined.

(** X7.  The one-call operation and the two steps made by hand agree: when
    the POS-mode resolution returns parameters that carry the marker and
    the callback answers with the status [OK], [requestInvoice] returns the
    invoice, the success action and the raw response that
    [requestInvoiceWithServiceParams] returns for these parameters, beside
    the parameters themselves and its three fixed fields. *)
Theorem X7_one_call_is_the_two_steps (P : Platform)
  (options : LnurlPayOptions.t) (s u d : string) (rest : list string)
  (params : value) (response : list (string * value)) :
  LnurlPayOptions.lnUrlOrAddress options = VStr s ->
  PosClient.isValidAmount (LnurlPayOptions.tokens options) = true ->
  truthy (LnurlPayOptions.posMode options) = true ->
  split "@" s = u :: d :: rest ->
  let tokens := LnurlPayOptions.tokens options in
  let comment := LnurlPayOptions.comment options in
  let timeout :=
    PosClient.default (LnurlPayOptions.timeout options)
      (VNum (num_of_Z 30000)) in
  PosClient.requestPayServiceParams P
    (ServiceParamsOptions.make (VStr s) (VBool true) VUndefined VUndefined
       timeout)
  = Ok params ->
  Situation.posParams params ->
  PosClient.callbackRequest P params tokens comment timeout
  = Ok (VObj response) ->
  lookup "status" response = VStr "OK" ->
  let invoice := lookup "pr" response in
  let action := or_else (lookup "successAction" response) VNull in
  PosClient.requestInvoiceWithServiceParams P
    (InvoiceWithServiceParamsOptions.make params tokens comment
       (LnurlPayOptions.timeout options))
  = Ok (VObj [ ("invoice", invoice);
               ("successAction", action);
               ("rawData", VObj response) ])
  /\ PosClient.requestInvoice P options
     = Ok (VObj [ ("invoice", invoice);
                  ("params", params);
                  ("successAction", action);
                  ("rawData", VObj response);
                  ("hasValidAmount", VBool true);
                  ("hasValidDescriptionHash", VBool true);
                  ("validatePreimage", VFun "() => true") ]).
Proof.
  intros Hs Hamount Hpos Hsplit tokens comment timeout Hres Hmarker Hcall
    Hstatus invoice action.
  split.
  - rewrite InvoiceFacts.requestInvoiceWithServiceParams_pos;
      [ | exact Hmarker | exact Hamount].
    cbn [InvoiceWithServiceParamsOptions.params
           InvoiceWithServiceParamsOptions.tokens
           InvoiceWithServiceParamsOptions.comment
           InvoiceWithServiceParamsOptions.timeout].
    fold tokens comment timeout. rewrite Hcall. reflexivity.
  - rewrite (PathFacts.requestInvoice_pos P options s u d rest Hs Hamount Hpos
               Hsplit).
    unfold PosClient.requestPosInvoice. fold tokens comment timeout.
    rewrite Hres. cbn [bind]. rewrite Hcall. cbn [bind].
    unfold PosClient.invoiceOf. cbn [get bind]. rewrite Hstatus.
    reflexivity.
Qed.

(** The scenario of the specification: 50 satoshis to the merchant. *)
Lemma X7_witness :
  Scenario.invoiceWith Scenario.coffeeParams 50
  = Ok (VObj [ ("invoice", VStr "lnbc...");
               ("successAction", VNull);
               ("rawData", Scenario.invoiceResponse) ])
  /\ Scenario.invoice "merchant@bringin.xyz" 50
     = Ok (VObj [ ("invoice", VStr "lnbc...");
                  ("params", Scenario.coffeeParams);
                  ("successAction", VNull);
                  ("rawData", Scenario.invoiceResponse);
                  ("hasValidAmount", VBool true);
                  ("hasValidDescriptionHash", VBool true);
                  ("validatePreimage", VFun "() => true") ]).
Proof.
  apply (X7_one_call_is_the_two_steps Scenario.platform
           (LnurlPayOptions.make (VStr "merchant@bringin.xyz")
              (Scenario.num 50) VUndefined (VBool true) VUndefined VUndefined
              VUndefined)
           "merchant@bringin.xyz" "merchant" "bringin.xyz" []
           Scenario.coffeeParams Scenario.invoiceResponse_props);
    reflexivity.
Defined.

(** X8.  A provider response whose status is not [OK] never gives
    parameters.  Without a reason the failure is
    [Failed to get POS service params: Service error: Invalid response];
    with a reason the reason takes the place of [Invalid response], and the
    prefix of the resolution is left off when the reason contains
    [Invalid Lightning address]. *)
Theorem X8_service_error (P : Platform) (options : ServiceParamsOptions.t)
  (s u d : string) (rest : list string) (props : list (string * value)) :
  ServiceParamsOptions.lnUrlOrAddress options = VStr s ->
  truthy (ServiceParamsOptions.posMode options) = true ->
  split "@" s = u :: d :: rest ->
  u <> EmptyString -> d <> EmptyString ->
  PosClient.httpClient_get P (PosClient.discoveryUrl d u)
    (PosClient.default (ServiceParamsOptions.timeout options)
       (VNum (num_of_Z 30000)))
  = Ok (VObj props) ->
  eq_str (lookup "status" props) "OK" = false ->
  (truthy (lookup "reason" props) = false ->
   PosClient.requestPayServiceParams P options
   = Throw "Failed to get POS service params: Service error: Invalid response")
  /\ (forall reason : string,
         lookup "reason" props = VStr reason -> reason <> EmptyString ->
         PosClient.requestPayServiceParams P options
         = Throw (if includes "Invalid Lightning address" reason
                  then "Service error: " ++ reason
                  else "Failed to get POS service params: Service error: "
                         ++ reason)).
Proof.
  intros Hs Hpos Hsplit Hu Hd Hget Hstatus.
  assert (Hop : PosClient.requestPayServiceParams P options
                = PosClient.rethrowParamsError
                    ("Service error: "
                       ++ toString (or_else (lookup "reason" props)
                                      (VStr "Invalid response")))).
  { rewrite (PathFacts.requestPayServiceParams_pos P options s u d rest Hs Hpos
               Hsplit).
    rewrite (PathFacts.resolvePosParams_fetch P s u d rest _ Hsplit Hu Hd).
    rewrite Hget. cbn [bind].
    rewrite (PathFacts.serviceParamsOf_not_ok P (VStr s) d props Hstatus).
    reflexivity. }
  split.
  - intros Hreason. rewrite Hop. unfold or_else. rewrite Hreason. reflexivity.
  - intros reason Hreason Hne. rewrite Hop. unfold or_else.
    rewrite Hreason, (PathFacts.truthy_VStr reason Hne). cbn [toString].
    unfold PosClient.rethrowParamsError.
    rewrite (TextFacts.includes_past "I" "nvalid Lightning address"
               "Service error: " reason eq_refl).
    destruct (includes "Invalid Lightning address" reason); reflexivity.
Qed.

Lemma X8_witness :
  Scenario.resolve "closed@bringin.xyz"
  = Throw "Failed to get POS service params: Service error: No route".
Proof.
  apply (proj2 (X8_service_error Scenario.platform
                  (ServiceParamsOptions.make (VStr "closed@bringin.xyz")
                     (VBool true) VUndefined VUndefined VUndefined)
                  "closed@bringin.xyz" "closed" "bringin.xyz" []
                  Scenario.errorResponse_props
                  eq_refl eq_refl eq_refl
                  ltac:(discriminate) ltac:(discriminate) eq_refl eq_refl)
           "No route").
  - reflexivity.
  - discriminate.
Defined.

(* ------------------------------------------------------------------ *)
(** ** Further properties: the HTTP client under the resolution        *)
(* ------------------------------------------------------------------ *)

Module ClientFacts.

Import PosClient.

Lemma effective_timeout (timeout : value) (n : Z) :
  ClientSituation.effectiveTimeout timeout n ->
  or_else (default timeout (VNum (num_of_Z 30000))) (VNum (num_of_Z 30000))
  = VNum (num_of_Z n).
Proof.
  intros [[-> ->] | [-> Hn]]; [reflexivity | ].
  unfold or_else. cbn [default truthy num_of_Z inject_Z Qnum].
  destruct n; try lia; reflexivity.
Qed.

(** The resolution over the client, up to the answer of [fetch]. *)
Lemma resolution_over_fetch (fetch : string -> value -> HttpClient.outcome)
  (P : Platform) (options : ServiceParamsOptions.t) (s u d : string)
  (rest : list string) (n : Z) (e : HttpClient.error) :
  ServiceParamsOptions.lnUrlOrAddress options = VStr s ->
  truthy (ServiceParamsOptions.posMode options) = true ->
  split "@" s = u :: d :: rest ->
  u <> EmptyString -> d <> EmptyString ->
  ClientSituation.effectiveTimeout (ServiceParamsOptions.timeout options) n ->
  HttpClient.get fetch (discoveryUrl d u) (VNum (num_of_Z n))
  = HttpClient.Failure e ->
  requestPayServiceParams (HttpClient.over fetch P) options
  = rethrowParamsError (HttpClient.message e).
Proof.
  intros Hs Hpos Hsplit Hu Hd Ht Hget.
  rewrite (PathFacts.requestPayServiceParams_pos _ options s u d rest Hs Hpos
             Hsplit).
  rewrite (PathFacts.resolvePosParams_fetch _ s u d rest _ Hsplit Hu Hd).
  unfold httpClient_get. cbn [HttpClient.over fetch_json].
  rewrite (effective_timeout _ n Ht), Hget. reflexivity.
Qed.

Lemma positive_timeout_kept (n : Z) :
  0 < n ->
  or_else (VNum (num_of_Z n)) (VNum (num_of_Z 30000)) = VNum (num_of_Z n).
Proof.
  intros Hn. unfold or_else. cbn [truthy num_of_Z inject_Z Qnum].
  destruct n; try lia; reflexivity.
Qed.

End ClientFacts.

(** X9.  Over the client built on [fetch], a discovery request that is
    aborted makes the POS-mode resolution fail with
    [Failed to get POS service params: Request timeout after <n>ms], where
    [n] is the timeout of the options, a positive integer of at most [2^53],
    or 30000 when the options have none. *)
Theorem X9_timeout_of_the_discovery
  (fetch : string -> value -> HttpClient.outcome) (P : Platform)
  (options : ServiceParamsOptions.t) (s u d : string) (rest : list string)
  (n : Z) (e : HttpClient.error) :
  ServiceParamsOptions.lnUrlOrAddress options = VStr s ->
  truthy (ServiceParamsOptions.posMode options) = true ->
  split "@" s = u :: d :: rest ->
  u <> EmptyString -> d <> EmptyString ->
  ClientSituation.effectiveTimeout (ServiceParamsOptions.timeout options) n ->
  n <= 2 ^ 53 ->
  fetch (PosClient.discoveryUrl d u) (VNum (num_of_Z n)) = HttpClient.Rejected e ->
  HttpClient.name e = "AbortError" ->
  PosClient.requestPayServiceParams (HttpClient.over fetch P) options
  = Throw ("Failed to get POS service params: Request timeout after "
             ++ string_of_Z n ++ "ms").
Proof.
  intros Hs Hpos Hsplit Hu Hd Ht Hmax Hfetch Hname.
  assert (Hn : 0 < n) by (destruct Ht as [[_ ->] | [_ H]]; lia).
  rewrite (ClientFacts.resolution_over_fetch fetch P options s u d rest n
             (HttpClient.newError
                ("Request timeout after " ++ string_of_Z n ++ "ms"))
             Hs Hpos Hsplit Hu Hd Ht).
  - cbn [HttpClient.newError HttpClient.message].
    unfold PosClient.rethrowParamsError.
    rewrite <- UrlFacts.append_assoc.
    rewrite (TextFacts.includes_past "I" "nvalid Lightning address"
               ("Request timeout after " ++ string_of_Z n) "ms").
    + reflexivity.
    + rewrite TextFacts.includes_one_app, TextFacts.string_of_Z_chars;
        reflexivity.
  - unfold HttpClient.get.
    rewrite (ClientFacts.positive_timeout_kept n Hn), Hfetch.
    unfold HttpClient.rethrow. rewrite Hname.
    cbn [toString]. rewrite TextFacts.num_toString_integer by lia.
    reflexivity.
Qed.

(** The host that does not answer, with the default timeout and with a
    timeout of five seconds. *)
Lemma X9_witness :
  NetScenario.resolve "user@slow.example.com" VUndefined
  = Throw "Failed to get POS service params: Request timeout after 30000ms"
  /\ NetScenario.resolve "user@slow.example.com" (Scenario.num 5000)
     = Throw "Failed to get POS service params: Request timeout after 5000ms".
Proof.
  split.
  - apply (X9_timeout_of_the_discovery NetScenario.fetch Scenario.platform
             (ServiceParamsOptions.make (VStr "user@slow.example.com")
                (VBool true) VUndefined VUndefined VUndefined)
             "user@slow.example.com" "user" "slow.example.com" [] 30000
             NetScenario.aborted eq_refl eq_refl eq_refl).
    + discriminate.
    + discriminate.
    + left. split; reflexivity.
    + discriminate.
    + reflexivity.
    + reflexivity.
  - apply (X9_timeout_of_the_discovery NetScenario.fetch Scenario.platform
             (ServiceParamsOptions.make (VStr "user@slow.example.com")
                (VBool true) VUndefined VUndefined (Scenario.num 5000))
             "user@slow.example.com" "user" "slow.example.com" [] 5000
             NetScenario.aborted eq_refl eq_refl eq_refl).
    + discriminate.
    + discriminate.
    + right. split; reflexivity.
    + discriminate.
    + reflexivity.
    + reflexivity.
Defined.

(** X10.  Over the client built on [fetch], a discovery request answered
    with a response that is not [ok] makes the POS-mode resolution fail
    with [HTTP <status>: <statusText>], whatever the body of the response
    is; the prefix [Failed to get POS service params: ] comes before it
    unless the status text contains [Invalid Lightning address]. *)
Theorem X10_http_status_of_the_discovery
  (fetch : string -> value -> HttpClient.outcome) (P : Platform)
  (options : ServiceParamsOptions.t) (s u d : string) (rest : list string)
  (n status : Z) (statusText : string) (b : HttpClient.body) :
  ServiceParamsOptions.lnUrlOrAddress options = VStr s ->
  truthy (ServiceParamsOptions.posMode options) = true ->
  split "@" s = u :: d :: rest ->
  u <> EmptyString -> d <> EmptyString ->
  ClientSituation.effectiveTimeout (ServiceParamsOptions.timeout options) n ->
  fetch (PosClient.discoveryUrl d u) (VNum (num_of_Z n))
  = HttpClient.Response false status statusText b ->
  PosClient.requestPayServiceParams (HttpClient.over fetch P) options
  = Throw (if includes "Invalid Lightning address" statusText
           then "HTTP " ++ string_of_Z status ++ ": " ++ statusText
           else "Failed to get POS service params: HTTP "
                  ++ string_of_Z status ++ ": " ++ statusText).
Proof.
  intros Hs Hpos Hsplit Hu Hd Ht Hfetch.
  assert (Hn : 0 < n) by (destruct Ht as [[_ ->] | [_ H]]; lia).
  rewrite (ClientFacts.resolution_over_fetch fetch P options s u d rest n
             (HttpClient.newError
                ("HTTP " ++ string_of_Z status ++ ": " ++ statusText))
             Hs Hpos Hsplit Hu Hd Ht).
  - cbn [HttpClient.newError HttpClient.message].
    unfold PosClient.rethrowParamsError.
    assert (Hinc : includes "Invalid Lightning address"
                     ("HTTP " ++ string_of_Z status ++ ": " ++ statusText)
                   = includes "Invalid Lightning address" statusText).
    { rewrite <- !UrlFacts.append_assoc.
      apply (TextFacts.includes_past "I" "nvalid Lightning address").
      rewrite !TextFacts.includes_one_app, TextFacts.string_of_Z_chars;
        reflexivity. }
    rewrite Hinc.
    destruct (includes "Invalid Lightning address" statusText); reflexivity.
  - unfold HttpClient.get.
    rewrite (ClientFacts.positive_timeout_kept n Hn), Hfetch. reflexivity.
Qed.

Lemma X10_witness :
  NetScenario.resolve "nobody@shop.example.com" VUndefined
  = Throw "Failed to get POS service params: HTTP 404: Not Found".
Proof.
  apply (X10_http_status_of_the_discovery NetScenario.fetch Scenario.platform
           (ServiceParamsOptions.make (VStr "nobody@shop.example.com")
              (VBool true) VUndefined VUndefined VUndefined)
           "nobody@shop.example.com" "nobody" "shop.example.com" [] 30000 404
           "Not Found" (HttpClient.NotJson NetScenario.unreachable)
           eq_refl eq_refl eq_refl).
  - discriminate.
  - discriminate.
  - left. split; reflexivity.
  - reflexivity.
Defined.

(* ------------------------------------------------------------------ *)
(** ** The wrapper around the library                                  *)
(* ------------------------------------------------------------------ *)

Module WrapperFacts.

Import WrapperOps.

Lemma lookup_set_prop_same (k : string) (v : value)
  (props : list (string * value)) :
  lookup k (Json.set_prop k v props) = v.
Proof.
  induction props as [ | [k' v'] rest IH]; cbn [Json.set_prop lookup].
  - rewrite String.eqb_refl. reflexivity.
  - destruct (String.eqb k' k) eqn:E; cbn [lookup].
    + rewrite String.eqb_refl. reflexivity.
    + rewrite E. exact IH.
Qed.

Lemma lookup_set_prop_other (k k' : string) (v : value)
  (props : list (string * value)) :
  k' <> k -> lookup k' (Json.set_prop k v props) = lookup k' props.
Proof.
  intros Hne.
  assert (Hkk : String.eqb k k' = false).
  { apply String.eqb_neq. congruence. }
  induction props as [ | [k0 v0] rest IH]; cbn [Json.set_prop lookup].
  - rewrite Hkk. reflexivity.
  - destruct (String.eqb k0 k) eqn:E; cbn [lookup].
    + apply String.eqb_eq in E. subst k0. rewrite Hkk. reflexivity.
    + rewrite IH. reflexivity.
Qed.

Lemma at_sign_truthy (s : string) :
  includes "@" s = true -> truthy (VStr s) = true.
Proof. destruct s; [discriminate | reflexivity]. Qed.

(** The resolution of a text with an [@]: the library is asked, inside the
    [try] block. *)
Lemma resolution_path (P : Platform) (options : ServiceParamsOptions.t)
  (s : string) :
  ServiceParamsOptions.lnUrlOrAddress options = VStr s ->
  includes "@" s = true ->
  requestPayServiceParams P options
  = try_catch (askLibraryForParams P options)
      (rethrowParamsError (ServiceParamsOptions.posMode options)).
Proof.
  intros Hs Hat. unfold requestPayServiceParams.
  rewrite Hs, (at_sign_truthy s Hat). cbn [negb call_includes bind].
  rewrite Hat. reflexivity.
Qed.

Lemma posUrlOrAddress_text (posMode : value) (s : string) :
  posUrlOrAddress posMode (VStr s)
  = Ok (VStr (if truthy posMode && startsWith "http" s
              then s ++ (if includes "?" s then "&" else "?") ++ "pos=true"
              else s)).
Proof.
  unfold posUrlOrAddress.
  destruct (truthy posMode); cbn [andb call_startsWith bind]; [ | reflexivity].
  destruct (startsWith "http" s); cbn [call_includes bind toString];
    reflexivity.
Qed.

Lemma Qleb_integers (a b : Z) :
  Qleb (inject_Z a) (inject_Z b) = (a <=? b).
Proof.
  destruct (a <=? b) eqn:E.
  - apply NumberFacts.Qleb_le. rewrite <- Zle_Qle. lia.
  - destruct (Qleb (inject_Z a) (inject_Z b)) eqn:F; [ | reflexivity].
    apply NumberFacts.Qleb_le in F. rewrite <- Zle_Qle in F. lia.
Qed.

Lemma Qltb_integers (a b : Z) :
  Qltb (inject_Z a) (inject_Z b) = (a <? b).
Proof.
  destruct (a <? b) eqn:E.
  - apply NumberFacts.Qltb_lt. rewrite <- Zlt_Qlt. lia.
  - destruct (Qltb (inject_Z a) (inject_Z b)) eqn:F; [ | reflexivity].
    apply NumberFacts.Qltb_lt in F. rewrite <- Zlt_Qlt in F. lia.
Qed.

Lemma lt_integers (a b : Z) :
  PosClient.lt (VNum (num_of_Z a)) (VNum (num_of_Z b)) = (a <? b).
Proof. apply Qltb_integers. Qed.

Lemma gt_integers (a b : Z) :
  PosClient.gt (VNum (num_of_Z a)) (VNum (num_of_Z b)) = (b <? a).
Proof. apply Qltb_integers. Qed.

Lemma le_integers (a b : Z) :
  le (VNum (num_of_Z a)) (VNum (num_of_Z b)) = (a <=? b).
Proof. apply Qleb_integers. Qed.

Lemma ge_integers (a b : Z) :
  ge (VNum (num_of_Z a)) (VNum (num_of_Z b)) = (b <=? a).
Proof. apply Qleb_integers. Qed.

Lemma positive_integer_accepted (n : Z) :
  0 < n -> notPositiveInteger (VNum (num_of_Z n)) = false.
Proof.
  intros Hn. unfold notPositiveInteger. rewrite le_integers.
  unfold isInteger, num_of_Z, num_isInteger.
  rewrite NumberFacts.Qred_inject_Z. cbn [inject_Z Qden Pos.eqb negb orb].
  apply Z.leb_gt. exact Hn.
Qed.

End WrapperFacts.

(** X11.  The wrapper's resolution refuses every non-empty text without
    an [@], an LNURL or a plain URL alike, with [Invalid Lightning address
    format], whatever the library would answer.  In POS mode a text with an
    [@] that starts with [http] is handed to the library with [pos=true]
    appended, after [&] if the text has a [?] and after [?] otherwise, and
    the library's object comes back with [posMode] set to the option. *)
Theorem X11_wrapper_gate_and_pos_urls
  (P : Platform) (options : ServiceParamsOptions.t) (s : string) :
  ServiceParamsOptions.lnUrlOrAddress options = VStr s ->
  s <> EmptyString ->
  (includes "@" s = false ->
   WrapperOps.requestPayServiceParams P options
   = Throw "Invalid Lightning address format")
  /\ (includes "@" s = true ->
      truthy (ServiceParamsOptions.posMode options) = true ->
      startsWith "http" s = true ->
      forall props : list (string * value),
        lnurl_requestPayServiceParams P
          (ServiceParamsOptions.make
             (VStr (s ++ (if includes "?" s then "&" else "?") ++ "pos=true"))
             VUndefined (ServiceParamsOptions.onionAllowed options)
             (ServiceParamsOptions.fetchGet options) VUndefined)
        = Ok (VObj props) ->
        WrapperOps.requestPayServiceParams P options
        = Ok (VObj (Json.set_prop "posMode"
                      (ServiceParamsOptions.posMode options) props))).
Proof.
  intros Hs Hne. split.
  - intros Hat. unfold WrapperOps.requestPayServiceParams. rewrite Hs.
    assert (Ht : truthy (VStr s) = true).
    { destruct s; [congruence | reflexivity]. }
    rewrite Ht. cbn [negb call_includes bind]. rewrite Hat. reflexivity.
  - intros Hat Hpos Hurl props Hlib.
    rewrite (WrapperFacts.resolution_path P options s Hs Hat).
    unfold WrapperOps.askLibraryForParams.
    rewrite Hs, WrapperFacts.posUrlOrAddress_text, Hpos, Hurl.
    cbn [andb bind]. rewrite Hlib. cbn [bind WrapperOps.setProperty].
    unfold or_else. rewrite Hpos. reflexivity.
Qed.

Lemma X11_witness :
  WrapperScenario.resolve "lnurl1dp68gurn8ghj7" (VBool true)
  = Throw "Invalid Lightning address format"
  /\ WrapperScenario.resolve "https://user@example.com/lnurlp?x=1" (VBool true)
     = Ok (VObj (Json.set_prop "posMode" (VBool true)
                   (("asked",
                     VStr "https://user@example.com/lnurlp?x=1&pos=true")
                      :: WrapperScenario.libraryParams_props))).
Proof.
  split.
  - apply (X11_wrapper_gate_and_pos_urls WrapperScenario.platform
             (ServiceParamsOptions.make (VStr "lnurl1dp68gurn8ghj7")
                (VBool true) VUndefined VUndefined VUndefined)
             "lnurl1dp68gurn8ghj7" eq_refl); [discriminate | reflexivity].
  - apply (X11_wrapper_gate_and_pos_urls WrapperScenario.platform
             (ServiceParamsOptions.make
                (VStr "https://user@example.com/lnurlp?x=1")
                (VBool true) VUndefined VUndefined VUndefined)
             "https://user@example.com/lnurlp?x=1" eq_refl);
      [discriminate | reflexivity | reflexivity | reflexivity | reflexivity].
Defined.

(** X12.  For a Lightning address, a text with an [@] that does not start
    with [http], POS mode does not change what the wrapper asks the
    library: the address goes to the library as it is, and the answer comes
    back with [posMode] set to the option, or to [false] when the option is
    falsy, and with every other property as the library gave it. *)
Theorem X12_pos_mode_only_marks_an_address
  (P : Platform) (s : string) (posMode onionAllowed fetchGet timeout : value)
  (props : list (string * value)) :
  includes "@" s = true ->
  startsWith "http" s = false ->
  lnurl_requestPayServiceParams P
    (ServiceParamsOptions.make (VStr s) VUndefined onionAllowed fetchGet
       VUndefined)
  = Ok (VObj props) ->
  exists record : list (string * value),
    WrapperOps.requestPayServiceParams P
      (ServiceParamsOptions.make (VStr s) posMode onionAllowed fetchGet
         timeout)
    = Ok (VObj record)
    /\ lookup "posMode" record = or_else posMode (VBool false)
    /\ forall k : string, k <> "posMode" -> lookup k record = lookup k props.
Proof.
  intros Hat Hurl Hlib.
  exists (Json.set_prop "posMode" (or_else posMode (VBool false)) props).
  split; [ | split].
  - rewrite (WrapperFacts.resolution_path P
               (ServiceParamsOptions.make (VStr s) posMode onionAllowed
                  fetchGet timeout) s eq_refl Hat).
    unfold WrapperOps.askLibraryForParams.
    cbn [ServiceParamsOptions.lnUrlOrAddress ServiceParamsOptions.posMode
         ServiceParamsOptions.onionAllowed ServiceParamsOptions.fetchGet].
    rewrite WrapperFacts.posUrlOrAddress_text, Hurl, andb_false_r.
    cbn [bind]. rewrite Hlib. reflexivity.
  - apply WrapperFacts.lookup_set_prop_same.
  - intros k Hk. apply WrapperFacts.lookup_set_prop_other. exact Hk.
Qed.

Lemma X12_witness :
  exists record : list (string * value),
    WrapperScenario.resolve "shop@example.com" (VBool true) = Ok (VObj record)
    /\ lookup "posMode" record = VBool true
    /\ forall k : string,
         k <> "posMode" ->
         lookup k record
         = lookup k (("asked", VStr "shop@example.com")
                       :: WrapperScenario.libraryParams_props).
Proof.
  apply (X12_pos_mode_only_marks_an_address WrapperScenario.platform
           "shop@example.com" (VBool true) VUndefined VUndefined VUndefined
           (("asked", VStr "shop@example.com")
              :: WrapperScenario.libraryParams_props));
    reflexivity.
Defined.

(** X13.  When the library fails to resolve a text with an [@], the
    wrapper's resolution fails with the library's message as it is if the
    message contains [is required] or [Invalid], and otherwise with the
    message after [Failed to get POS service params: ] in POS mode and after
    [Failed to get service params: ] without it.  A library that resolves
    to [undefined] makes the resolution fail on setting [posMode]. *)
Theorem X13_wrapper_resolution_errors
  (P : Platform) (options : ServiceParamsOptions.t) (s asked : string) :
  ServiceParamsOptions.lnUrlOrAddress options = VStr s ->
  includes "@" s = true ->
  WrapperOps.posUrlOrAddress (ServiceParamsOptions.posMode options) (VStr s)
  = Ok (VStr asked) ->
  let library :=
    lnurl_requestPayServiceParams P
      (ServiceParamsOptions.make (VStr asked) VUndefined
         (ServiceParamsOptions.onionAllowed options)
         (ServiceParamsOptions.fetchGet options) VUndefined) in
  let prefix :=
    if truthy (ServiceParamsOptions.posMode options)
    then "Failed to get POS service params: "
    else "Failed to get service params: " in
  (forall m : string,
     library = Throw m ->
     WrapperOps.requestPayServiceParams P options
     = Throw (if includes "is required" m || includes "Invalid" m
              then m else prefix ++ m))
  /\ (library = Ok VUndefined ->
      WrapperOps.requestPayServiceParams P options
      = Throw (prefix
                 ++ "Cannot set properties of undefined (setting 'posMode')")).
Proof.
  intros Hs Hat Hasked library prefix. subst library prefix.
  rewrite (WrapperFacts.resolution_path P options s Hs Hat).
  unfold WrapperOps.askLibraryForParams. rewrite Hs, Hasked. cbn [bind].
  split.
  - intros m Hlib. rewrite Hlib. cbn [bind try_catch].
    unfold WrapperOps.rethrowParamsError.
    destruct (includes "is required" m || includes "Invalid" m);
      [reflexivity | ].
    destruct (truthy (ServiceParamsOptions.posMode options)); reflexivity.
  - intros Hlib. rewrite Hlib.
    cbn [bind try_catch WrapperOps.setProperty].
    unfold WrapperOps.rethrowParamsError.
    destruct (truthy (ServiceParamsOptions.posMode options)); reflexivity.
Qed.

Lemma X13_witness :
  WrapperScenario.resolve "shop@down.example.com" (VBool true)
  = Throw "Failed to get POS service params: connect ECONNREFUSED".
Proof.
  apply (proj1 (X13_wrapper_resolution_errors WrapperScenario.platform
                  (ServiceParamsOptions.make (VStr "shop@down.example.com")
                     (VBool true) VUndefined VUndefined VUndefined)
                  "shop@down.example.com" "shop@down.example.com"
                  eq_refl eq_refl eq_refl)
           "connect ECONNREFUSED").
  reflexivity.
Defined.

Module StepFacts.

Import WrapperOps.

Lemma short_is_text (comment : value) :
  WrapperSituation.shortComment comment ->
  WrapperSituation.textOrAbsent comment.
Proof.
  intros [H | (c & -> & _)]; [left; exact H | right; reflexivity].
Qed.

Lemma text_passes (comment : value) :
  WrapperSituation.textOrAbsent comment ->
  truthy comment && negb (is_string comment) = false.
Proof.
  intros [H | H]; rewrite H; [reflexivity | apply andb_false_r].
Qed.

(** The checks of the second step on an object, a positive integer amount
    and a comment that is absent or a text. *)
Lemma checkRequest_cases (props : list (string * value)) (n : Z)
  (comment : value) :
  0 < n -> WrapperSituation.textOrAbsent comment ->
  checkRequest (VObj props) (VNum (num_of_Z n)) comment
  = if PosClient.lt (VNum (num_of_Z n)) (lookup "min" props)
    then Throw ("Amount too small. Minimum: "
                  ++ toString (lookup "min" props) ++ " sats")
    else if PosClient.gt (VNum (num_of_Z n)) (lookup "max" props)
         then Throw ("Amount too large. Maximum: "
                       ++ toString (lookup "max" props) ++ " sats")
         else if WrapperSituation.tooLong comment props
              then Throw ("Comment too long. Maximum: "
                            ++ toString (lookup "commentAllowed" props)
                            ++ " characters")
              else Ok tt.
Proof.
  intros Hn Hc. unfold checkRequest.
  rewrite (WrapperFacts.positive_integer_accepted n Hn), (text_passes _ Hc).
  cbn [truthy negb get bind].
  destruct (PosClient.lt (VNum (num_of_Z n)) (lookup "min" props));
    [reflexivity | ].
  destruct (PosClient.gt (VNum (num_of_Z n)) (lookup "max" props));
    reflexivity.
Qed.

(** The amount error with an integer bound has none of the texts that the
    one-call operation hands on as they are. *)
Lemma amount_error_not_listed (m : Z) :
  let message := "Amount too small. Minimum: " ++ string_of_Z m ++ " sats" in
  includes "is required" message = false
  /\ includes "must be" message = false
  /\ includes "Invalid" message = false
  /\ includes "too long" message = false.
Proof.
  cbv zeta.
  split; [ | split; [ | split]].
  - change (includes "is required" (string_of_Z m ++ " sats") = false).
    rewrite (TextFacts.includes_past "i" "s required");
      [reflexivity | apply TextFacts.string_of_Z_chars; reflexivity].
  - change (includes "must be" (string_of_Z m ++ " sats") = false).
    rewrite (TextFacts.includes_past "m" "ust be");
      [reflexivity | apply TextFacts.string_of_Z_chars; reflexivity].
  - change (includes "Invalid" (string_of_Z m ++ " sats") = false).
    rewrite (TextFacts.includes_past "I" "nvalid");
      [reflexivity | apply TextFacts.string_of_Z_chars; reflexivity].
  - change (includes "too long" (string_of_Z m ++ " sats") = false).
    rewrite (TextFacts.includes_past "t" "oo long");
      [reflexivity | apply TextFacts.string_of_Z_chars; reflexivity].
Qed.

(** A comment of 144 code units at most passes the length check of the
    one-call operation. *)
Lemma short_passes (comment : value) :
  WrapperSituation.shortComment comment ->
  truthy comment && PosClient.gt (lengthOf comment) (VNum (num_of_Z 144))
  = false.
Proof.
  intros [H | (c & -> & Hlen)]; [rewrite H; reflexivity | ].
  cbn [lengthOf]. unfold nat_length. rewrite WrapperFacts.gt_integers.
  replace (144 <? Z.of_nat (utf16_length c)) with false
    by (symmetry; apply Z.ltb_ge; lia).
  apply andb_false_r.
Qed.

(** The one-call operation on a text with an [@], a positive integer
    amount and a comment that its checks let through: its [try] block
    runs. *)
Lemma invoice_path (P : Platform) (options : LnurlPayOptions.t) (s : string)
  (n : Z) :
  LnurlPayOptions.lnUrlOrAddress options = VStr s ->
  includes "@" s = true ->
  LnurlPayOptions.tokens options = VNum (num_of_Z n) ->
  0 < n ->
  WrapperSituation.shortComment (LnurlPayOptions.comment options) ->
  requestInvoice P options
  = try_catch (resolveThenRequest P options)
      (rethrowInvoiceError (LnurlPayOptions.posMode options)).
Proof.
  intros Hs Hat Ht Hn Hc. unfold requestInvoice.
  rewrite Hs, Ht, (WrapperFacts.at_sign_truthy s Hat),
    (WrapperFacts.positive_integer_accepted n Hn),
    (text_passes _ (short_is_text _ Hc)), (short_passes _ Hc).
  cbn [negb call_includes bind]. rewrite Hat. reflexivity.
Qed.

(** What the resolution inside the one-call operation gives when the
    library answers with an object. *)
Lemma wrapper_inner_resolution (P : Platform) (options : LnurlPayOptions.t)
  (s asked : string) (props : list (string * value)) :
  LnurlPayOptions.lnUrlOrAddress options = VStr s ->
  includes "@" s = true ->
  posUrlOrAddress (LnurlPayOptions.posMode options) (VStr s)
  = Ok (VStr asked) ->
  lnurl_requestPayServiceParams P
    (ServiceParamsOptions.make (VStr asked) VUndefined
       (LnurlPayOptions.onionAllowed options)
       (LnurlPayOptions.fetchGet options) VUndefined)
  = Ok (VObj props) ->
  requestPayServiceParams P
    (ServiceParamsOptions.make (LnurlPayOptions.lnUrlOrAddress options)
       (LnurlPayOptions.posMode options)
       (LnurlPayOptions.onionAllowed options)
       (LnurlPayOptions.fetchGet options)
       (LnurlPayOptions.timeout options))
  = Ok (VObj (Json.set_prop "posMode"
                (or_else (LnurlPayOptions.posMode options) (VBool false))
                props)).
Proof.
  intros Hs Hat Hasked Hlib.
  rewrite (WrapperFacts.resolution_path P
             (ServiceParamsOptions.make
                (LnurlPayOptions.lnUrlOrAddress options)
                (LnurlPayOptions.posMode options)
                (LnurlPayOptions.onionAllowed options)
                (LnurlPayOptions.fetchGet options)
                (LnurlPayOptions.timeout options)) s Hs Hat).
  unfold askLibraryForParams.
  cbn [ServiceParamsOptions.lnUrlOrAddress ServiceParamsOptions.posMode
       ServiceParamsOptions.onionAllowed ServiceParamsOptions.fetchGet].
  rewrite Hs, Hasked. cbn [bind]. rewrite Hlib. reflexivity.
Qed.

End StepFacts.

(** X14.  The wrapper's second step, for a parameters object and a positive
    integer amount.  A truthy comment that is not a text is refused with
    [comment must be a string].  With a comment that is absent or a text,
    the amount is checked against [min] and [max] of the parameters before
    anything else: below [min] the call fails with the amount-too-small
    error and above [max] with the amount-too-large error, whatever the
    library would do.  Within the limits a comment longer than
    [commentAllowed] is refused with the comment-too-long error; otherwise
    the library is called with the parameters, the amount and the comment,
    its result is returned as it is, and its failure is wrapped in
    [Invoice request failed: ] unless the message contains [is required],
    [must be], [too small], [too large] or [too long]. *)
Theorem X14_wrapper_second_step
  (P : Platform) (props : list (string * value)) (n : Z)
  (comment timeout : value) :
  0 < n ->
  let tokens := VNum (num_of_Z n) in
  let options :=
    InvoiceWithServiceParamsOptions.make (VObj props) tokens comment timeout in
  let library :=
    lnurl_requestInvoiceWithServiceParams P
      (InvoiceWithServiceParamsOptions.make (VObj props) tokens comment
         VUndefined) in
  (truthy comment = true -> is_string comment = false ->
   WrapperOps.requestInvoiceWithServiceParams P options
   = Throw "comment must be a string")
  /\ (WrapperSituation.textOrAbsent comment ->
      (PosClient.lt tokens (lookup "min" props) = true ->
       WrapperOps.requestInvoiceWithServiceParams P options
       = Throw ("Amount too small. Minimum: "
                  ++ toString (lookup "min" props) ++ " sats"))
      /\ (PosClient.lt tokens (lookup "min" props) = false ->
          PosClient.gt tokens (lookup "max" props) = true ->
          WrapperOps.requestInvoiceWithServiceParams P options
          = Throw ("Amount too large. Maximum: "
                     ++ toString (lookup "max" props) ++ " sats"))
      /\ (PosClient.lt tokens (lookup "min" props) = false ->
          PosClient.gt tokens (lookup "max" props) = false ->
          (WrapperSituation.tooLong comment props = true ->
           WrapperOps.requestInvoiceWithServiceParams P options
           = Throw ("Comment too long. Maximum: "
                      ++ toString (lookup "commentAllowed" props)
                      ++ " characters"))
          /\ (WrapperSituation.tooLong comment props = false ->
              (forall r : value,
                 library = Ok r ->
                 WrapperOps.requestInvoiceWithServiceParams P options = Ok r)
              /\ (forall m : string,
                    library = Throw m ->
                    WrapperOps.requestInvoiceWithServiceParams P options
                    = Throw (if includes "is required" m
                                || includes "must be" m
                                || includes "too small" m
                                || includes "too large" m
                                || includes "too long" m
                             then m else "Invoice request failed: " ++ m))))).
Proof.
  intros Hn tokens options library. subst tokens options library.
  unfold WrapperOps.requestInvoiceWithServiceParams.
  cbn [InvoiceWithServiceParamsOptions.params
       InvoiceWithServiceParamsOptions.tokens
       InvoiceWithServiceParamsOptions.comment].
  split.
  - intros Ht Hs. unfold WrapperOps.checkRequest.
    rewrite (WrapperFacts.positive_integer_accepted n Hn), Ht, Hs.
    reflexivity.
  - intros Hc. rewrite (StepFacts.checkRequest_cases props n comment Hn Hc).
    split; [ | split].
    + intros Hlow. rewrite Hlow. reflexivity.
    + intros Hlow Hhigh. rewrite Hlow, Hhigh. reflexivity.
    + intros Hlow Hhigh. rewrite Hlow, Hhigh. split.
      * intros Hlong. rewrite Hlong. reflexivity.
      * intros Hlong. rewrite Hlong. cbn [bind]. split.
        -- intros r Hlib. rewrite Hlib. reflexivity.
        -- intros m Hlib. rewrite Hlib. cbn [try_catch].
           unfold WrapperOps.rethrowStepError.
           destruct (includes "is required" m || includes "must be" m
                     || includes "too small" m || includes "too large" m
                     || includes "too long" m); reflexivity.
Qed.

Lemma X14_witness :
  WrapperScenario.invoiceWith (VObj WrapperScenario.libraryParams_props) 50
  = Throw "Amount too small. Minimum: 22000 sats"
  /\ WrapperScenario.invoiceWith (VObj WrapperScenario.libraryParams_props)
       25000
     = Ok (VObj WrapperScenario.libraryInvoice_props)
  /\ WrapperOps.requestInvoiceWithServiceParams WrapperScenario.platform
       (InvoiceWithServiceParamsOptions.make
          (VObj [ ("min", Scenario.num 1); ("max", Scenario.num 100);
                  ("commentAllowed", Scenario.num 3) ])
          (Scenario.num 50) (VStr "Thanks") VUndefined)
     = Throw "Comment too long. Maximum: 3 characters".
Proof.
  split; [ | split].
  - apply (proj1 (proj2 (X14_wrapper_second_step WrapperScenario.platform
                           WrapperScenario.libraryParams_props 50 VUndefined
                           VUndefined eq_refl)
                    (or_introl eq_refl))).
    reflexivity.
  - apply (proj1 (proj2 (proj2 (proj2 (proj2 (X14_wrapper_second_step
                                  WrapperScenario.platform
                                  WrapperScenario.libraryParams_props 25000
                                  VUndefined VUndefined eq_refl)
                                  (or_introl eq_refl)))
                           eq_refl eq_refl) eq_refl)).
    reflexivity.
  - apply (proj1 (proj2 (proj2 (proj2 (X14_wrapper_second_step
                                  WrapperScenario.platform
                                  [ ("min", Scenario.num 1);
                                    ("max", Scenario.num 100);
                                    ("commentAllowed", Scenario.num 3) ]
                                  50 (VStr "Thanks") VUndefined eq_refl)
                                  (or_intror eq_refl)))
                    eq_refl eq_refl)).
    reflexivity.
Defined.

(** X15.  In the wrapper's one-call operation, with a comment that is
    absent or a text of 144 code units at most, an amount below the
    provider's minimum, an integer of at most [2^53], does not surface as
    the bare amount error of the second step: the message
    [Amount too small. Minimum: <min> sats] has none of the texts that the
    operation hands on as they are, so it comes back after
    [POS invoice request failed: ] in POS mode and after
    [Invoice request failed: ] without it. *)
Theorem X15_wrapper_wraps_the_amount_error
  (P : Platform) (options : LnurlPayOptions.t) (s asked : string)
  (props : list (string * value)) (n min : Z) :
  LnurlPayOptions.lnUrlOrAddress options = VStr s ->
  includes "@" s = true ->
  WrapperOps.posUrlOrAddress (LnurlPayOptions.posMode options) (VStr s)
  = Ok (VStr asked) ->
  LnurlPayOptions.tokens options = VNum (num_of_Z n) ->
  WrapperSituation.shortComment (LnurlPayOptions.comment options) ->
  lnurl_requestPayServiceParams P
    (ServiceParamsOptions.make (VStr asked) VUndefined
       (LnurlPayOptions.onionAllowed options)
       (LnurlPayOptions.fetchGet options) VUndefined)
  = Ok (VObj props) ->
  lookup "min" props = VNum (num_of_Z min) ->
  0 < n < min -> min <= 2 ^ 53 ->
  WrapperOps.requestInvoice P options
  = Throw ((if truthy (LnurlPayOptions.posMode options)
            then "POS invoice request failed: "
            else "Invoice request failed: ")
             ++ "Amount too small. Minimum: " ++ string_of_Z min ++ " sats").
Proof.
  intros Hs Hat Hasked Ht Hc Hlib Hmin [Hn Hlow] Hsafe.
  rewrite (StepFacts.invoice_path P options s n Hs Hat Ht Hn Hc).
  unfold WrapperOps.resolveThenRequest.
  rewrite (StepFacts.wrapper_inner_resolution P options s asked props Hs Hat Hasked
             Hlib).
  cbn [bind]. unfold WrapperOps.requestInvoiceWithServiceParams.
  cbn [InvoiceWithServiceParamsOptions.params
       InvoiceWithServiceParamsOptions.tokens
       InvoiceWithServiceParamsOptions.comment].
  rewrite Ht, (StepFacts.checkRequest_cases _ n _ Hn
                 (StepFacts.short_is_text _ Hc)).
  rewrite WrapperFacts.lookup_set_prop_other by discriminate.
  rewrite Hmin, WrapperFacts.lt_integers.
  replace (n <? min) with true by (symmetry; apply Z.ltb_lt; exact Hlow).
  cbn [bind try_catch toString].
  rewrite TextFacts.num_toString_integer by lia.
  unfold WrapperOps.rethrowInvoiceError.
  destruct (StepFacts.amount_error_not_listed min) as (H1 & H2 & H3 & H4).
  cbv zeta in H1, H2, H3, H4. rewrite H1, H2, H3, H4. cbn [orb].
  destruct (truthy (LnurlPayOptions.posMode options)); reflexivity.
Qed.

Lemma X15_witness :
  WrapperScenario.invoice "shop@example.com" 50 (VBool true)
  = Throw "POS invoice request failed: Amount too small. Minimum: 22000 sats".
Proof.
  apply (X15_wrapper_wraps_the_amount_error WrapperScenario.platform
           (LnurlPayOptions.make (VStr "shop@example.com")
              (Scenario.num 50) VUndefined (VBool true) VUndefined VUndefined
              VUndefined)
           "shop@example.com" "shop@example.com"
           (("asked", VStr "shop@example.com")
              :: WrapperScenario.libraryParams_props)
           50 22000 eq_refl eq_refl eq_refl eq_refl (or_introl eq_refl)
           eq_refl eq_refl).
  - lia.
  - discriminate.
Defined.

Module EntryFacts.

(** A scan goes past the entries that the test refuses. *)
Lemma find_past {A : Type} (f : A -> bool) (before after : list A) :
  (forall e, In e before -> f e = false) ->
  find f (before ++ after)%list = find f after.
Proof.
  intros H. induction before as [ | b before IH]; cbn; [reflexivity | ].
  rewrite (H b) by (left; reflexivity).
  apply IH. intros e He. apply H. right. exact He.
Qed.

(** Two tests that agree on the entries of a list find the same entry. *)
Lemma find_agree {A : Type} (f g : A -> bool) (items : list A) :
  (forall e, In e items -> f e = g e) -> find f items = find g items.
Proof.
  intros H. induction items as [ | b items IH]; cbn; [reflexivity | ].
  rewrite (H b) by (left; reflexivity).
  destruct (g b); [reflexivity | ].
  apply IH. intros e He. apply H. right. exact He.
Qed.

(** The wrapper's test is the client's test and two elements at least. *)
Lemma isTextEntry_parts (entry : value) :
  WrapperOps.isTextEntry entry
  = PosClient.isTextPlainItem entry
    && match entry with
       | VArr elems => Nat.leb 2 (List.length elems)
       | _ => false
       end.
Proof.
  unfold WrapperOps.isTextEntry, PosClient.isTextPlainItem.
  destruct entry; try reflexivity.
  cbn [isArray andb PosClient.item_at]. apply andb_comm.
Qed.

Lemma find_entry_throws (pred : value -> result bool) (before : list value)
  (x : value) (after : list value) (m : string) :
  (forall e, In e before -> pred e = Ok false) -> pred x = Throw m ->
  LibWrapper.find_entry pred (before ++ x :: after)%list = Throw m.
Proof.
  intros Hb Hx. induction before as [ | b before IH]; cbn.
  - rewrite Hx. reflexivity.
  - rewrite (Hb b) by (left; reflexivity). cbn.
    apply IH. intros e He. apply Hb. right. exact He.
Qed.

End EntryFacts.

(** X16.  The two variants of [parseDescription] give the same description
    for every metadata list in which each entry whose first element is
    [text/plain] has two elements at least, and [Payment] for every value
    that is not a list.  They part on the entry [["text/plain"]]: when it
    is the first entry of that content type the main client returns
    [undefined], and the wrapper goes past it and describes the rest of the
    list. *)
Theorem X16_parseDescription_variants :
  (forall items : list value,
     (forall e, In e items ->
                PosClient.isTextPlainItem e = true ->
                WrapperOps.isTextEntry e = true) ->
     WrapperOps.parseDescription (VArr items)
     = PosClient.parseDescription (VArr items))
  /\ (forall metadata : value,
        isArray metadata = false ->
        WrapperOps.parseDescription metadata = VStr "Payment"
        /\ PosClient.parseDescription metadata = VStr "Payment")
  /\ (forall before after : list value,
        (forall e, In e before -> PosClient.isTextPlainItem e = false) ->
        PosClient.parseDescription
          (VArr (before ++ VArr [VStr "text/plain"] :: after)%list)
        = VUndefined
        /\ WrapperOps.parseDescription
             (VArr (before ++ VArr [VStr "text/plain"] :: after)%list)
           = WrapperOps.parseDescription (VArr after)).
Proof.
  split; [ | split].
  - intros items H.
    unfold WrapperOps.parseDescription, PosClient.parseDescription.
    cbn [truthy isArray negb orb].
    rewrite (EntryFacts.find_agree WrapperOps.isTextEntry
               PosClient.isTextPlainItem items); [reflexivity | ].
    intros e He. rewrite EntryFacts.isTextEntry_parts.
    destruct (PosClient.isTextPlainItem e) eqn:Hc; [ | reflexivity].
    specialize (H e He Hc). rewrite EntryFacts.isTextEntry_parts, Hc in H.
    exact H.
  - intros metadata H. split.
    + unfold WrapperOps.parseDescription. rewrite H, orb_true_r. reflexivity.
    + destruct metadata; try reflexivity. discriminate.
  - intros before after H. split.
    + unfold PosClient.parseDescription.
      rewrite (ScanFacts.find_first PosClient.isTextPlainItem before
                 (VArr [VStr "text/plain"]) after H eq_refl).
      reflexivity.
    + unfold WrapperOps.parseDescription. cbn [truthy isArray negb orb].
      rewrite (EntryFacts.find_past WrapperOps.isTextEntry before).
      * reflexivity.
      * intros e He. rewrite EntryFacts.isTextEntry_parts, (H e He).
        reflexivity.
Qed.

Lemma X16_witness :
  WrapperOps.parseDescription
    (VArr [ VArr [VStr "image/png;base64"; VStr "data"];
            VArr [VStr "text/plain"; VStr "Test payment"] ])
  = PosClient.parseDescription
      (VArr [ VArr [VStr "image/png;base64"; VStr "data"];
              VArr [VStr "text/plain"; VStr "Test payment"] ])
  /\ PosClient.parseDescription
       (VArr [ VArr [VStr "text/plain"];
               VArr [VStr "text/plain"; VStr "Second"] ])
     = VUndefined
  /\ WrapperOps.parseDescription
       (VArr [ VArr [VStr "text/plain"];
               VArr [VStr "text/plain"; VStr "Second"] ])
     = VStr "Second".
Proof.
  split; [ | split].
  - apply (proj1 X16_parseDescription_variants).
    intros e [<- | [<- | []]]; [discriminate | reflexivity].
  - apply (proj1 (proj2 (proj2 X16_parseDescription_variants) []
                    [VArr [VStr "text/plain"; VStr "Second"]]
                    (fun e (H : In e []) => match H with end))).
  - apply (eq_trans
             (proj2 (proj2 (proj2 X16_parseDescription_variants) []
                       [VArr [VStr "text/plain"; VStr "Second"]]
                       (fun e (H : In e []) => match H with end)))).
    reflexivity.
Defined.

(** X17.  For a comment that is absent, or a text of 144 code units at
    most that is not longer than [commentAllowed] of the resolved
    parameters: when the library resolves the text to an object whose [min]
    and [max] are integers with [min <= amount <= max], and then answers the
    second step with an object, the wrapper's one-call operation returns
    the library's [invoice], [successAction] and [rawData], the resolved
    parameters carrying [posMode], and [hasValidAmount] and
    [hasValidDescriptionHash] both [true]; the second step is asked with
    the parameters that already carry [posMode]. *)
Theorem X17_wrapper_one_call_result
  (P : Platform) (options : LnurlPayOptions.t) (s asked : string)
  (props answer : list (string * value)) (n min max : Z) :
  LnurlPayOptions.lnUrlOrAddress options = VStr s ->
  includes "@" s = true ->
  WrapperOps.posUrlOrAddress (LnurlPayOptions.posMode options) (VStr s)
  = Ok (VStr asked) ->
  LnurlPayOptions.tokens options = VNum (num_of_Z n) ->
  WrapperSituation.shortComment (LnurlPayOptions.comment options) ->
  lnurl_requestPayServiceParams P
    (ServiceParamsOptions.make (VStr asked) VUndefined
       (LnurlPayOptions.onionAllowed options)
       (LnurlPayOptions.fetchGet options) VUndefined)
  = Ok (VObj props) ->
  lookup "min" props = VNum (num_of_Z min) ->
  lookup "max" props = VNum (num_of_Z max) ->
  0 < n -> min <= n <= max ->
  WrapperSituation.tooLong (LnurlPayOptions.comment options) props = false ->
  let params :=
    VObj (Json.set_prop "posMode"
            (or_else (LnurlPayOptions.posMode options) (VBool false))
            props) in
  lnurl_requestInvoiceWithServiceParams P
    (InvoiceWithServiceParamsOptions.make params (VNum (num_of_Z n))
       (LnurlPayOptions.comment options) VUndefined)
  = Ok (VObj answer) ->
  WrapperOps.requestInvoice P options
  = Ok (VObj
          [ ("invoice", lookup "invoice" answer);
            ("params", params);
            ("successAction", lookup "successAction" answer);
            ("rawData", lookup "rawData" answer);
            ("hasValidAmount", VBool true);
            ("hasValidDescriptionHash", VBool true);
            ("validatePreimage", VFun "() => true") ]).
Proof.
  intros Hs Hat Hasked Ht Hc Hlib Hmin Hmax Hn [Hlo Hhi] Hlong params Hstep.
  subst params.
  rewrite (StepFacts.invoice_path P options s n Hs Hat Ht Hn Hc).
  unfold WrapperOps.resolveThenRequest.
  rewrite (StepFacts.wrapper_inner_resolution P options s asked props Hs Hat Hasked
             Hlib).
  cbn [bind]. unfold WrapperOps.requestInvoiceWithServiceParams.
  cbn [InvoiceWithServiceParamsOptions.params
       InvoiceWithServiceParamsOptions.tokens
       InvoiceWithServiceParamsOptions.comment].
  rewrite Ht, (StepFacts.checkRequest_cases _ n _ Hn
                 (StepFacts.short_is_text _ Hc)).
  unfold WrapperSituation.tooLong in *.
  rewrite !WrapperFacts.lookup_set_prop_other by discriminate.
  rewrite Hmin, Hmax, WrapperFacts.lt_integers, WrapperFacts.gt_integers.
  replace (n <? min) with false by (symmetry; apply Z.ltb_ge; exact Hlo).
  replace (max <? n) with false by (symmetry; apply Z.ltb_ge; exact Hhi).
  rewrite Hlong.
  cbn [bind]. rewrite Hstep. cbn [try_catch bind get].
  rewrite !WrapperFacts.lookup_set_prop_other by discriminate.
  rewrite Hmin, Hmax, WrapperFacts.ge_integers, WrapperFacts.le_integers.
  replace (min <=? n) with true by (symmetry; apply Z.leb_le; exact Hlo).
  replace (n <=? max) with true by (symmetry; apply Z.leb_le; exact Hhi).
  reflexivity.
Qed.

Lemma X17_witness :
  WrapperOps.requestInvoice WrapperScenario.platform
    (LnurlPayOptions.make (VStr "shop@example.com") (Scenario.num 25000)
       (VStr "Thanks") (VBool true) VUndefined VUndefined VUndefined)
  = Ok (VObj
          [ ("invoice", VStr "lnbc250u1...");
            ("params",
             VObj (Json.set_prop "posMode" (VBool true)
                     (("asked", VStr "shop@example.com")
                        :: WrapperScenario.libraryParams_props)));
            ("successAction", VNull);
            ("rawData", VObj [("pr", VStr "lnbc250u1...")]);
            ("hasValidAmount", VBool true);
            ("hasValidDescriptionHash", VBool true);
            ("validatePreimage", VFun "() => true") ]).
Proof.
  apply (X17_wrapper_one_call_result WrapperScenario.platform
           (LnurlPayOptions.make (VStr "shop@example.com")
              (Scenario.num 25000) (VStr "Thanks") (VBool true) VUndefined
              VUndefined VUndefined)
           "shop@example.com" "shop@example.com"
           (("asked", VStr "shop@example.com")
              :: WrapperScenario.libraryParams_props)
           WrapperScenario.libraryInvoice_props 25000 22000 500000
           eq_refl eq_refl eq_refl eq_refl).
  - right. exists "Thanks". split; [reflexivity | vm_compute; lia].
  - reflexivity.
  - reflexivity.
  - reflexivity.
  - reflexivity.
  - lia.
  - reflexivity.
  - reflexivity.
Defined.

(** X18.  The wrapper's [extractImage] throws on a metadata list in which
    an entry of two elements or more whose first element is not a text
    comes before every image entry: the call of [startsWith] on that
    element fails, and nothing in the function catches it. *)
Theorem X18_wrapper_extractImage_throws
  (before : list value) (first second : value) (rest after : list value) :
  (forall e, In e before -> LibWrapper.isImageEntry e = Ok false) ->
  is_string first = false ->
  exists m : string,
    LibWrapper.extractImage
      (VArr (before ++ VArr (first :: second :: rest) :: after)%list)
    = Throw m
    /\ includes "startsWith" m = true.
Proof.
  intros Hb Hfirst.
  assert (Hthrow : exists m,
             LibWrapper.isImageEntry (VArr (first :: second :: rest)) = Throw m
             /\ includes "startsWith" m = true).
  { unfold LibWrapper.isImageEntry.
    cbn [List.length Nat.leb index nth call_startsWith].
    destruct first; try discriminate; eexists; split; reflexivity. }
  destruct Hthrow as (m & Hm & Hinc). exists m. split; [ | exact Hinc].
  unfold LibWrapper.extractImage. cbn [truthy isArray negb orb].
  rewrite (EntryFacts.find_entry_throws LibWrapper.isImageEntry before _ after
             m Hb Hm).
  reflexivity.
Qed.

Lemma X18_witness :
  exists m : string,
    LibWrapper.extractImage
      (VArr [ VArr [VStr "text/plain"; VStr "Shop"];
              VArr [VNull; VStr "data"];
              VArr [VStr "image/png;base64"; VStr "data"] ])
    = Throw m
    /\ includes "startsWith" m = true.
Proof.
  apply (X18_wrapper_extractImage_throws
           [VArr [VStr "text/plain"; VStr "Shop"]] VNull (VStr "data") []
           [VArr [VStr "image/png;base64"; VStr "data"]]).
  - intros e [<- | []]. reflexivity.
  - reflexivity.
Defined.

(** X19.  [isValidLightningAddress] accepts a value exactly when it is a
    text made of a user name, one [@] and a domain, where neither part is
    empty, neither holds a further [@], and the domain holds a dot. *)
Theorem X19_isValidLightningAddress (address : value) :
  PosClient.isValidLightningAddress address = true
  <-> exists username domain : string,
        address = VStr (username ++ "@" ++ domain)
        /\ includes "@" username = false /\ includes "@" domain = false
        /\ username <> EmptyString /\ domain <> EmptyString
        /\ includes "." domain = true.
Proof.
  split.
  - intros H. destruct address as [ | | b | n | s | l | o | f];
      try discriminate.
    apply isValidLightningAddress_iff in H.
    destruct H as (u & d & -> & Hrest). exists u, d.
    split; [reflexivity | exact Hrest].
  - intros (u & d & -> & Hrest). apply isValidLightningAddress_iff.
    exists u, d. split; [reflexivity | exact Hrest].
Qed.

Lemma X19_witness :
  exists username domain : string,
    VStr "merchant@bringin.xyz" = VStr (username ++ "@" ++ domain)
    /\ includes "@" username = false /\ includes "@" domain = false
    /\ username <> EmptyString /\ domain <> EmptyString
    /\ includes "." domain = true.
Proof.
  apply (proj1 (X19_isValidLightningAddress (VStr "merchant@bringin.xyz"))).
  reflexivity.
Defined.

(** X20.  The wrapper's one-call operation refuses, before the library is
    asked anything and whatever the provider allows, a comment of more
    than 144 UTF-16 code units with
    [Comment too long. Maximum: 144 characters]; and with a comment of 144
    code units at most, or none, it refuses every non-empty text without
    an [@] with [Invalid Lightning address format]. *)
Theorem X20_wrapper_checks_before_the_library
  (P : Platform) (options : LnurlPayOptions.t) (s : string) (n : Z) :
  LnurlPayOptions.lnUrlOrAddress options = VStr s ->
  s <> EmptyString ->
  LnurlPayOptions.tokens options = VNum (num_of_Z n) ->
  0 < n ->
  (forall c : string,
     LnurlPayOptions.comment options = VStr c ->
     (144 < utf16_length c)%nat ->
     WrapperOps.requestInvoice P options
     = Throw "Comment too long. Maximum: 144 characters")
  /\ (WrapperSituation.shortComment (LnurlPayOptions.comment options) ->
      includes "@" s = false ->
      WrapperOps.requestInvoice P options
      = Throw "Invalid Lightning address format").
Proof.
  intros Hs Hne Ht Hn.
  assert (Htruthy : truthy (VStr s) = true).
  { destruct s; [congruence | reflexivity]. }
  split.
  - intros c Hc Hlen. unfold WrapperOps.requestInvoice.
    rewrite Hs, Ht, Hc, Htruthy,
      (WrapperFacts.positive_integer_accepted n Hn).
    assert (Hc' : truthy (VStr c) = true).
    { destruct c; [cbn in Hlen; lia | reflexivity]. }
    rewrite Hc'. cbn [negb andb is_string WrapperOps.lengthOf].
    unfold nat_length. rewrite WrapperFacts.gt_integers.
    replace (144 <? Z.of_nat (utf16_length c)) with true
      by (symmetry; apply Z.ltb_lt; lia).
    reflexivity.
  - intros Hc Hat. unfold WrapperOps.requestInvoice.
    rewrite Hs, Ht, Htruthy, (WrapperFacts.positive_integer_accepted n Hn),
      (StepFacts.text_passes _ (StepFacts.short_is_text _ Hc)),
      (StepFacts.short_passes _ Hc).
    cbn [negb call_includes bind]. rewrite Hat. reflexivity.
Qed.

(** An LNURL, and a comment of 100 characters of two bytes each, which is
    within the 144 code units. *)
Lemma X20_witness :
  WrapperScenario.invoice "lnurl1dp68gurn8ghj7" 25000 VUndefined
  = Throw "Invalid Lightning address format"
  /\ WrapperOps.requestInvoice WrapperScenario.platform
       (LnurlPayOptions.make (VStr "lnurl1dp68gurn8ghj7") (Scenario.num 25000)
          (VStr (WrapperScenario.accented 100)) VUndefined VUndefined
          VUndefined VUndefined)
     = Throw "Invalid Lightning address format".
Proof.
  split.
  - apply (proj2 (X20_wrapper_checks_before_the_library
                    WrapperScenario.platform
                    (LnurlPayOptions.make (VStr "lnurl1dp68gurn8ghj7")
                       (Scenario.num 25000) VUndefined VUndefined
                       VUndefined VUndefined VUndefined)
                    "lnurl1dp68gurn8ghj7" 25000 eq_refl
                    ltac:(discriminate) eq_refl eq_refl));
      [left; reflexivity | reflexivity].
  - apply (proj2 (X20_wrapper_checks_before_the_library
                    WrapperScenario.platform
                    (LnurlPayOptions.make (VStr "lnurl1dp68gurn8ghj7")
                       (Scenario.num 25000)
                       (VStr (WrapperScenario.accented 100)) VUndefined
                       VUndefined VUndefined VUndefined)
                    "lnurl1dp68gurn8ghj7" 25000 eq_refl
                    ltac:(discriminate) eq_refl eq_refl));
      [ | reflexivity].
    right. exists (WrapperScenario.accented 100).
    split; [reflexivity | vm_compute; lia].
Defined.
